(** * chabad_data: the search Indexer and the corpus Splitter

    A shallow embedding of [create_search_index.py] and [split_maamarim.py]
    and the properties of their outputs.

    Conventions of the embedding.
    - A Python [str] is a [list ascii]; a character stands for the code point
      of the same number, so the model covers the strings whose code points
      are below 256.  [str "..."] turns a literal into such a list.
    - A Python [int] is a [Z]; [len] is [Z.of_nat (length _)].
    - A [dict] is an association list in insertion order, which is the order
      Python iterates and serialises it in.
    - A JSON object whose keys may be missing is a record of [option] fields;
      [d.get(k, default)] is [get_or default].
    - Files live in an explicit store that the two scripts thread through
      their writes; an exception stops the run and leaves the store as it is. *)

From Stdlib Require Import List ZArith Lia Ascii Bool Arith.
From Stdlib Require String DecimalString.
Import String.StringSyntax.
Delimit Scope string_scope with string.
From Stdlib Require Import Sorting.Sorted Sorting.Permutation.
Import ListNotations.

Set Implicit Arguments.
Open Scope Z_scope.

(** ** Python built-ins *)

Module Py.

Definition pystr : Type := list ascii.

Definition str (s : String.string) : pystr := String.list_ascii_of_string s.
Arguments str s%_string.

(** Truthiness of a string or a list: non-empty. *)
Definition truthy {A} (l : list A) : bool :=
  match l with [] => false | _ :: _ => true end.

Definition len {A} (l : list A) : Z := Z.of_nat (length l).

Fixpoint str_eqb (a b : pystr) : bool :=
  match a, b with
  | [], [] => true
  | x :: a', y :: b' => Ascii.eqb x y && str_eqb a' b'
  | _, _ => false
  end.

(** [c in s] for a one-character [c]. *)
Definition contains (c : ascii) (s : pystr) : bool := existsb (Ascii.eqb c) s.
Arguments contains c%_char s.

(** [x in l] for a list of strings. *)
Definition str_in (x : pystr) (l : list pystr) : bool := existsb (str_eqb x) l.

(** [str.isspace] on code points below 256: TAB..CR, FS..US, SPACE, NEL, NBSP. *)
Definition isspace (c : ascii) : bool :=
  let n := nat_of_ascii c in
  ((9 <=? n) && (n <=? 13) || (28 <=? n) && (n <=? 32) || (n =? 133) || (n =? 160))%nat.

Fixpoint dropwhile {A} (p : A -> bool) (l : list A) : list A :=
  match l with
  | [] => []
  | x :: l' => if p x then dropwhile p l' else l
  end.

(** [s.lstrip(chars)] and [s.rstrip(chars)], the set of characters as a predicate. *)
Definition lstrip_of (p : ascii -> bool) (s : pystr) : pystr := dropwhile p s.
Definition rstrip_of (p : ascii -> bool) (s : pystr) : pystr := rev (dropwhile p (rev s)).

Definition lstrip (chars s : pystr) : pystr := lstrip_of (fun c => contains c chars) s.
Definition rstrip (chars s : pystr) : pystr := rstrip_of (fun c => contains c chars) s.

(** [s.strip()] *)
Definition strip (s : pystr) : pystr := rstrip_of isspace (lstrip_of isspace s).

(** [s.split(sep)] for a one-character separator: never empty, [''.split(sep) == ['']]. *)
Fixpoint split (sep : ascii) (s : pystr) : list pystr :=
  match s with
  | [] => [[]]
  | c :: s' =>
      if Ascii.eqb c sep then [] :: split sep s'
      else match split sep s' with
           | w :: ws => (c :: w) :: ws
           | [] => [[c]]
           end
  end.

Arguments split sep%_char s.

(** [s.split(sep, 1)]: cut at the first separator only. *)
Fixpoint split1 (sep : ascii) (s : pystr) : list pystr :=
  match s with
  | [] => [[]]
  | c :: s' =>
      if Ascii.eqb c sep then [[]; s']
      else match split1 sep s' with
           | w :: ws => (c :: w) :: ws
           | [] => [[c]]
           end
  end.

Arguments split1 sep%_char s.

(** [s.split()]: maximal runs of non-whitespace characters. *)
Fixpoint split_ws (s : pystr) : list pystr :=
  match s with
  | [] => []
  | c :: s' =>
      if isspace c then split_ws s'
      else match s' with
           | [] => [[c]]
           | c' :: _ =>
               if isspace c' then [c] :: split_ws s'
               else match split_ws s' with
                    | w :: ws => (c :: w) :: ws
                    | [] => [[c]]
                    end
           end
  end.

(** [l[i]] for a natural index; the uses below are all in range
    (see [split1_second] and [split_second]), so the default is never taken. *)
Definition item (l : list pystr) (i : nat) : pystr := nth i l [].

(** [str.lower] on code points below 256: A..Z and the Latin-1 capitals
    (all of 192..222 but the multiplication sign 215) move up by 32. *)
Definition lower_char (c : ascii) : ascii :=
  let n := nat_of_ascii c in
  if ((65 <=? n) && (n <=? 90) || (192 <=? n) && (n <=? 222) && negb (n =? 215))%nat
  then ascii_of_nat (n + 32) else c.

Definition lower (s : pystr) : pystr := map lower_char s.

(** [s.replace(a, b)] for one-character [a] and [b]. *)
Definition replace (a b : ascii) (s : pystr) : pystr :=
  map (fun c => if Ascii.eqb c a then b else c) s.

Arguments replace (a b)%_char s.

(** [sep.join(l)] *)
Fixpoint join (sep : pystr) (l : list pystr) : pystr :=
  match l with
  | [] => []
  | [x] => x
  | x :: l' => x ++ sep ++ join sep l'
  end.

(** [str(n)] for an integer. *)
Definition str_of_int (n : Z) : pystr :=
  str (DecimalString.NilZero.string_of_int (Z.to_int n)).

(** [range(n)] *)
Definition range (n : Z) : list Z := map Z.of_nat (seq 0 (Z.to_nat n)).

(** [l[a:b]] with Python's reading of negative and overlong indices. *)
Definition clamp (n i : Z) : Z :=
  let j := if i <? 0 then i + n else i in Z.max 0 (Z.min n j).

Definition slice {A} (l : list A) (a b : Z) : list A :=
  let n := len l in
  let a' := clamp n a in
  let b' := clamp n b in
  firstn (Z.to_nat (b' - a')) (skipn (Z.to_nat a') l).

(** [d.get(k, default)] on a record field that may be missing. *)
Definition get_or {A} (default : A) (o : option A) : A :=
  match o with Some x => x | None => default end.

End Py.

Import Py.

(** ** Insertion-ordered dictionaries *)

Module Dict.
Section Dict.
Variables (K V : Type) (keq : K -> K -> bool).

Definition t : Type := list (K * V).

Definition empty : t := [].

(** [d.get(k)] *)
Fixpoint get (k : K) (d : t) : option V :=
  match d with
  | [] => None
  | (k', v) :: d' => if keq k k' then Some v else get k d'
  end.

(** [k in d] *)
Definition mem (k : K) (d : t) : bool :=
  match get k d with Some _ => true | None => false end.

(** [d[k] = v]: a known key keeps its place, a new one goes last. *)
Fixpoint set (k : K) (v : V) (d : t) : t :=
  match d with
  | [] => [(k, v)]
  | (k', v') :: d' => if keq k k' then (k', v) :: d' else (k', v') :: set k v d'
  end.

Definition keys (d : t) : list K := map fst d.
Definition items (d : t) : list (K * V) := d.
End Dict.

(** [d[k].append(x)] on a [defaultdict(list)]. *)
Definition append {K X} (keq : K -> K -> bool) (k : K) (x : X) (d : t K (list X)) : t K (list X) :=
  match get keq k d with
  | Some l => set keq k (l ++ [x]) d
  | None => set keq k [x] d
  end.

End Dict.

(** The dictionaries keyed by strings. *)
Definition sdict (V : Type) : Type := Dict.t pystr V.
Definition sget {V} := @Dict.get pystr V str_eqb.
Definition sset {V} := @Dict.set pystr V str_eqb.
Definition smem {V} := @Dict.mem pystr V str_eqb.
Definition sappend {X} := @Dict.append pystr X str_eqb.

(** [sorted(l, key=key, reverse=True)].  Python's sort is stable, also under
    [reverse=True]; a stable sort has one possible result, computed here by
    insertion: an element goes in front of the first one whose key is not
    larger than its own. *)
Section Sorted.
Variables (A : Type) (key : A -> Z).

Fixpoint insert_desc (x : A) (l : list A) : list A :=
  match l with
  | [] => [x]
  | y :: l' => if key y <=? key x then x :: l else y :: insert_desc x l'
  end.

Definition sorted_reverse (l : list A) : list A := fold_right insert_desc [] l.
End Sorted.

(** ** Files and exceptions *)

Module IO.

Inductive exn : Type :=
| LoadError                       (* open() or json.load() failed on the input *)
| OSError (path : pystr)          (* open(path, 'w') was refused *)
| KeyError (key : pystr)
| AttributeError (attr : pystr)   (* attribute looked up on None *)
| ZeroDivisionError.

Inductive result (A : Type) : Type :=
| Ok (a : A)
| Raise (e : exn).
Arguments Ok {A} a.
Arguments Raise {A} e.

Section IO.
(** [J] is what [json.dump] is handed. *)
Variable J : Type.

Inductive file : Type :=
| TextFile (text : pystr)
| JsonFile (value : J).

(** The directories and files written so far, and the paths the system
    refuses to create or to open for writing (no permission, a file where a
    directory is wanted, a directory where a file is wanted). *)
Record world : Type := {
  dirs : list pystr;
  files : sdict file;
  read_only : list pystr
}.

Definition empty_world : world := {| dirs := []; files := []; read_only := [] |}.

Definition M (A : Type) : Type := world -> world * result A.

Definition ret {A} (a : A) : M A := fun w => (w, Ok a).
Definition raise {A} (e : exn) : M A := fun w => (w, Raise e).
Definition bind {A B} (m : M A) (f : A -> M B) : M B :=
  fun w => match m w with
           | (w', Ok a) => f a w'
           | (w', Raise e) => (w', Raise e)
           end.

Definition put_file (p : pystr) (f : file) (w : world) : world :=
  {| dirs := dirs w; files := sset p f (files w); read_only := read_only w |}.

(** [os.makedirs(p, exist_ok=True)]: a directory that is there already is
    no error, a path that cannot be a directory is. *)
Definition makedirs (p : pystr) : M unit :=
  fun w => if str_in p (read_only w) then (w, Raise (OSError p))
           else ({| dirs := if str_in p (dirs w) then dirs w else dirs w ++ [p];
                    files := files w; read_only := read_only w |}, Ok tt).

(** [open(p, 'w')]: the file exists and is empty from here on. *)
Definition open_w (p : pystr) : M unit :=
  fun w => if str_in p (read_only w) then (w, Raise (OSError p))
           else (put_file p (TextFile []) w, Ok tt).

(** [f.write(s)] on the file opened at [p]. *)
Definition write (p s : pystr) : M unit :=
  fun w => (match sget p (files w) with
            | Some (TextFile old) => put_file p (TextFile (old ++ s)) w
            | _ => put_file p (TextFile s) w
            end, Ok tt).

(** [with open(p, 'w') as f: json.dump(v, f, ...)] *)
Definition json_dump (p : pystr) (v : J) : M unit :=
  fun w => if str_in p (read_only w) then (w, Raise (OSError p))
           else (put_file p (JsonFile v) w, Ok tt).

(** [for x in l: body x], stopped by the first exception. *)
Fixpoint for_each {A} (l : list A) (body : A -> M unit) : M unit :=
  match l with
  | [] => ret tt
  | x :: l' => bind (body x) (fun _ => for_each l' body)
  end.

(** A loop that carries a value from one round to the next. *)
Fixpoint for_fold {A S} (l : list A) (body : S -> A -> M S) (s : S) : M S :=
  match l with
  | [] => ret s
  | x :: l' => bind (body s x) (for_fold l' body)
  end.

Definition write_all (p : pystr) (l : list pystr) : M unit :=
  for_each l (write p).
End IO.

Arguments TextFile {J} text.
Arguments JsonFile {J} value.
Arguments ret {J A} a.
Arguments raise {J A} e.
Arguments empty_world {J}.

End IO.

Import IO.

Declare Scope io_scope.
Delimit Scope io_scope with io.
Notation "x <- m ;; k" := (bind m (fun x => k))
  (at level 100, m at next level, right associativity) : io_scope.
Notation "m ;; k" := (bind m (fun _ => k))
  (at level 100, right associativity) : io_scope.

(** ** The corpus *)

Record Metadata : Type := {
  hebrew_date : option pystr;
  gregorian_date : option pystr;
  opening_phrase : option pystr;
  topics : option (list pystr);
  key_concepts : option (list pystr);
  biblical_references : option (list pystr);
  talmudic_references : option (list pystr);
  chassidic_references : option (list pystr);
  word_count : option Z;
  chunk_count : option Z
}.

Record Content : Type := {
  main_text : option pystr;
  main_text_chunks : option (list pystr);
  glossary : option pystr
}.

Record Document : Type := {
  id : option pystr;
  reference : option pystr;
  metadata : option Metadata;
  content : option Content
}.

Record CollectionMetadata : Type := { date_range : option pystr }.

Record Data : Type := {
  collection_metadata : option CollectionMetadata;
  documents : option (list Document)
}.

(** The empty object [{}] that [.get(k, {})] falls back to. *)
Definition no_metadata : Metadata :=
  {| hebrew_date := None; gregorian_date := None; opening_phrase := None;
     topics := None; key_concepts := None; biblical_references := None;
     talmudic_references := None; chassidic_references := None;
     word_count := None; chunk_count := None |}.
Definition no_content : Content :=
  {| main_text := None; main_text_chunks := None; glossary := None |}.
Definition no_collection_metadata : CollectionMetadata := {| date_range := None |}.

(** [doc.get('metadata', {})] and [doc.get('content', {})] *)
Definition doc_metadata (doc : Document) : Metadata := get_or no_metadata (metadata doc).
Definition doc_content (doc : Document) : Content := get_or no_content (content doc).

(** What [open] and [json.load] make of the input file: [None] when the file
    is missing or is not JSON. *)
Definition load {J} (input : option Data) : M J Data :=
  match input with
  | Some data => ret data
  | None => raise LoadError
  end.

Definition nl : pystr := [ascii_of_nat 10].

(** ** Glossary parsing

    Both scripts carry the same inline code for the glossary field; it is
    written once here.  The Splitter does not look at the English part. *)

Record GlossaryEntry : Type := {
  hebrew_term : pystr;
  transliteration : pystr;
  english_part : pystr
}.

(** The candidate entries:
    [[e.strip() for e in glossary_text.lstrip('|').split(';') if e.strip()]]
    under the guard [if glossary_text and glossary_text.strip()]. *)
Definition glossary_entries (glossary_text : pystr) : list pystr :=
  if truthy glossary_text && truthy (strip glossary_text) then
    let glossary_text := lstrip (str "|") glossary_text in
    map strip (filter (fun e => truthy (strip e)) (split ";" glossary_text))
  else [].

(** The body of [for entry in entries] up to the point where the index is
    touched: [None] when the guard [':' in entry] fails. *)
Definition parse_entry (entry : pystr) : option GlossaryEntry :=
  if contains ":" entry then
    let hebrew_part := strip (item (split1 ":" entry) 0) in
    let english_part := strip (item (split1 ":" entry) 1) in
    if contains "(" hebrew_part then
      Some {| hebrew_term := strip (item (split "(" hebrew_part) 0);
              transliteration := strip (rstrip (str ")") (item (split "(" hebrew_part) 1));
              english_part := english_part |}
    else
      Some {| hebrew_term := hebrew_part;
              transliteration := [];
              english_part := english_part |}
  else None.

Fixpoint omap {A B} (f : A -> option B) (l : list A) : list B :=
  match l with
  | [] => []
  | x :: l' => match f x with Some y => y :: omap f l' | None => omap f l' end
  end.

(** The entries that reach the index, in order. *)
Definition parse_glossary (glossary_text : pystr) : list GlossaryEntry :=
  omap parse_entry (glossary_entries glossary_text).

(** [enumerate(l)] *)
Definition enumerate {A} (l : list A) : list (nat * A) := combine (seq 0 (length l)) l.

(** ** The Indexer: [create_search_index.py] *)

Module Indexer.

Record Summary : Type := {
  s_id : pystr;
  s_reference : pystr;
  s_hebrew_date : pystr;
  s_gregorian_date : pystr;
  s_opening_phrase : pystr;
  s_topics : list pystr;
  s_key_concepts : list pystr;
  s_word_count : Z;
  s_chunk_count : Z
}.

Record TopicRef : Type := {
  t_doc_id : pystr; t_reference : pystr; t_hebrew_date : pystr; t_opening_phrase : pystr
}.

Record ConceptRef : Type := {
  c_doc_id : pystr; c_reference : pystr; c_topics : list pystr
}.

Record OpeningRef : Type := {
  o_doc_id : pystr; o_hebrew_date : pystr; o_topics : list pystr
}.

(** The three shapes of record the glossary index holds. *)
Inductive GlossaryRef : Type :=
| ByHebrewTerm (doc_id transliteration definition hebrew_date : pystr)
| ByTransliteration (doc_id hebrew_term definition hebrew_date : pystr)
| ByKeyword (doc_id hebrew_term full_definition hebrew_date : pystr).

Record State : Type := {
  topic_index : sdict (list TopicRef);
  date_index : sdict (list pystr);
  concept_index : sdict (list ConceptRef);
  reference_index : sdict (list pystr);
  opening_phrase_index : sdict (list OpeningRef);
  glossary_index : sdict (list GlossaryRef);
  document_summary : list Summary
}.

Definition empty_state : State :=
  {| topic_index := []; date_index := []; concept_index := []; reference_index := [];
     opening_phrase_index := []; glossary_index := []; document_summary := [] |}.

(** [doc.get('id', 'unknown')] *)
Definition doc_id_of (doc : Document) : pystr := get_or (str "unknown") (id doc).

(** Lines 36-60: the summary of one document. *)
Definition summary_of (doc : Document) : Summary :=
  let metadata := doc_metadata doc in
  let content := doc_content doc in
  let main_text := get_or [] (main_text content) in
  let chunks := get_or [] (main_text_chunks content) in
  let word_count := get_or 0 (word_count metadata) in
  let word_count :=
    if (word_count =? 0) && truthy main_text then len (split_ws main_text) else word_count in
  let chunk_count := get_or 0 (chunk_count metadata) in
  let chunk_count := if chunk_count =? 0 then len chunks else chunk_count in
  {| s_id := doc_id_of doc;
     s_reference := get_or [] (reference doc);
     s_hebrew_date := get_or [] (hebrew_date metadata);
     s_gregorian_date := get_or [] (gregorian_date metadata);
     s_opening_phrase := get_or [] (opening_phrase metadata);
     s_topics := get_or [] (topics metadata);
     s_key_concepts := get_or [] (key_concepts metadata);
     s_word_count := word_count;
     s_chunk_count := chunk_count |}.

(** Lines 63-71. *)
Definition index_topics (doc : Document) (idx : sdict (list TopicRef)) : sdict (list TopicRef) :=
  let metadata := doc_metadata doc in
  fold_left (fun idx topic =>
      if truthy (strip topic) then
        sappend topic {| t_doc_id := doc_id_of doc;
                         t_reference := get_or [] (reference doc);
                         t_hebrew_date := get_or [] (hebrew_date metadata);
                         t_opening_phrase := get_or [] (opening_phrase metadata) |} idx
      else idx)
    (get_or [] (topics metadata)) idx.

(** Lines 73-79. *)
Definition index_dates (doc : Document) (idx : sdict (list pystr)) : sdict (list pystr) :=
  let metadata := doc_metadata doc in
  let hebrew_date := get_or [] (hebrew_date metadata) in
  let gregorian_date := get_or [] (gregorian_date metadata) in
  let idx := if truthy hebrew_date then sappend hebrew_date (doc_id_of doc) idx else idx in
  if truthy gregorian_date then sappend gregorian_date (doc_id_of doc) idx else idx.

(** Lines 81-88. *)
Definition index_concepts (doc : Document) (idx : sdict (list ConceptRef)) : sdict (list ConceptRef) :=
  let metadata := doc_metadata doc in
  fold_left (fun idx concept =>
      if truthy (strip concept) then
        sappend concept {| c_doc_id := doc_id_of doc;
                           c_reference := get_or [] (reference doc);
                           c_topics := get_or [] (topics metadata) |} idx
      else idx)
    (get_or [] (key_concepts metadata)) idx.

(** Lines 90-96. *)
Definition index_references (doc : Document) (idx : sdict (list pystr)) : sdict (list pystr) :=
  let metadata := doc_metadata doc in
  let all_refs := get_or [] (biblical_references metadata)
                  ++ get_or [] (talmudic_references metadata)
                  ++ get_or [] (chassidic_references metadata) in
  fold_left (fun idx ref => if truthy (strip ref) then sappend ref (doc_id_of doc) idx else idx)
    all_refs idx.

(** Lines 98-105. *)
Definition index_opening (doc : Document) (idx : sdict (list OpeningRef)) : sdict (list OpeningRef) :=
  let metadata := doc_metadata doc in
  let opening := get_or [] (opening_phrase metadata) in
  if truthy (strip opening) then
    sappend opening {| o_doc_id := doc_id_of doc;
                       o_hebrew_date := get_or [] (hebrew_date metadata);
                       o_topics := get_or [] (topics metadata) |} idx
  else idx.

Definition stop_words : list pystr :=
  [str "the"; str "and"; str "of"; str "in"; str "to"; str "a"; str "an"].

(** Lines 152-161: the body of [for word in english_words]. *)
Definition index_keyword (doc_id hdate : pystr) (e : GlossaryEntry)
    (idx : sdict (list GlossaryRef)) (word : pystr) : sdict (list GlossaryRef) :=
  if 3 <? len word then
    let word_lower := rstrip (str ".,;:") (lower word) in
    if negb (str_in word_lower stop_words) then
      sappend word_lower (ByKeyword doc_id (hebrew_term e) (english_part e) hdate) idx
    else idx
  else idx.

(** Lines 130-161: what one parsed entry adds to the glossary index. *)
Definition index_entry (doc_id hdate : pystr) (e : GlossaryEntry)
    (idx : sdict (list GlossaryRef)) : sdict (list GlossaryRef) :=
  let idx :=
    if truthy (hebrew_term e) then
      sappend (hebrew_term e) (ByHebrewTerm doc_id (transliteration e) (english_part e) hdate) idx
    else idx in
  let idx :=
    if truthy (transliteration e) then
      sappend (transliteration e) (ByTransliteration doc_id (hebrew_term e) (english_part e) hdate) idx
    else idx in
  if truthy (english_part e) then
    let english_words := firstn 3 (split_ws (english_part e)) in
    fold_left (index_keyword doc_id hdate e) english_words idx
  else idx.

(** Lines 107-161. *)
Definition index_glossary (doc : Document) (idx : sdict (list GlossaryRef)) : sdict (list GlossaryRef) :=
  let glossary_text := get_or [] (glossary (doc_content doc)) in
  let hdate := get_or [] (hebrew_date (doc_metadata doc)) in
  fold_left (fun idx entry =>
      match parse_entry entry with
      | Some e => index_entry (doc_id_of doc) hdate e idx
      | None => idx
      end)
    (glossary_entries glossary_text) idx.

(** Lines 31-161: the body of [for doc in documents]. *)
Definition index_document (st : State) (doc : Document) : State :=
  {| topic_index := index_topics doc (topic_index st);
     date_index := index_dates doc (date_index st);
     concept_index := index_concepts doc (concept_index st);
     reference_index := index_references doc (reference_index st);
     opening_phrase_index := index_opening doc (opening_phrase_index st);
     glossary_index := index_glossary doc (glossary_index st);
     document_summary := document_summary st ++ [summary_of doc] |}.

Definition build (documents : list Document) : State :=
  fold_left index_document documents empty_state.

(** Lines 164-200: the object handed to [json.dump]. *)
Record Part (A : Type) : Type := { description : pystr; total : Z; entries : A }.

Record Indexes : Type := {
  j_document_summary : Part (list Summary);
  j_topic_index : Part (sdict (list TopicRef));
  j_concept_index : Part (sdict (list ConceptRef));
  j_date_index : Part (sdict (list pystr));
  j_reference_index : Part (sdict (list pystr));
  j_opening_phrase_index : Part (sdict (list OpeningRef));
  j_glossary_index : Part (sdict (list GlossaryRef))
}.

Definition part {A B} (d : String.string) (l : list B) (x : A) : Part A :=
  {| description := str d; total := len l; entries := x |}.
Arguments part {A B} d%_string l x.

Definition indexes_of (st : State) : Indexes :=
  {| j_document_summary :=
       part "Quick overview of all documents with key metadata"
            (document_summary st) (document_summary st);
     j_topic_index :=
       part "Index by Hebrew topics/themes" (topic_index st) (topic_index st);
     j_concept_index :=
       part "Index by English concepts" (concept_index st) (concept_index st);
     j_date_index :=
       part "Index by Hebrew and Gregorian dates" (date_index st) (date_index st);
     j_reference_index :=
       part "Index by biblical, talmudic, and chassidic references"
            (reference_index st) (reference_index st);
     j_opening_phrase_index :=
       part "Index by opening phrases of documents"
            (opening_phrase_index st) (opening_phrase_index st);
     j_glossary_index :=
       part "Index by glossary terms (Hebrew, transliteration, and English keywords)"
            (glossary_index st) (glossary_index st) |}.

Definition index_file : pystr := str "maamarim_search_index.json".
Definition quick_ref_file : pystr := str "maamarim_quick_reference.txt".

(** Lines 224-269: the five writes for one document of the summary. *)
Definition topic_pairs (topics_to_show concepts : list pystr) : list pystr :=
  map (fun it : nat * pystr =>
         let (i, topic) := it in
         if (Z.of_nat i <? len concepts) && truthy (nth i concepts []) then
           topic ++ str " (" ++ nth i concepts [] ++ str ")"
         else topic)
      (enumerate topics_to_show).

Definition doc_block (doc : Summary) : list pystr :=
  let hebrew_date := s_hebrew_date doc in
  let gregorian_date := s_gregorian_date doc in
  let date_str :=
    if truthy hebrew_date && truthy gregorian_date then
      hebrew_date ++ str " (" ++ gregorian_date ++ str ")"
    else if truthy hebrew_date then hebrew_date
    else if truthy gregorian_date then str "(" ++ gregorian_date ++ str ")"
    else str "N/A" in
  let opening := s_opening_phrase doc in
  let opening_display :=
    if truthy opening then
      if 50 <? len opening then slice opening 0 50 ++ str "..." else opening
    else str "N/A" in
  let topics := s_topics doc in
  let concepts := s_key_concepts doc in
  let topics_line :=
    if truthy topics then
      let max_show := 10 in
      let topics_to_show := slice topics 0 max_show in
      let topics_str := join (str ", ") (topic_pairs topics_to_show concepts) in
      let topics_str :=
        if max_show <? len topics then
          topics_str ++ str " (+" ++ str_of_int (len topics - max_show) ++ str " more)"
        else topics_str in
      str "Topics: " ++ topics_str ++ nl
    else str "Topics: N/A" ++ nl in
  [ str "ID: " ++ s_id doc ++ nl;
    str "Date: " ++ date_str ++ nl;
    str "Opening: " ++ opening_display ++ nl;
    topics_line;
    str "Words: " ++ str_of_int (s_word_count doc) ++ str ", Chunks: "
      ++ str_of_int (s_chunk_count doc) ++ nl ++ nl ].

(** Line 273. *)
Definition sorted_topics (st : State) : list (pystr * list TopicRef) :=
  sorted_reverse (fun x => len (snd x)) (Dict.items (topic_index st)).

(** Lines 276-282: the topic-to-concept mapping, from the documents. *)
Definition topic_to_concept_step (doc_concepts : list pystr)
    (m : sdict pystr) (it : nat * pystr) : sdict pystr :=
  let (i, topic) := it in
  if (Z.of_nat i <? len doc_concepts) && negb (smem topic m) then
    sset topic (nth i doc_concepts []) m
  else m.

Definition topic_to_concept_doc (m : sdict pystr) (doc : Document) : sdict pystr :=
  let doc_topics := get_or [] (topics (doc_metadata doc)) in
  let doc_concepts := get_or [] (key_concepts (doc_metadata doc)) in
  fold_left (topic_to_concept_step doc_concepts) (enumerate doc_topics) m.

Definition topic_to_concept (documents : list Document) : sdict pystr :=
  fold_left topic_to_concept_doc documents [].

(** Lines 284-289. *)
Definition top_topic_line (t2c : sdict pystr) (it : pystr * list TopicRef) : pystr :=
  let (topic, docs) := it in
  let concept := get_or [] (sget topic t2c) in
  if truthy concept then
    topic ++ str " (" ++ concept ++ str "): " ++ str_of_int (len docs) ++ str " documents" ++ nl
  else
    topic ++ str ": " ++ str_of_int (len docs) ++ str " documents" ++ nl.

Definition top_topics (documents : list Document) (st : State) : list pystr :=
  map (top_topic_line (topic_to_concept documents)) (slice (sorted_topics st) 0 15).

(** Lines 293-295. *)
Definition sorted_concepts (st : State) : list (pystr * list ConceptRef) :=
  sorted_reverse (fun x => len (snd x)) (Dict.items (concept_index st)).

Definition top_concepts (st : State) : list pystr :=
  map (fun it : pystr * list ConceptRef =>
         let (concept, docs) := it in
         concept ++ str ": " ++ str_of_int (len docs) ++ str " documents" ++ nl)
      (slice (sorted_concepts st) 0 15).

(** Lines 213-218: what is written before [data['collection_metadata']] is read. *)
Definition report_head (st : State) : list pystr :=
  [ str "MAAMARIM COLLECTION - QUICK REFERENCE" ++ nl;
    repeat "="%char 50 ++ nl ++ nl;
    str "Total Documents: " ++ str_of_int (len (document_summary st)) ++ nl;
    str "Total Unique Topics: " ++ str_of_int (len (topic_index st)) ++ nl;
    str "Total Unique Concepts: " ++ str_of_int (len (concept_index st)) ++ nl ].

(** Lines 219-295: the rest of the report. *)
Definition report_body (cm : CollectionMetadata) (documents : list Document) (st : State)
    : list pystr :=
  [ str "Date Range: " ++ get_or (str "Unknown") (date_range cm) ++ nl ++ nl;
    str "DOCUMENT SUMMARY:" ++ nl;
    repeat "-"%char 20 ++ nl ]
  ++ flat_map doc_block (document_summary st)
  ++ [ str "TOP TOPICS:" ++ nl; repeat "-"%char 15 ++ nl ]
  ++ top_topics documents st
  ++ [ nl ++ str "TOP CONCEPTS:" ++ nl; repeat "-"%char 15 ++ nl ]
  ++ top_concepts st.

Local Open Scope io_scope.

(** [data['collection_metadata']] *)
Definition subscript_collection_metadata {J} (data : Data) : M J CollectionMetadata :=
  match collection_metadata data with
  | Some cm => ret cm
  | None => raise (KeyError (str "collection_metadata"))
  end.

(** The script from its first line to its last; [input] is what
    [structured_file] parses to.  Output to the terminal is left out. *)
Definition create_search_indexes (input : option Data) : M Indexes unit :=
  data <- load input ;;
  let documents := get_or [] (documents data) in
  let st := build documents in
  json_dump index_file (indexes_of st) ;;
  open_w quick_ref_file ;;
  write_all quick_ref_file (report_head st) ;;
  cm <- subscript_collection_metadata data ;;
  write_all quick_ref_file (report_body cm documents st).

End Indexer.

(** ** The Splitter: [split_maamarim.py] *)

Module Splitter.

Record ChunkInfo : Type := {
  chunk_number : Z;
  total_chunks : Z;
  documents_in_chunk : Z;
  document_ids : list (option pystr)
}.

Record ChunkData : Type := {
  cd_collection_metadata : CollectionMetadata;
  cd_chunk_info : ChunkInfo;
  cd_documents : list Document
}.

Record ChunkEntry : Type := {
  file : pystr;
  ce_document_ids : list (option pystr);
  document_count : Z
}.

Record DocData : Type := {
  dd_collection_metadata : CollectionMetadata;
  dd_document : Document
}.

Definition id_eqb (a b : option pystr) : bool :=
  match a, b with
  | Some x, Some y => str_eqb x y
  | None, None => true
  | _, _ => false
  end.

Record MasterIndex : Type := {
  mi_collection_metadata : CollectionMetadata;
  chunk_info : Dict.t Z ChunkEntry;
  topic_to_chunks : sdict (list Z);
  concept_to_chunks : sdict (list Z);
  doc_id_to_chunk : Dict.t (option pystr) Z;
  date_to_chunks : sdict (list Z);
  opening_phrase_to_chunks : sdict (list Z);
  glossary_term_to_chunks : sdict (list Z)
}.

Inductive Json : Type :=
| JChunk (c : ChunkData)
| JDoc (d : DocData)
| JMaster (m : MasterIndex).

(** Lines 32-41. *)
Definition empty_master (cm : CollectionMetadata) : MasterIndex :=
  {| mi_collection_metadata := cm; chunk_info := []; topic_to_chunks := [];
     concept_to_chunks := []; doc_id_to_chunk := []; date_to_chunks := [];
     opening_phrase_to_chunks := []; glossary_term_to_chunks := [] |}.

(** Line 44, for a divisor that is not zero; Python's [//] and [Z.div] both
    round towards minus infinity. *)
Definition num_chunks (documents : list Document) (docs_per_chunk : Z) : Z :=
  (len documents + docs_per_chunk - 1) / docs_per_chunk.

(** Lines 47-49. *)
Definition chunk_docs (documents : list Document) (docs_per_chunk chunk_num : Z)
    : list Document :=
  let start_idx := chunk_num * docs_per_chunk in
  let end_idx := Z.min (start_idx + docs_per_chunk) (len documents) in
  slice documents start_idx end_idx.

(** The slices the loop of line 46 goes through, in order. *)
Definition chunks (documents : list Document) (docs_per_chunk : Z) : list (list Document) :=
  map (chunk_docs documents docs_per_chunk) (range (num_chunks documents docs_per_chunk)).

(** [f"{n:02d}"] *)
Definition fmt_02d (n : Z) : pystr :=
  let s := str_of_int n in
  if (length s <? 2)%nat then str "0" ++ s else s.

Definition chunk_file_name (chunk_num : Z) : pystr :=
  str "maamarim_chunks/maamarim_chunk_" ++ fmt_02d (chunk_num + 1) ++ str ".json".

(** The pattern of lines 83-86, the same for every facet:
    [if k not in m: m[k] = []] and then
    [if c not in m[k]: m[k].append(c)]. *)
Definition add_chunk (c : Z) (m : sdict (list Z)) (k : pystr) : sdict (list Z) :=
  let m := if negb (smem k m) then sset k [] m else m in
  match sget k m with
  | Some l => if existsb (Z.eqb c) l then m else sset k (l ++ [c]) m
  | None => m
  end.

(** Lines 81-86 and 89-94. *)
Definition map_topics (c : Z) (doc : Document) (m : sdict (list Z)) : sdict (list Z) :=
  fold_left (add_chunk c) (get_or [] (topics (doc_metadata doc))) m.

Definition map_concepts (c : Z) (doc : Document) (m : sdict (list Z)) : sdict (list Z) :=
  fold_left (add_chunk c) (get_or [] (key_concepts (doc_metadata doc))) m.

(** Lines 97-108. *)
Definition map_dates (c : Z) (doc : Document) (m : sdict (list Z)) : sdict (list Z) :=
  let hebrew_date := get_or [] (hebrew_date (doc_metadata doc)) in
  let gregorian_date := get_or [] (gregorian_date (doc_metadata doc)) in
  let m := if truthy hebrew_date then add_chunk c m hebrew_date else m in
  if truthy gregorian_date then add_chunk c m gregorian_date else m.

(** Lines 111-116. *)
Definition map_opening (c : Z) (doc : Document) (m : sdict (list Z)) : sdict (list Z) :=
  let opening_phrase := get_or [] (opening_phrase (doc_metadata doc)) in
  if truthy opening_phrase && truthy (strip opening_phrase) then add_chunk c m opening_phrase
  else m.

(** Lines 119-146. *)
Definition map_glossary (c : Z) (doc : Document) (m : sdict (list Z)) : sdict (list Z) :=
  let glossary_text := get_or [] (glossary (doc_content doc)) in
  fold_left (fun m entry =>
      match parse_entry entry with
      | Some e =>
          let m := if truthy (hebrew_term e) then add_chunk c m (hebrew_term e) else m in
          if truthy (transliteration e) then add_chunk c m (transliteration e) else m
      | None => m
      end)
    (glossary_entries glossary_text) m.

(** Lines 76-146: the body of the first [for doc in chunk_docs]. *)
Definition map_doc (c : Z) (master : MasterIndex) (doc : Document) : MasterIndex :=
  {| mi_collection_metadata := mi_collection_metadata master;
     chunk_info := chunk_info master;
     topic_to_chunks := map_topics c doc (topic_to_chunks master);
     concept_to_chunks := map_concepts c doc (concept_to_chunks master);
     doc_id_to_chunk := Dict.set id_eqb (id doc) c (doc_id_to_chunk master);
     date_to_chunks := map_dates c doc (date_to_chunks master);
     opening_phrase_to_chunks := map_opening c doc (opening_phrase_to_chunks master);
     glossary_term_to_chunks := map_glossary c doc (glossary_term_to_chunks master) |}.

(** Lines 69-73. *)
Definition record_chunk (chunk_num : Z) (chunk_docs : list Document) (master : MasterIndex)
    : MasterIndex :=
  {| mi_collection_metadata := mi_collection_metadata master;
     chunk_info :=
       Dict.set Z.eqb (chunk_num + 1)
         {| file := chunk_file_name chunk_num;
            ce_document_ids := map id chunk_docs;
            document_count := len chunk_docs |} (chunk_info master);
     topic_to_chunks := topic_to_chunks master;
     concept_to_chunks := concept_to_chunks master;
     doc_id_to_chunk := doc_id_to_chunk master;
     date_to_chunks := date_to_chunks master;
     opening_phrase_to_chunks := opening_phrase_to_chunks master;
     glossary_term_to_chunks := glossary_term_to_chunks master |}.

(** Lines 69-146: what one round of the chunk loop does to the master index. *)
Definition master_round (documents : list Document) (docs_per_chunk : Z)
    (master : MasterIndex) (chunk_num : Z) : MasterIndex :=
  let chunk_docs := chunk_docs documents docs_per_chunk chunk_num in
  fold_left (map_doc (chunk_num + 1)) chunk_docs (record_chunk chunk_num chunk_docs master).

(** The master index once every chunk has been gone through. *)
Definition master_index (cm : CollectionMetadata) (documents : list Document)
    (docs_per_chunk : Z) : MasterIndex :=
  fold_left (master_round documents docs_per_chunk)
            (range (num_chunks documents docs_per_chunk)) (empty_master cm).

Local Open Scope io_scope.

(** Lines 53-66. *)
Definition write_chunk (cm : CollectionMetadata) (total chunk_num : Z)
    (chunk_docs : list Document) : M Json unit :=
  json_dump (chunk_file_name chunk_num)
    (JChunk {| cd_collection_metadata := cm;
               cd_chunk_info := {| chunk_number := chunk_num + 1;
                                   total_chunks := total;
                                   documents_in_chunk := len chunk_docs;
                                   document_ids := map id chunk_docs |};
               cd_documents := chunk_docs |}).

(** Lines 150-161: [doc.get('id')] is [None] for a document without an id,
    and [None] has no [replace]. *)
Definition write_doc (cm : CollectionMetadata) (doc : Document) : M Json unit :=
  match id doc with
  | None => raise (AttributeError (str "replace"))
  | Some doc_id =>
      let safe_doc_id := replace "\" "_" (replace "/" "_" doc_id) in
      json_dump (str "maamarim_docs/maamarim_doc_" ++ safe_doc_id ++ str ".json")
        (JDoc {| dd_collection_metadata := cm; dd_document := doc |})
  end.

(** Lines 46-161: one round of the chunk loop. *)
Definition chunk_round (cm : CollectionMetadata) (documents : list Document)
    (docs_per_chunk total : Z) (master : MasterIndex) (chunk_num : Z) : M Json MasterIndex :=
  let docs := chunk_docs documents docs_per_chunk chunk_num in
  write_chunk cm total chunk_num docs ;;
  let master := master_round documents docs_per_chunk master chunk_num in
  for_each docs (write_doc cm) ;;
  ret master.

(** The script; [input] is what [input_file] parses to.  Output to the
    terminal, which is all that follows line 166, is left out. *)
Definition split_maamarim_file (input : option Data) (docs_per_chunk : Z) : M Json unit :=
  data <- load input ;;
  let documents := get_or [] (documents data) in
  let collection_metadata := get_or no_collection_metadata (collection_metadata data) in
  makedirs (str "maamarim_chunks") ;;
  makedirs (str "maamarim_docs") ;;
  (if docs_per_chunk =? 0 then raise ZeroDivisionError else ret tt) ;;
  let num_chunks := num_chunks documents docs_per_chunk in
  master <- for_fold (range num_chunks)
              (chunk_round collection_metadata documents docs_per_chunk num_chunks)
              (empty_master collection_metadata) ;;
  json_dump (str "maamarim_master_index.json") (JMaster master).

End Splitter.

(** ** Vocabulary of the specification

    Definitions written after the words of the specification, to be compared
    with the code above. *)

(** What a list in a [defaultdict(list)] becomes once [l] has been appended
    to it, element by element; nothing appended leaves a missing key missing. *)
Definition appended {X} (o : option (list X)) (l : list X) : option (list X) :=
  match l with
  | [] => o
  | _ :: _ => Some (get_or [] o ++ l)
  end.

(** The records filed under key [k] by a sequence of [d[key].append(record)]. *)
Definition filed_under {X} (k : pystr) (regs : list (pystr * X)) : list X :=
  map snd (filter (fun kv => str_eqb k (fst kv)) regs).

Definition register {X} (idx : sdict (list X)) (kv : pystr * X) : sdict (list X) :=
  sappend (fst kv) (snd kv) idx.

(** Lower case, trailing punctuation removed. *)
Definition normalized (word : pystr) : pystr := rstrip (str ".,;:") (lower word).

(** The keyword keys of an English definition: of its first three
    whitespace-separated tokens, those longer than 3 characters that are not
    stop words once normalised; the key is the normalised token. *)
Definition keyword_keys_spec (english : pystr) : list pystr :=
  map normalized
    (filter (fun w => (3 <? len w) && negb (str_in (normalized w) Indexer.stop_words))
            (firstn 3 (split_ws english))).

(** Everything one glossary entry is filed under, in order. *)
Definition glossary_registrations_spec (doc_id hdate : pystr) (e : GlossaryEntry)
    : list (pystr * Indexer.GlossaryRef) :=
  (if truthy (hebrew_term e)
   then [(hebrew_term e,
          Indexer.ByHebrewTerm doc_id (transliteration e) (english_part e) hdate)]
   else [])
  ++ (if truthy (transliteration e)
      then [(transliteration e,
             Indexer.ByTransliteration doc_id (hebrew_term e) (english_part e) hdate)]
      else [])
  ++ map (fun k => (k, Indexer.ByKeyword doc_id (hebrew_term e) (english_part e) hdate))
         (keyword_keys_spec (english_part e)).

(** The topics and the concepts a document lists, none when the field or
    the whole metadata is missing. *)
Definition topics_of (doc : Document) : list pystr := get_or [] (topics (doc_metadata doc)).
Definition concepts_of (doc : Document) : list pystr :=
  get_or [] (key_concepts (doc_metadata doc)).

(** A value counts for the Indexer when something is left of it once stripped. *)
Definition nonblank (s : pystr) : bool := truthy (strip s).

(** The distinct elements of a list in the order of their first occurrence,
    those already [seen] left out. *)
Fixpoint first_occurrences_from (seen l : list pystr) : list pystr :=
  match l with
  | [] => []
  | x :: l' =>
      if str_in x seen then first_occurrences_from seen l'
      else x :: first_occurrences_from (seen ++ [x]) l'
  end.

Definition first_occurrences (l : list pystr) : list pystr := first_occurrences_from [] l.

(** How often [x] occurs in [l]. *)
Definition occurrences (x : pystr) (l : list pystr) : Z := len (filter (str_eqb x) l).

(** The stored count when it is not zero, else the derived one. *)
Definition stored_or_derived (stored : option Z) (derived : Z) : Z :=
  if get_or 0 stored =? 0 then derived else get_or 0 stored.

(** What the Indexer files for the topics and for the concepts of one
    document: one record under every non-blank value, in order. *)
Definition topic_registrations (doc : Document) : list (pystr * Indexer.TopicRef) :=
  map (fun topic =>
         (topic, {| Indexer.t_doc_id := Indexer.doc_id_of doc;
                    Indexer.t_reference := get_or [] (reference doc);
                    Indexer.t_hebrew_date := get_or [] (hebrew_date (doc_metadata doc));
                    Indexer.t_opening_phrase := get_or [] (opening_phrase (doc_metadata doc)) |}))
      (filter nonblank (topics_of doc)).

Definition concept_registrations (doc : Document) : list (pystr * Indexer.ConceptRef) :=
  map (fun concept =>
         (concept, {| Indexer.c_doc_id := Indexer.doc_id_of doc;
                      Indexer.c_reference := get_or [] (reference doc);
                      Indexer.c_topics := get_or [] (topics (doc_metadata doc)) |}))
      (filter nonblank (concepts_of doc)).

(** The key of the ranking: the number of records filed under the value. *)
Definition ref_count {X} (entry : pystr * list X) : Z := len (snd entry).

(** The five facet mappings of the master index, and the values one
    document brings to each of them. *)
Inductive Facet : Type :=
| TopicFacet | ConceptFacet | DateFacet | OpeningPhraseFacet | GlossaryTermFacet.

Definition facet_map (f : Facet) (m : Splitter.MasterIndex) : sdict (list Z) :=
  match f with
  | TopicFacet => Splitter.topic_to_chunks m
  | ConceptFacet => Splitter.concept_to_chunks m
  | DateFacet => Splitter.date_to_chunks m
  | OpeningPhraseFacet => Splitter.opening_phrase_to_chunks m
  | GlossaryTermFacet => Splitter.glossary_term_to_chunks m
  end.

Definition facet_values (f : Facet) (doc : Document) : list pystr :=
  match f with
  | TopicFacet => topics_of doc
  | ConceptFacet => concepts_of doc
  | DateFacet =>
      filter truthy [get_or [] (hebrew_date (doc_metadata doc));
                     get_or [] (gregorian_date (doc_metadata doc))]
  | OpeningPhraseFacet =>
      filter (fun s => truthy s && nonblank s) [get_or [] (opening_phrase (doc_metadata doc))]
  | GlossaryTermFacet =>
      flat_map (fun e => filter truthy [hebrew_term e; transliteration e])
               (parse_glossary (get_or [] (glossary (doc_content doc))))
  end.

(** Appending a chunk number unless the list has it. *)
Definition add_once (c : Z) (l : list Z) : list Z :=
  if existsb (Z.eqb c) l then l else l ++ [c].

(** Whether a value of the facet occurs in the chunk of index [chunk_num]. *)
Definition chunk_has (f : Facet) (documents : list Document) (docs_per_chunk : Z)
    (value : pystr) (chunk_num : Z) : bool :=
  str_in value
    (flat_map (facet_values f) (Splitter.chunk_docs documents docs_per_chunk chunk_num)).

(** The numbers (from 1) of the chunks in which the value occurs, in the
    order in which the chunks are gone through. *)
Definition chunks_with_spec (f : Facet) (documents : list Document) (docs_per_chunk : Z)
    (value : pystr) : list Z :=
  map (fun chunk_num => chunk_num + 1)
      (filter (chunk_has f documents docs_per_chunk value)
              (range (Splitter.num_chunks documents docs_per_chunk))).

(** The entry of the master index's [chunk_info] for the chunk of index
    [chunk_num]. *)
Definition chunk_entry (documents : list Document) (docs_per_chunk chunk_num : Z)
    : Z * Splitter.ChunkEntry :=
  let docs := Splitter.chunk_docs documents docs_per_chunk chunk_num in
  (chunk_num + 1,
   {| Splitter.file := Splitter.chunk_file_name chunk_num;
      Splitter.ce_document_ids := map id docs;
      Splitter.document_count := len docs |}).

(** A document that has an id and topics and nothing else. *)
Definition doc_with_topics (doc_id : pystr) (doc_topics doc_concepts : list pystr) : Document :=
  {| id := Some doc_id;
     reference := None;
     metadata := Some {| hebrew_date := None; gregorian_date := None; opening_phrase := None;
                         topics := Some doc_topics; key_concepts := Some doc_concepts;
                         biblical_references := None; talmudic_references := None;
                         chassidic_references := None;
                         word_count := None; chunk_count := None |};
     content := None |}.

(** Four documents, three of which list the topic Teshuvah. *)
Definition three_in_one_chunk : list Document :=
  [ doc_with_topics (str "d1") [str "Teshuvah"] [];
    doc_with_topics (str "d2") [str "Emunah"; str "Teshuvah"] [];
    doc_with_topics (str "d3") [str "Teshuvah"] [];
    doc_with_topics (str "d4") [str "Emunah"] [] ].

(** One document whose topics and concepts are blank. *)
Definition blank_facets : list Document :=
  [ doc_with_topics (str "d1") [str " "; str ""] [str "  "] ].

(** The position at which a topic is first listed, and the first document
    that lists it. *)
Fixpoint index_of (t : pystr) (l : list pystr) : option nat :=
  match l with
  | [] => None
  | x :: l' => if str_eqb t x then Some 0%nat else option_map S (index_of t l')
  end.

Fixpoint first_encounter (t : pystr) (documents : list Document) : option (Document * nat) :=
  match documents with
  | [] => None
  | doc :: rest =>
      match index_of t (topics_of doc) with
      | Some i => Some (doc, i)
      | None => first_encounter t rest
      end
  end.

(** The mapping as the specification words it: the concept at the position
    of the topic, in the document where the topic is first met; no concept
    when that position has none. *)
Definition first_seen_concept_spec (documents : list Document) (t : pystr) : option pystr :=
  match first_encounter t documents with
  | Some (doc, i) => nth_error (concepts_of doc) i
  | None => None
  end.

(** The topics of a document that have a concept at their position, with it. *)
Definition paired (doc : Document) : list (pystr * pystr) :=
  combine (topics_of doc) (concepts_of doc).

(** The concept of the first listing of the topic that has a concept at its
    position. *)
Definition first_paired_concept_spec (documents : list Document) (t : pystr) : option pystr :=
  option_map snd (find (fun p => str_eqb t (fst p)) (flat_map paired documents)).

(** Insert only if the key is absent. *)
Definition guarded_insert (m : sdict pystr) (kv : pystr * pystr) : sdict pystr :=
  if smem (fst kv) m then m else sset (fst kv) (snd kv) m.

(** The same topic, first without a concept at its position and then with one. *)
Definition late_concept : list Document :=
  [ doc_with_topics (str "d1") [str "Ahavah"] [];
    doc_with_topics (str "d2") [str "Ahavah"] [str "Love"];
    doc_with_topics (str "d3") [str "Ahavah"] [str "Affection"] ].

(** The all-or-nothing reading of the specification: after a run either both output
    files are there in full, or the files are what they were before. *)
Definition both_outputs_written (input : option Data) (w : world Indexer.Indexes) : Prop :=
  exists data cm,
    input = Some data /\ collection_metadata data = Some cm
    /\ let documents := get_or [] (documents data) in
       let st := Indexer.build documents in
       sget Indexer.index_file (files w) = Some (JsonFile (Indexer.indexes_of st))
       /\ sget Indexer.quick_ref_file (files w) =
          Some (TextFile (concat (Indexer.report_head st
                                  ++ Indexer.report_body cm documents st))).

Definition all_or_nothing (input : option Data) (w0 : world Indexer.Indexes) : Prop :=
  let w := fst (Indexer.create_search_indexes input w0) in
  both_outputs_written input w \/ files w = files w0.

(** A corpus of one well-formed document, and a system on which the
    quick-reference file cannot be opened for writing. *)
Definition small_corpus : Data :=
  {| collection_metadata := Some {| date_range := Some (str "5711-5712") |};
     documents := Some [doc_with_topics (str "d1") [str "Emunah"] [str "Faith"]] |}.

Definition quick_ref_refused : world Indexer.Indexes :=
  {| dirs := []; files := []; read_only := [Indexer.quick_ref_file] |}.

(** A corpus whose only document has no id. *)
Definition corpus_without_id : Data :=
  {| collection_metadata := Some no_collection_metadata;
     documents := Some [ {| id := None; reference := None;
                            metadata := Some no_metadata; content := None |} ] |}.

Definition has_id (doc : Document) : bool :=
  match id doc with Some _ => true | None => false end.

Definition master_index_file : pystr := str "maamarim_master_index.json".

(** Lines 91-93: the three reference lists of a document, one after the other. *)
Definition all_refs_of (doc : Document) : list pystr :=
  get_or [] (biblical_references (doc_metadata doc))
  ++ get_or [] (talmudic_references (doc_metadata doc))
  ++ get_or [] (chassidic_references (doc_metadata doc)).

(** What the Indexer files for the references, the dates, the opening phrase
    and the glossary of one document. *)
Definition reference_registrations (doc : Document) : list (pystr * pystr) :=
  map (fun ref => (ref, Indexer.doc_id_of doc)) (filter nonblank (all_refs_of doc)).

Definition date_registrations (doc : Document) : list (pystr * pystr) :=
  map (fun date => (date, Indexer.doc_id_of doc)) (facet_values DateFacet doc).

Definition opening_registrations (doc : Document) : list (pystr * Indexer.OpeningRef) :=
  map (fun opening =>
         (opening, {| Indexer.o_doc_id := Indexer.doc_id_of doc;
                      Indexer.o_hebrew_date := get_or [] (hebrew_date (doc_metadata doc));
                      Indexer.o_topics := get_or [] (topics (doc_metadata doc)) |}))
      (facet_values OpeningPhraseFacet doc).

Definition glossary_registrations (doc : Document) : list (pystr * Indexer.GlossaryRef) :=
  flat_map (glossary_registrations_spec (Indexer.doc_id_of doc)
              (get_or [] (hebrew_date (doc_metadata doc))))
           (parse_glossary (get_or [] (glossary (doc_content doc)))).

(** A document with a glossary, and a corpus made of it. *)
Definition glossary_doc : Document :=
  {| id := Some (str "g1");
     reference := None;
     metadata := Some no_metadata;
     content := Some {| main_text := Some (str "In the beginning");
                        main_text_chunks := None;
                        glossary := Some (str "|Aleph (Alef): first letter; Bet (Vet): second letter") |} |}.

(** A corpus that lacks its [collection_metadata]. *)
Definition corpus_without_metadata : Data :=
  {| collection_metadata := None; documents := Some [glossary_doc] |}.

(** A summary whose opening phrase has 60 characters. *)
Definition long_opening : Indexer.Summary :=
  {| Indexer.s_id := str "d1"; Indexer.s_reference := []; Indexer.s_hebrew_date := [];
     Indexer.s_gregorian_date := []; Indexer.s_opening_phrase := repeat "x"%char 60;
     Indexer.s_topics := []; Indexer.s_key_concepts := [];
     Indexer.s_word_count := 0; Indexer.s_chunk_count := 0 |}.



(** Line 152-153: the name of the file of a document. *)
Definition safe_doc_id (doc_id : pystr) : pystr := replace "\" "_" (replace "/" "_" doc_id).

Definition doc_file_name (doc_id : pystr) : pystr :=
  str "maamarim_docs/maamarim_doc_" ++ safe_doc_id doc_id ++ str ".json".

(** Two documents whose ids differ and give the same file name. *)
Definition colliding_docs : Document * Document :=
  (doc_with_topics (str "5711/1") [] [], doc_with_topics (str "5711_1") [] []).

(** The number of documents that list a topic, and the ranking the
    specification words: the entries of the topic index by that number,
    larger first, entries with the same number in the order of the index. *)
Definition document_count (documents : list Document) (topic : pystr) : Z :=
  len (filter (fun doc => str_in topic (topics_of doc)) documents).

Definition ranked_by_documents_spec (documents : list Document) : list pystr :=
  map fst
    (sorted_reverse (fun x => document_count documents (fst x))
       (Dict.items (Indexer.topic_index (Indexer.build documents)))).

(** A line of the ranking as the report prints it: the topic, its
    representative concept in parentheses when it has one, and the count. *)
Definition top_topic_line_spec (documents : list Document)
    (entry : pystr * list Indexer.TopicRef) : pystr :=
  let concept := get_or [] (sget (fst entry) (Indexer.topic_to_concept documents)) in
  if truthy concept then
    fst entry ++ str " (" ++ concept ++ str "): "
    ++ str_of_int (ref_count entry) ++ str " documents" ++ nl
  else
    fst entry ++ str ": " ++ str_of_int (ref_count entry) ++ str " documents" ++ nl.

(** One document with the topic Bitachon, then one that lists Ahavah twice. *)
Definition repeated_topic : list Document :=
  [ doc_with_topics (str "d1") [str "Bitachon"] [];
    doc_with_topics (str "d2") [str "Ahavah"; str "Ahavah"] [] ].

(** * Properties *)

(** ** Strings *)

Lemma str_eqb_eq (a b : pystr) : str_eqb a b = true <-> a = b.
Proof.
  revert b; induction a as [|x a IH]; intros [|y b]; simpl; split;
    try congruence; try reflexivity.
  - intros H. apply andb_true_iff in H as [H1 H2].
    apply Ascii.eqb_eq in H1. apply IH in H2. congruence.
  - intros H. injection H as -> ->.
    apply andb_true_iff; split; [apply Ascii.eqb_refl | now apply IH].
Qed.

Lemma str_eqb_refl (a : pystr) : str_eqb a a = true.
Proof. now apply str_eqb_eq. Qed.

Lemma str_eqb_neq (a b : pystr) : str_eqb a b = false <-> a <> b.
Proof.
  split.
  - intros H E. apply str_eqb_eq in E. congruence.
  - intros H. destruct (str_eqb a b) eqn:E; [apply str_eqb_eq in E; contradiction | reflexivity].
Qed.

Lemma str_eqb_sym (a b : pystr) : str_eqb a b = str_eqb b a.
Proof.
  destruct (str_eqb a b) eqn:E.
  - apply str_eqb_eq in E. subst. symmetry. apply str_eqb_refl.
  - symmetry. apply str_eqb_neq. apply str_eqb_neq in E. congruence.
Qed.

Lemma str_in_In (x : pystr) (l : list pystr) : str_in x l = true <-> In x l.
Proof.
  unfold str_in. rewrite existsb_exists. split.
  - intros (y & Hy & E). apply str_eqb_eq in E. now subst.
  - intros H. exists x. split; [assumption | apply str_eqb_refl].
Qed.

Lemma contains_In (c : ascii) (s : pystr) : contains c s = true <-> In c s.
Proof.
  unfold contains. rewrite existsb_exists. split.
  - intros (y & Hy & E). apply Ascii.eqb_eq in E. now subst.
  - intros H. exists c. split; [assumption | apply Ascii.eqb_refl].
Qed.

Lemma contains_incl (c : ascii) (s s' : pystr) :
  incl s s' -> contains c s' = false -> contains c s = false.
Proof.
  intros Hi H. destruct (contains c s) eqn:E; [|reflexivity].
  apply contains_In in E. apply Hi in E. apply contains_In in E. congruence.
Qed.

Lemma dropwhile_incl {A} (p : A -> bool) (l : list A) : incl (dropwhile p l) l.
Proof.
  induction l as [|x l IH]; simpl.
  - apply incl_refl.
  - destruct (p x); [now apply incl_tl | apply incl_refl].
Qed.

Lemma dropwhile_nil {A} (p : A -> bool) (l : list A) :
  dropwhile p l = [] <-> forallb p l = true.
Proof.
  induction l as [|x l IH]; simpl; [tauto|].
  destruct (p x); simpl; [assumption | split; discriminate].
Qed.

Lemma dropwhile_app_stop {A} (p : A -> bool) (a : list A) (x : A) (b : list A) :
  p x = false -> dropwhile p (a ++ x :: b) = dropwhile p a ++ x :: b.
Proof.
  intros Hx. induction a as [|y a IH]; simpl.
  - now rewrite Hx.
  - destruct (p y); [assumption | reflexivity].
Qed.

Lemma dropwhile_forallb {A} (p : A -> bool) (l : list A) :
  forallb p (dropwhile p l) = forallb p l.
Proof.
  induction l as [|x l IH]; simpl; [reflexivity|].
  destruct (p x) eqn:E; simpl; [assumption | now rewrite E].
Qed.

Lemma forallb_rev {A} (p : A -> bool) (l : list A) : forallb p (rev l) = forallb p l.
Proof.
  induction l as [|x l IH]; simpl; [reflexivity|].
  rewrite forallb_app, IH. simpl. rewrite andb_true_r. apply andb_comm.
Qed.

Lemma rstrip_of_incl (p : ascii -> bool) (s : pystr) : incl (rstrip_of p s) s.
Proof.
  unfold rstrip_of. intros c Hc. apply in_rev in Hc.
  apply dropwhile_incl in Hc. now apply in_rev in Hc.
Qed.

Lemma strip_incl (s : pystr) : incl (strip s) s.
Proof.
  unfold strip, lstrip_of. intros c Hc.
  apply rstrip_of_incl in Hc. now apply dropwhile_incl in Hc.
Qed.

(** A string strips to nothing exactly when it is made of whitespace. *)
Lemma strip_nil (s : pystr) : strip s = [] <-> forallb isspace s = true.
Proof.
  unfold strip, rstrip_of, lstrip_of.
  rewrite <- (dropwhile_forallb isspace s), <- (forallb_rev isspace (dropwhile isspace s)).
  rewrite <- dropwhile_nil. split.
  - intros H. apply (f_equal (@rev ascii)) in H. now rewrite rev_involutive in H.
  - intros H. now rewrite H.
Qed.

Lemma truthy_false {A} (l : list A) : truthy l = false <-> l = [].
Proof. destruct l; simpl; split; congruence. Qed.

Lemma split_not_nil (sep : ascii) (s : pystr) : split sep s <> [].
Proof.
  induction s as [|c s IH]; simpl; [discriminate|].
  destruct (Ascii.eqb c sep); [discriminate|].
  destruct (split sep s); [contradiction | discriminate].
Qed.

(** Splitting distributes over a separator. *)
Lemma split_app (sep : ascii) (a b : pystr) :
  split sep (a ++ sep :: b) = split sep a ++ split sep b.
Proof.
  induction a as [|c a IH]; simpl.
  - now rewrite Ascii.eqb_refl.
  - destruct (Ascii.eqb c sep); [now rewrite IH|].
    rewrite IH. pose proof (split_not_nil sep a) as Hn.
    destruct (split sep a); [contradiction | reflexivity].
Qed.

(** The pieces of a split are made of characters of the string. *)
Lemma split_incl (sep : ascii) (s w : pystr) : In w (split sep s) -> incl w s.
Proof.
  revert w; induction s as [|c s IH]; simpl; intros w Hw.
  - destruct Hw as [<-|[]]. apply incl_refl.
  - destruct (Ascii.eqb c sep).
    + destruct Hw as [<-|Hw]; [intros x [] | now apply incl_tl, IH].
    + pose proof (split_not_nil sep s) as Hn.
      destruct (split sep s) as [|w0 ws]; [contradiction|].
      destruct Hw as [<-|Hw].
      * intros x [<-|Hx]; [now left | right; apply (IH w0); [now left | assumption]].
      * apply incl_tl, IH. now right.
Qed.

(** [s.split(sep, 1)] has a second piece whenever [sep in s], so that the
    subscript [[1]] under that guard is in range; the same for [s.split(sep)]. *)
Lemma split1_second (sep : ascii) (s : pystr) :
  contains sep s = true -> (2 <= length (split1 sep s))%nat.
Proof.
  induction s as [|c s IH]; simpl; [discriminate|].
  rewrite Ascii.eqb_sym. destruct (Ascii.eqb c sep); simpl; [lia|].
  intros H. specialize (IH H). destruct (split1 sep s); simpl in *; lia.
Qed.

Lemma split_second (sep : ascii) (s : pystr) :
  contains sep s = true -> (2 <= length (split sep s))%nat.
Proof.
  induction s as [|c s IH]; simpl; [discriminate|].
  rewrite Ascii.eqb_sym. destruct (Ascii.eqb c sep); simpl.
  - intros _. pose proof (split_not_nil sep s). destruct (split sep s); simpl; [contradiction | lia].
  - intros H. specialize (IH H). destruct (split sep s); simpl in *; lia.
Qed.

Lemma omap_app {A B} (f : A -> option B) (l1 l2 : list A) :
  omap f (l1 ++ l2) = omap f l1 ++ omap f l2.
Proof.
  induction l1 as [|x l1 IH]; simpl; [reflexivity|].
  destruct (f x); simpl; now rewrite IH.
Qed.

Lemma omap_none {A B} (f : A -> option B) (l : list A) :
  (forall x, In x l -> f x = None) -> omap f l = [].
Proof.
  induction l as [|x l IH]; simpl; intros H; [reflexivity|].
  rewrite (H x) by now left. apply IH. intros y Hy. apply H. now right.
Qed.

Lemma filter_none {A} (p : A -> bool) (l : list A) :
  (forall x, In x l -> p x = false) -> filter p l = [].
Proof.
  induction l as [|x l IH]; simpl; intros H; [reflexivity|].
  rewrite (H x) by now left. apply IH. intros y Hy. apply H. now right.
Qed.

(** ** Glossary parsing *)

(** The guard on the glossary text changes nothing: the candidate entries
    are the stripped non-blank pieces, whatever the text. *)
Lemma glossary_entries_unguarded (g : pystr) :
  glossary_entries g =
  map strip (filter (fun e => truthy (strip e)) (split ";" (lstrip (str "|") g))).
Proof.
  unfold glossary_entries.
  destruct (truthy g && truthy (strip g)) eqn:G; [reflexivity|].
  assert (Hws : forallb isspace g = true).
  { apply andb_false_iff in G as [G|G]; apply truthy_false in G.
    - now subst.
    - now apply strip_nil. }
  assert (Hl : lstrip (str "|") g = g).
  { unfold lstrip, lstrip_of. destruct g as [|c g]; [reflexivity|]. simpl in *.
    apply andb_true_iff in Hws as [Hc _].
    destruct (Ascii.eqb c "|") eqn:E; [|reflexivity].
    apply Ascii.eqb_eq in E. subst c. discriminate. }
  rewrite Hl, filter_none; [reflexivity|].
  intros w Hw. apply truthy_false, strip_nil.
  apply forallb_forall. intros c Hc. apply split_incl in Hw.
  rewrite forallb_forall in Hws. apply Hws, Hw, Hc.
Qed.

Lemma fold_left_omap {A B S} (f : A -> option B) (g : S -> B -> S) (l : list A) (s : S) :
  fold_left (fun acc x => match f x with Some y => g acc y | None => acc end) l s
  = fold_left g (omap f l) s.
Proof.
  revert s; induction l as [|x l IH]; simpl; intros s; [reflexivity|].
  destruct (f x); simpl; apply IH.
Qed.

(** The candidate entries of [a;b] are those of [a] followed by the stripped
    non-blank pieces of [b]: only the head of the text can lose a ['|']. *)
Lemma glossary_entries_app (a b : pystr) :
  glossary_entries (a ++ ";"%char :: b) =
  glossary_entries a ++ map strip (filter (fun e => truthy (strip e)) (split ";" b)).
Proof.
  rewrite !glossary_entries_unguarded. unfold lstrip, lstrip_of.
  rewrite dropwhile_app_stop by reflexivity.
  now rewrite split_app, filter_app, map_app.
Qed.

Lemma parse_entry_no_colon (entry : pystr) :
  contains ":" entry = false -> parse_entry entry = None.
Proof. unfold parse_entry. now intros ->. Qed.

(** Pieces without a colon leave no entry behind. *)
Lemma parse_pieces_no_colon (e : pystr) :
  contains ":" e = false ->
  omap parse_entry (map strip (filter (fun e => truthy (strip e)) (split ";" e))) = [].
Proof.
  intros He. apply omap_none. intros x Hx. apply parse_entry_no_colon.
  apply in_map_iff in Hx as (w & <- & Hw). apply filter_In in Hw as [Hw _].
  apply contains_incl with (s' := w); [apply strip_incl|].
  apply contains_incl with (s' := e); [now apply split_incl with (sep := ";"%char) | assumption].
Qed.

(** C6: the candidate entries of a glossary text are the trimmed non-empty
    pieces between semicolons of the text without its leading pipes; a
    candidate without a colon yields no entry and leaves the entries before
    and after it as they are, in the list of candidates as in the text; the
    Indexer folds over exactly the parsed entries; and the sample text parses
    to the two entries Aleph/Alef/first letter and Bet/Vet/second letter. *)
Theorem C6_glossary_parsing :
  (forall g : pystr,
     glossary_entries g =
     map strip (filter (fun e => truthy (strip e)) (split ";" (lstrip (str "|") g))))
  /\ (forall (l1 l2 : list pystr) (e : pystr),
        contains ":" e = false ->
        omap parse_entry (l1 ++ e :: l2) = omap parse_entry l1 ++ omap parse_entry l2)
  /\ (forall pre e post : pystr,
        contains ":" e = false ->
        parse_glossary (pre ++ str ";" ++ e ++ str ";" ++ post)
        = parse_glossary (pre ++ str ";" ++ post))
  /\ (forall (doc : Document) (idx : sdict (list Indexer.GlossaryRef)),
        Indexer.index_glossary doc idx =
        fold_left (fun idx e =>
                     Indexer.index_entry (Indexer.doc_id_of doc)
                       (get_or [] (hebrew_date (doc_metadata doc))) e idx)
                  (parse_glossary (get_or [] (glossary (doc_content doc)))) idx)
  /\ parse_glossary (str "Aleph (Alef): first letter; Bet (Vet): second letter") =
     [ {| hebrew_term := str "Aleph"; transliteration := str "Alef";
          english_part := str "first letter" |};
       {| hebrew_term := str "Bet"; transliteration := str "Vet";
          english_part := str "second letter" |} ].
Proof.
  split; [exact glossary_entries_unguarded|].
  split.
  { intros l1 l2 e He. rewrite omap_app. simpl. now rewrite parse_entry_no_colon. }
  split.
  { intros pre e post He. unfold parse_glossary.
    change (str ";") with [";"%char]. simpl app.
    rewrite !glossary_entries_app, split_app, filter_app, map_app, !omap_app.
    now rewrite parse_pieces_no_colon. }
  split; [|reflexivity].
  intros doc idx. unfold Indexer.index_glossary, parse_glossary. apply fold_left_omap.
Qed.

(** A text with a colon-less entry in the middle parses as if it were not there. *)
Lemma C6_witness :
  contains ":" (str "no colon here") = false /\
  parse_glossary (str "Aleph (Alef): first letter;no colon here;Bet (Vet): second letter")
  = parse_glossary (str "Aleph (Alef): first letter;Bet (Vet): second letter").
Proof.
  split; [reflexivity|].
  exact (proj1 (proj2 (proj2 C6_glossary_parsing))
           (str "Aleph (Alef): first letter") (str "no colon here")
           (str "Bet (Vet): second letter") eq_refl).
Defined.

(** ** Dictionaries *)

Section DictFacts.
Variables (K V : Type) (keq : K -> K -> bool).
Hypothesis keq_eq : forall a b, keq a b = true <-> a = b.

Lemma keq_refl (a : K) : keq a a = true.
Proof. now apply keq_eq. Qed.

Lemma keq_neq (a b : K) : a <> b -> keq a b = false.
Proof.
  intros H. destruct (keq a b) eqn:E; [apply keq_eq in E; contradiction | reflexivity].
Qed.

Lemma get_set_same (k : K) (v : V) (d : Dict.t K V) :
  Dict.get keq k (Dict.set keq k v d) = Some v.
Proof.
  induction d as [|[k' v'] d IH]; simpl.
  - now rewrite keq_refl.
  - destruct (keq k k') eqn:E; simpl; rewrite E; [reflexivity | assumption].
Qed.

Lemma get_set_other (k k' : K) (v : V) (d : Dict.t K V) :
  k <> k' -> Dict.get keq k' (Dict.set keq k v d) = Dict.get keq k' d.
Proof.
  intros Hn. induction d as [|[k0 v0] d IH]; simpl.
  - rewrite keq_neq; [reflexivity | congruence].
  - destruct (keq k k0) eqn:E; simpl.
    + apply keq_eq in E. subst k0. rewrite keq_neq; [reflexivity | congruence].
    + destruct (keq k' k0); [reflexivity | assumption].
Qed.

Lemma get_set (k k' : K) (v : V) (d : Dict.t K V) :
  Dict.get keq k' (Dict.set keq k v d) = if keq k' k then Some v else Dict.get keq k' d.
Proof.
  destruct (keq k' k) eqn:E.
  - apply keq_eq in E. subst. apply get_set_same.
  - apply get_set_other. intros ->. now rewrite keq_refl in E.
Qed.

Lemma get_In_keys (k : K) (d : Dict.t K V) :
  Dict.mem keq k d = true <-> In k (Dict.keys d).
Proof.
  unfold Dict.mem, Dict.keys. induction d as [|[k' v'] d IH]; simpl.
  - split; [discriminate | tauto].
  - destruct (keq k k') eqn:E.
    + apply keq_eq in E. subst. split; [now left | reflexivity].
    + rewrite IH. split; [now right|]. intros [<-|H]; [|assumption].
      now rewrite keq_refl in E.
Qed.

(** A known key keeps its place, a new one goes last. *)
Lemma keys_set (k : K) (v : V) (d : Dict.t K V) :
  Dict.keys (Dict.set keq k v d) =
  if Dict.mem keq k d then Dict.keys d else Dict.keys d ++ [k].
Proof.
  unfold Dict.mem, Dict.keys. induction d as [|[k' v'] d IH]; simpl; [reflexivity|].
  destruct (keq k k') eqn:E; simpl; [reflexivity|].
  rewrite IH. now destruct (Dict.get keq k d).
Qed.

Lemma set_new (k : K) (v : V) (d : Dict.t K V) :
  Dict.get keq k d = None -> Dict.set keq k v d = d ++ [(k, v)].
Proof.
  induction d as [|[k' v'] d IH]; simpl; [reflexivity|].
  destruct (keq k k'); [discriminate|]. intros H. now rewrite IH.
Qed.
End DictFacts.

Lemma sget_sset {V} (k k' : pystr) (v : V) (d : sdict V) :
  sget k' (sset k v d) = if str_eqb k' k then Some v else sget k' d.
Proof. apply get_set, str_eqb_eq. Qed.

Lemma sget_sappend {X} (k k' : pystr) (x : X) (d : sdict (list X)) :
  sget k' (sappend k x d) =
  if str_eqb k' k then Some (get_or [] (sget k d) ++ [x]) else sget k' d.
Proof.
  unfold sappend, Dict.append. fold (@sget (list X)). fold (@sset (list X)).
  destruct (sget k d) as [l|] eqn:E; rewrite sget_sset; reflexivity.
Qed.

Lemma appended_snoc {X} (o : option (list X)) (x : X) (l : list X) :
  appended (Some (get_or [] o ++ [x])) l = appended o (x :: l).
Proof.
  destruct l as [|y l]; simpl; [reflexivity|]. now rewrite <- app_assoc.
Qed.

(** Reading a [defaultdict(list)] after a run of appends. *)
Lemma sget_register {X} (k : pystr) (regs : list (pystr * X)) (idx : sdict (list X)) :
  sget k (fold_left register regs idx) = appended (sget k idx) (filed_under k regs).
Proof.
  revert idx; induction regs as [|[k1 x] regs IH]; intros idx; simpl; [reflexivity|].
  rewrite IH. unfold register, filed_under. simpl. rewrite sget_sappend.
  destruct (str_eqb k k1) eqn:E; [|reflexivity].
  apply str_eqb_eq in E. subst k1. apply appended_snoc.
Qed.

(** ** The glossary index *)

Lemma fold_left_flat_map {A B S} (f : S -> B -> S) (g : A -> list B) (l : list A) (s : S) :
  fold_left f (flat_map g l) s = fold_left (fun acc x => fold_left f (g x) acc) l s.
Proof.
  revert s; induction l as [|x l IH]; simpl; intros s; [reflexivity|].
  now rewrite fold_left_app, IH.
Qed.

Lemma fold_left_ext {A S} (f g : S -> A -> S) (l : list A) (s : S) :
  (forall acc x, f acc x = g acc x) -> fold_left f l s = fold_left g l s.
Proof.
  intros H. revert s; induction l as [|x l IH]; simpl; intros s; [reflexivity|].
  now rewrite H, IH.
Qed.

(** The loop over the English words files exactly the normalised tokens that
    pass the two tests, in order. *)
Lemma index_keywords_register (doc_id hdate : pystr) (e : GlossaryEntry)
    (words : list pystr) (idx : sdict (list Indexer.GlossaryRef)) :
  fold_left (Indexer.index_keyword doc_id hdate e) words idx =
  fold_left register
    (map (fun k => (k, Indexer.ByKeyword doc_id (hebrew_term e) (english_part e) hdate))
       (map normalized
          (filter (fun w => (3 <? len w) && negb (str_in (normalized w) Indexer.stop_words))
                  words)))
    idx.
Proof.
  revert idx; induction words as [|w words IH]; intros idx; [reflexivity|].
  cbn [fold_left filter]. rewrite IH. unfold Indexer.index_keyword. fold (normalized w).
  destruct (3 <? len w); [|reflexivity].
  destruct (str_in (normalized w) Indexer.stop_words); reflexivity.
Qed.

Lemma index_entry_register (doc_id hdate : pystr) (e : GlossaryEntry)
    (idx : sdict (list Indexer.GlossaryRef)) :
  Indexer.index_entry doc_id hdate e idx =
  fold_left register (glossary_registrations_spec doc_id hdate e) idx.
Proof.
  unfold Indexer.index_entry, glossary_registrations_spec, keyword_keys_spec.
  rewrite !fold_left_app, <- index_keywords_register.
  destruct (truthy (english_part e)) eqn:E.
  - destruct (truthy (hebrew_term e)), (truthy (transliteration e)); reflexivity.
  - apply truthy_false in E. rewrite E.
    destruct (truthy (hebrew_term e)), (truthy (transliteration e)); reflexivity.
Qed.

(** C7: one parsed glossary entry is filed under its Hebrew term and its
    transliteration, when they are not empty, and under the normalised form
    (lower case, trailing '.', ',', ';', ':' removed) of each of the first
    three whitespace-separated tokens of the English definition that is
    longer than 3 characters and whose normalised form is not one of the
    seven stop words; each of these is a key of its own, whose record names
    the document, the Hebrew term and the whole definition; nothing else is
    filed, for one entry as for the whole glossary of a document. *)
Theorem C7_glossary_keywords :
  (forall (doc_id hdate : pystr) (e : GlossaryEntry) (idx : sdict (list Indexer.GlossaryRef)),
     Indexer.index_entry doc_id hdate e idx =
     fold_left register (glossary_registrations_spec doc_id hdate e) idx)
  /\ (forall (doc_id hdate : pystr) (e : GlossaryEntry) (idx : sdict (list Indexer.GlossaryRef))
             (k : pystr),
        sget k (Indexer.index_entry doc_id hdate e idx) =
        appended (sget k idx) (filed_under k (glossary_registrations_spec doc_id hdate e)))
  /\ (forall (doc : Document) (idx : sdict (list Indexer.GlossaryRef)),
        Indexer.index_glossary doc idx =
        fold_left register
          (flat_map (glossary_registrations_spec (Indexer.doc_id_of doc)
                       (get_or [] (hebrew_date (doc_metadata doc))))
                    (parse_glossary (get_or [] (glossary (doc_content doc)))))
          idx)
  /\ keyword_keys_spec (str "The. Wisdom, of God") = [str "wisdom"]
  /\ keyword_keys_spec (str "Divine LIGHT: emanation. source")
     = [str "divine"; str "light"; str "emanation"].
Proof.
  split; [exact index_entry_register|].
  split.
  { intros. rewrite index_entry_register. apply sget_register. }
  split; [|split; reflexivity].
  intros doc idx. unfold Indexer.index_glossary, parse_glossary.
  rewrite fold_left_omap, fold_left_flat_map.
  apply fold_left_ext. intros acc x. apply index_entry_register.
Qed.

(** ** The document summary *)

Lemma document_summary_fold (documents : list Document) (st : Indexer.State) :
  Indexer.document_summary (fold_left Indexer.index_document documents st) =
  Indexer.document_summary st ++ map Indexer.summary_of documents.
Proof.
  revert st; induction documents as [|doc documents IH]; intros st; simpl.
  - now rewrite app_nil_r.
  - rewrite IH. simpl. now rewrite <- app_assoc.
Qed.

Lemma split_ws_nil : split_ws [] = [].
Proof. reflexivity. Qed.

Lemma summary_word_count (doc : Document) :
  Indexer.s_word_count (Indexer.summary_of doc) =
  stored_or_derived (word_count (doc_metadata doc))
    (len (split_ws (get_or [] (main_text (doc_content doc))))).
Proof.
  unfold Indexer.summary_of, stored_or_derived. simpl.
  destruct (get_or 0 (word_count (doc_metadata doc)) =? 0) eqn:E; simpl; [|reflexivity].
  destruct (get_or [] (main_text (doc_content doc))) eqn:T; simpl; [|reflexivity].
  now apply Z.eqb_eq in E.
Qed.

Lemma summary_chunk_count (doc : Document) :
  Indexer.s_chunk_count (Indexer.summary_of doc) =
  stored_or_derived (chunk_count (doc_metadata doc))
    (len (get_or [] (main_text_chunks (doc_content doc)))).
Proof. reflexivity. Qed.

(** C2: the document summary has one entry per document, in the order of the
    input, whatever fields the documents have; the entry of a document
    carries its id, its word count is the stored [metadata.word_count] when
    that is not zero and else the number of whitespace-separated tokens of
    [content.main_text], and its chunk count is the stored
    [metadata.chunk_count] when that is not zero and else the number of
    entries of [content.main_text_chunks], each decided for that document
    alone. *)
Theorem C2_document_summary (documents : list Document) :
  let summary := Indexer.document_summary (Indexer.build documents) in
  length summary = length documents
  /\ Forall2
       (fun doc s =>
          Indexer.s_id s = get_or (str "unknown") (id doc)
          /\ Indexer.s_word_count s =
             stored_or_derived (word_count (doc_metadata doc))
               (len (split_ws (get_or [] (main_text (doc_content doc)))))
          /\ Indexer.s_chunk_count s =
             stored_or_derived (chunk_count (doc_metadata doc))
               (len (get_or [] (main_text_chunks (doc_content doc)))))
       documents summary
  /\ Indexer.entries (Indexer.j_document_summary (Indexer.indexes_of (Indexer.build documents)))
     = summary
  /\ Indexer.total (Indexer.j_document_summary (Indexer.indexes_of (Indexer.build documents)))
     = len documents.
Proof.
  cbv zeta. unfold Indexer.indexes_of, Indexer.part, Indexer.build. simpl.
  rewrite document_summary_fold. simpl.
  split; [apply length_map|]. split; [|split; [reflexivity|]].
  - induction documents as [|doc documents IH]; simpl; constructor; [|assumption].
    split; [reflexivity|]. split; [apply summary_word_count | apply summary_chunk_count].
  - unfold len. now rewrite length_map.
Qed.

(** ** The facet indexes of the Indexer *)

Lemma filter_flat_map {A B} (p : B -> bool) (f : A -> list B) (l : list A) :
  filter p (flat_map f l) = flat_map (fun x => filter p (f x)) l.
Proof.
  induction l as [|x l IH]; simpl; [reflexivity|]. now rewrite filter_app, IH.
Qed.

Lemma map_flat_map {A B C} (g : B -> C) (f : A -> list B) (l : list A) :
  map g (flat_map f l) = flat_map (fun x => map g (f x)) l.
Proof.
  induction l as [|x l IH]; simpl; [reflexivity|]. now rewrite map_app, IH.
Qed.

Lemma index_topics_register (doc : Document) (idx : sdict (list Indexer.TopicRef)) :
  Indexer.index_topics doc idx = fold_left register (topic_registrations doc) idx.
Proof.
  unfold Indexer.index_topics, topic_registrations, topics_of.
  generalize (get_or [] (topics (doc_metadata doc))). intros l.
  revert idx; induction l as [|t l IH]; intros idx; [reflexivity|].
  cbn [fold_left filter]. rewrite IH. unfold nonblank.
  destruct (truthy (strip t)); reflexivity.
Qed.

Lemma index_concepts_register (doc : Document) (idx : sdict (list Indexer.ConceptRef)) :
  Indexer.index_concepts doc idx = fold_left register (concept_registrations doc) idx.
Proof.
  unfold Indexer.index_concepts, concept_registrations, concepts_of.
  generalize (get_or [] (key_concepts (doc_metadata doc))). intros l.
  revert idx; induction l as [|t l IH]; intros idx; [reflexivity|].
  cbn [fold_left filter]. rewrite IH. unfold nonblank.
  destruct (truthy (strip t)); reflexivity.
Qed.

Lemma topic_index_fold (documents : list Document) (st : Indexer.State) :
  Indexer.topic_index (fold_left Indexer.index_document documents st) =
  fold_left register (flat_map topic_registrations documents) (Indexer.topic_index st).
Proof.
  revert st; induction documents as [|doc documents IH]; intros st; simpl; [reflexivity|].
  now rewrite IH, fold_left_app, <- index_topics_register.
Qed.

Lemma concept_index_fold (documents : list Document) (st : Indexer.State) :
  Indexer.concept_index (fold_left Indexer.index_document documents st) =
  fold_left register (flat_map concept_registrations documents) (Indexer.concept_index st).
Proof.
  revert st; induction documents as [|doc documents IH]; intros st; simpl; [reflexivity|].
  now rewrite IH, fold_left_app, <- index_concepts_register.
Qed.

Lemma topic_registrations_keys (documents : list Document) :
  map fst (flat_map topic_registrations documents) =
  filter nonblank (flat_map topics_of documents).
Proof.
  rewrite map_flat_map, filter_flat_map. apply flat_map_ext. intros doc.
  unfold topic_registrations. rewrite map_map. simpl. apply map_id.
Qed.

Lemma concept_registrations_keys (documents : list Document) :
  map fst (flat_map concept_registrations documents) =
  filter nonblank (flat_map concepts_of documents).
Proof.
  rewrite map_flat_map, filter_flat_map. apply flat_map_ext. intros doc.
  unfold concept_registrations. rewrite map_map. simpl. apply map_id.
Qed.

Lemma smem_str_in {V} (k : pystr) (d : sdict V) : smem k d = str_in k (Dict.keys d).
Proof.
  pose proof (@get_In_keys pystr V str_eqb str_eqb_eq k d) as H. fold (@smem V) in H.
  destruct (smem k d) eqn:E1, (str_in k (Dict.keys d)) eqn:E2; try reflexivity.
  - pose proof (proj1 H eq_refl) as HI. apply str_in_In in HI. congruence.
  - apply str_in_In in E2. apply H in E2. discriminate.
Qed.

Lemma keys_sappend {X} (k : pystr) (x : X) (d : sdict (list X)) :
  Dict.keys (sappend k x d) = if str_in k (Dict.keys d) then Dict.keys d else Dict.keys d ++ [k].
Proof.
  rewrite <- smem_str_in. unfold sappend, Dict.append.
  destruct (Dict.get str_eqb k d); apply keys_set.
Qed.

(** The keys of a [defaultdict(list)] come in the order of their first append. *)
Lemma keys_register {X} (regs : list (pystr * X)) (idx : sdict (list X)) :
  Dict.keys (fold_left register regs idx) =
  Dict.keys idx ++ first_occurrences_from (Dict.keys idx) (map fst regs).
Proof.
  revert idx; induction regs as [|[k x] regs IH]; intros idx; simpl.
  - now rewrite app_nil_r.
  - rewrite IH. unfold register. simpl. rewrite keys_sappend.
    destruct (str_in k (Dict.keys idx)); [reflexivity | now rewrite <- app_assoc].
Qed.

Lemma filed_under_length {X} (k : pystr) (regs : list (pystr * X)) :
  len (filed_under k regs) = occurrences k (map fst regs).
Proof.
  unfold filed_under, occurrences, len. rewrite length_map. f_equal.
  induction regs as [|[k1 x] regs IH]; simpl; [reflexivity|].
  destruct (str_eqb k k1); simpl; now rewrite IH.
Qed.

Lemma get_or_appended_nil {X} (l : list X) : get_or [] (appended None l) = l.
Proof. destruct l; reflexivity. Qed.

Lemma first_occurrences_from_incl (seen l : list pystr) :
  incl (first_occurrences_from seen l) l.
Proof.
  revert seen; induction l as [|x l IH]; intros seen; simpl; [apply incl_refl|].
  destruct (str_in x seen).
  - apply incl_tl, IH.
  - intros y [<-|Hy]; [now left | right; now apply (IH (seen ++ [x]))].
Qed.

(** ** Python's [sorted] under [reverse=True] *)

Section SortedFacts.
Variables (A : Type) (key : A -> Z).

Lemma insert_desc_perm (x : A) (l : list A) : Permutation (insert_desc key x l) (x :: l).
Proof.
  induction l as [|y l IH]; simpl; [reflexivity|].
  destruct (key y <=? key x); [reflexivity|].
  rewrite IH. apply perm_swap.
Qed.

Lemma sorted_reverse_perm (l : list A) : Permutation (sorted_reverse key l) l.
Proof.
  induction l as [|x l IH]; simpl; [reflexivity|].
  rewrite insert_desc_perm. now constructor.
Qed.

Lemma insert_desc_sorted (x : A) (l : list A) :
  StronglySorted (fun a b => key b <= key a) l -> StronglySorted (fun a b => key b <= key a) (insert_desc key x l).
Proof.
  induction l as [|y l IH]; simpl; intros H.
  - repeat constructor.
  - inversion H as [|? ? Hs Hf]; subst.
    destruct (key y <=? key x) eqn:E.
    + apply Z.leb_le in E. constructor; [assumption|].
      constructor; [exact E|].
      eapply Forall_impl; [|exact Hf]. intros a Ha. simpl in *. lia.
    + apply Z.leb_gt in E. constructor; [now apply IH|].
      eapply Permutation_Forall; [symmetry; apply insert_desc_perm|].
      constructor; [lia | assumption].
Qed.

Lemma sorted_reverse_sorted (l : list A) : StronglySorted (fun a b => key b <= key a) (sorted_reverse key l).
Proof.
  induction l as [|x l IH]; simpl; [constructor | now apply insert_desc_sorted].
Qed.

(** Stability: the elements of one key keep the order they came in. *)
Lemma insert_desc_stable (n : Z) (x : A) (l : list A) :
  filter (fun a => key a =? n) (insert_desc key x l) =
  filter (fun a => key a =? n) (x :: l).
Proof.
  induction l as [|y l IH]; simpl; [reflexivity|].
  destruct (key y <=? key x) eqn:E; [reflexivity|]. apply Z.leb_gt in E.
  simpl in *. rewrite IH.
  destruct (key x =? n) eqn:Ex, (key y =? n) eqn:Ey; try reflexivity.
  apply Z.eqb_eq in Ex, Ey. lia.
Qed.

Lemma sorted_reverse_stable (n : Z) (l : list A) :
  filter (fun a => key a =? n) (sorted_reverse key l) = filter (fun a => key a =? n) l.
Proof.
  induction l as [|x l IH]; simpl; [reflexivity|].
  rewrite insert_desc_stable. simpl. now rewrite IH.
Qed.
End SortedFacts.

Lemma clamp_nonneg (n i : Z) : 0 <= n -> 0 <= i -> clamp n i = Z.min n i.
Proof.
  intros Hn Hi. unfold clamp.
  destruct (i <? 0) eqn:E; [apply Z.ltb_lt in E; lia|]. lia.
Qed.

(** A slice between two indices that are not negative. *)
Lemma slice_nonneg {A} (l : list A) (a b : Z) :
  0 <= a -> 0 <= b ->
  slice l a b =
  firstn (Z.to_nat (Z.min (len l) b - Z.min (len l) a)) (skipn (Z.to_nat (Z.min (len l) a)) l).
Proof.
  intros Ha Hb. unfold slice.
  assert (0 <= len l) by (unfold len; lia).
  now rewrite !clamp_nonneg.
Qed.

Lemma slice_firstn {A} (l : list A) (n : nat) : slice l 0 (Z.of_nat n) = firstn n l.
Proof.
  rewrite slice_nonneg by lia.
  assert (0 <= len l) by (unfold len; lia).
  rewrite (Z.min_r (len l) 0) by lia. rewrite Z.sub_0_r. simpl skipn.
  destruct (Z.le_ge_cases (len l) (Z.of_nat n)) as [Hle|Hle].
  - rewrite Z.min_l by lia. unfold len in *.
    rewrite Nat2Z.id, !firstn_all2; [reflexivity | lia | lia].
  - rewrite Z.min_r by lia. now rewrite Nat2Z.id.
Qed.

(** ** The ranking of the topics *)

Lemma topic_index_build (documents : list Document) :
  Indexer.topic_index (Indexer.build documents) =
  fold_left register (flat_map topic_registrations documents) [].
Proof. unfold Indexer.build. now rewrite topic_index_fold. Qed.

Lemma concept_index_build (documents : list Document) :
  Indexer.concept_index (Indexer.build documents) =
  fold_left register (flat_map concept_registrations documents) [].
Proof. unfold Indexer.build. now rewrite concept_index_fold. Qed.

Lemma topic_count (documents : list Document) (t : pystr) :
  len (get_or [] (sget t (Indexer.topic_index (Indexer.build documents)))) =
  occurrences t (filter nonblank (flat_map topics_of documents)).
Proof.
  rewrite topic_index_build, sget_register. simpl sget.
  now rewrite get_or_appended_nil, filed_under_length, topic_registrations_keys.
Qed.

Lemma occurrences_app (t : pystr) (l1 l2 : list pystr) :
  occurrences t (l1 ++ l2) = occurrences t l1 + occurrences t l2.
Proof. unfold occurrences, len. rewrite filter_app, length_app. lia. Qed.

Lemma occurrences_NoDup (t : pystr) (l : list pystr) :
  NoDup l -> occurrences t l = if str_in t l then 1 else 0.
Proof.
  unfold occurrences, len. induction 1 as [|x l Hx Hl IH]; simpl; [reflexivity|].
  destruct (str_eqb t x) eqn:E; simpl.
  - apply str_eqb_eq in E. subst x. rewrite filter_none; [reflexivity|].
    intros y Hy. apply str_eqb_neq. congruence.
  - exact IH.
Qed.

Lemma occurrences_nonblank (t : pystr) (l : list pystr) :
  nonblank t = true -> occurrences t (filter nonblank l) = occurrences t l.
Proof.
  intros Ht. unfold occurrences. f_equal.
  induction l as [|x l IH]; simpl; [reflexivity|].
  destruct (str_eqb t x) eqn:E.
  - apply str_eqb_eq in E. subst x. rewrite Ht. simpl. rewrite str_eqb_refl. now rewrite IH.
  - destruct (nonblank x); simpl; [rewrite E|]; exact IH.
Qed.

(** When no document lists a topic twice, the occurrences of a topic are the
    documents that list it. *)
Lemma occurrences_documents (documents : list Document) (t : pystr) :
  (forall doc, In doc documents -> NoDup (topics_of doc)) ->
  occurrences t (flat_map topics_of documents) =
  len (filter (fun doc => str_in t (topics_of doc)) documents).
Proof.
  induction documents as [|doc documents IH]; intros H; simpl; [reflexivity|].
  rewrite occurrences_app, IH by (intros d Hd; apply H; now right).
  rewrite occurrences_NoDup by (apply H; now left).
  unfold len. destruct (str_in t (topics_of doc)); simpl length; lia.
Qed.

(** C9, as the code has it: the topics of the report are the entries of the
    topic index ranked by the number of records filed under each topic, one
    record for every listing of the topic in a document's topics, so that a
    document that lists a topic twice counts twice; larger counts come
    first, and entries with the same count keep the order they have in the
    topic index, which is the order in which the non-blank topics were first
    met in the documents; the report prints the first 15 of the ranking, one
    line each, with the topic, its representative concept when it has one,
    and the count.  The count is the number of documents listing the topic
    when no document lists a topic twice. *)
Theorem C9_top_topics (documents : list Document) :
  let st := Indexer.build documents in
  let ranked := Indexer.sorted_topics st in
  Permutation ranked (Dict.items (Indexer.topic_index st))
  /\ StronglySorted (fun a b => ref_count b <= ref_count a) ranked
  /\ (forall n : Z,
        filter (fun x => ref_count x =? n) ranked =
        filter (fun x => ref_count x =? n) (Dict.items (Indexer.topic_index st)))
  /\ Dict.keys (Indexer.topic_index st) =
     first_occurrences (filter nonblank (flat_map topics_of documents))
  /\ (forall t : pystr,
        len (get_or [] (sget t (Indexer.topic_index st))) =
        occurrences t (filter nonblank (flat_map topics_of documents)))
  /\ (forall t : pystr,
        nonblank t = true ->
        (forall doc, In doc documents -> NoDup (topics_of doc)) ->
        len (get_or [] (sget t (Indexer.topic_index st))) =
        len (filter (fun doc => str_in t (topics_of doc)) documents))
  /\ Indexer.top_topics documents st =
     map (top_topic_line_spec documents) (firstn 15 ranked)
  /\ (length (Indexer.top_topics documents st) <= 15)%nat.
Proof.
  cbv zeta. unfold Indexer.sorted_topics.
  split; [apply sorted_reverse_perm|].
  split; [apply (sorted_reverse_sorted (fun x : pystr * list Indexer.TopicRef => len (snd x)))|].
  split; [intros n; apply (sorted_reverse_stable (fun x : pystr * list Indexer.TopicRef => len (snd x)))|].
  split.
  { rewrite topic_index_build, keys_register, topic_registrations_keys. reflexivity. }
  split; [apply topic_count|].
  split.
  { intros t Ht Hnd. now rewrite topic_count, occurrences_nonblank, occurrences_documents. }
  assert (E : Indexer.top_topics documents (Indexer.build documents) =
              map (top_topic_line_spec documents)
                  (firstn 15 (Indexer.sorted_topics (Indexer.build documents)))).
  { unfold Indexer.top_topics. rewrite (slice_firstn _ 15).
    apply map_ext. intros [topic docs]. reflexivity. }
  split; [exact E|].
  rewrite E, length_map. apply firstn_le_length.
Qed.

(** The specification fails as worded: in [repeated_topic] Bitachon and
    Ahavah are each listed by one document, Bitachon first, so that a ranking
    by documents keeps Bitachon in front; the report ranks Ahavah first, with
    a count of 2 for its two listings in one document. *)
Lemma C9_counterexample :
  document_count repeated_topic (str "Bitachon") = 1
  /\ document_count repeated_topic (str "Ahavah") = 1
  /\ ranked_by_documents_spec repeated_topic = [str "Bitachon"; str "Ahavah"]
  /\ map fst (Indexer.sorted_topics (Indexer.build repeated_topic))
     = [str "Ahavah"; str "Bitachon"]
  /\ Indexer.top_topics repeated_topic (Indexer.build repeated_topic)
     = [str "Ahavah: 2 documents" ++ nl; str "Bitachon: 1 documents" ++ nl]
  /\ ~ (forall documents : list Document,
          map fst (Indexer.sorted_topics (Indexer.build documents))
          = ranked_by_documents_spec documents).
Proof.
  split; [reflexivity|]. split; [reflexivity|]. split; [reflexivity|].
  split; [reflexivity|]. split; [reflexivity|].
  intros H. specialize (H repeated_topic). discriminate H.
Qed.

(** In [three_in_one_chunk] no document lists a topic twice, and the count
    of Teshuvah is the number of documents that list it. *)
Lemma C9_witness :
  nonblank (str "Teshuvah") = true
  /\ (forall doc, In doc three_in_one_chunk -> NoDup (topics_of doc))
  /\ len (get_or [] (sget (str "Teshuvah")
                          (Indexer.topic_index (Indexer.build three_in_one_chunk))))
     = len (filter (fun doc => str_in (str "Teshuvah") (topics_of doc)) three_in_one_chunk).
Proof.
  assert (Hnd : forall doc, In doc three_in_one_chunk -> NoDup (topics_of doc)).
  { intros doc [<-|[<-|[<-|[<-|[]]]]]; cbv [topics_of doc_metadata doc_with_topics get_or metadata topics];
      repeat constructor; simpl; intros H; repeat destruct H as [H|H]; try discriminate H;
      contradiction. }
  split; [reflexivity|]. split; [exact Hnd|].
  exact (proj1 (proj2 (proj2 (proj2 (proj2 (proj2 (C9_top_topics three_in_one_chunk))))))
           (str "Teshuvah") eq_refl Hnd).
Defined.

(** ** The chunks of the Splitter *)

Lemma firstn_add_skipn {A} (a b : nat) (l : list A) :
  firstn (a + b) l = firstn a l ++ firstn b (skipn a l).
Proof.
  revert l; induction a as [|a IH]; intros l; simpl; [reflexivity|].
  destruct l as [|x l]; simpl; [now rewrite firstn_nil | now rewrite IH].
Qed.

(** Consecutive windows of width [c] add up to a prefix. *)
Lemma concat_windows {A} (c m : nat) (l : list A) :
  concat (map (fun k => firstn c (skipn (k * c) l)) (seq 0 m)) = firstn (m * c) l.
Proof.
  induction m as [|m IH]; [reflexivity|].
  rewrite seq_S, map_app, concat_app, IH. simpl concat. rewrite app_nil_r.
  rewrite <- firstn_add_skipn. f_equal. lia.
Qed.

(** Line 44 computes the ceiling of [n / d]. *)
Lemma num_chunks_ceiling (documents : list Document) (d : Z) :
  0 < d ->
  let k := Splitter.num_chunks documents d in
  (k - 1) * d < len documents <= k * d.
Proof.
  intros Hd. cbv zeta. unfold Splitter.num_chunks.
  pose proof (Z.div_mod (len documents + d - 1) d ltac:(lia)) as E.
  pose proof (Z.mod_pos_bound (len documents + d - 1) d Hd) as B.
  nia.
Qed.

Lemma num_chunks_nonneg (documents : list Document) (d : Z) :
  0 < d -> 0 <= Splitter.num_chunks documents d.
Proof.
  intros Hd. pose proof (num_chunks_ceiling documents Hd) as H. cbv zeta in H.
  assert (0 <= len documents) by (unfold len; lia). nia.
Qed.

(** The [k]-th slice is the [k]-th window of width [docs_per_chunk]. *)
Lemma chunk_docs_window (documents : list Document) (d : Z) (k : nat) :
  0 < d ->
  Splitter.chunk_docs documents d (Z.of_nat k) =
  firstn (Z.to_nat d) (skipn (k * Z.to_nat d) documents).
Proof.
  intros Hd. unfold Splitter.chunk_docs.
  assert (Hn : 0 <= len documents) by (unfold len; lia).
  rewrite slice_nonneg by lia.
  destruct (Z.le_gt_cases (len documents) (Z.of_nat k * d)) as [Hge|Hlt].
  - rewrite (Z.min_l (len documents) (Z.of_nat k * d)) by lia.
    rewrite !skipn_all2; [now rewrite !firstn_nil | unfold len in *; nia | unfold len in *; lia].
  - rewrite (Z.min_r (len documents) (Z.of_nat k * d)) by lia.
    replace (Z.to_nat (Z.of_nat k * d)) with (k * Z.to_nat d)%nat by nia.
    set (rest := skipn (k * Z.to_nat d) documents).
    assert (Hr : Z.of_nat (length rest) = len documents - Z.of_nat k * d).
    { unfold rest, len in *. rewrite length_skipn. nia. }
    destruct (Z.le_gt_cases (Z.of_nat k * d + d) (len documents)) as [Hfull|Hlast].
    + rewrite (Z.min_l (Z.of_nat k * d + d) (len documents)) by lia.
      rewrite Z.min_r by lia. f_equal. lia.
    + rewrite (Z.min_r (Z.of_nat k * d + d) (len documents)) by lia.
      rewrite Z.min_id. rewrite !firstn_all2; [reflexivity | lia | lia].
Qed.

Lemma chunks_windows (documents : list Document) (d : Z) :
  0 < d ->
  Splitter.chunks documents d =
  map (fun k => firstn (Z.to_nat d) (skipn (k * Z.to_nat d) documents))
      (seq 0 (Z.to_nat (Splitter.num_chunks documents d))).
Proof.
  intros Hd. unfold Splitter.chunks, range. rewrite map_map.
  apply map_ext. intros k. now apply chunk_docs_window.
Qed.

Lemma chunks_concat (documents : list Document) (d : Z) :
  0 < d -> concat (Splitter.chunks documents d) = documents.
Proof.
  intros Hd. rewrite chunks_windows, concat_windows by assumption.
  apply firstn_all2.
  pose proof (num_chunks_ceiling documents Hd) as H. cbv zeta in H.
  pose proof (num_chunks_nonneg documents Hd). unfold len in *. nia.
Qed.

Lemma chunk_docs_length (documents : list Document) (d i : Z) :
  0 < d -> 0 <= i ->
  len (Splitter.chunk_docs documents d i) = Z.max 0 (Z.min d (len documents - i * d)).
Proof.
  intros Hd Hi. rewrite <- (Z2Nat.id i) by assumption.
  rewrite chunk_docs_window by assumption. unfold len.
  rewrite length_firstn, length_skipn. nia.
Qed.

Lemma concat_map_map {A B} (f : A -> B) (ls : list (list A)) :
  concat (map (map f) ls) = map f (concat ls).
Proof.
  induction ls as [|l ls IH]; simpl; [reflexivity|]. now rewrite map_app, IH.
Qed.

(** ** The master index of the Splitter *)

Lemma sget_add_chunk (c : Z) (m : sdict (list Z)) (k k' : pystr) :
  sget k' (Splitter.add_chunk c m k) =
  if str_eqb k' k then Some (add_once c (get_or [] (sget k m))) else sget k' m.
Proof.
  unfold Splitter.add_chunk, add_once, smem, Dict.mem. fold (@sget (list Z)).
  destruct (sget k m) as [l|] eqn:E; simpl.
  - rewrite E. destruct (existsb (Z.eqb c) l).
    + destruct (str_eqb k' k) eqn:Ek; [|reflexivity].
      apply str_eqb_eq in Ek. now subst.
    + apply sget_sset.
  - rewrite sget_sset, str_eqb_refl. simpl. rewrite !sget_sset.
    destruct (str_eqb k' k); reflexivity.
Qed.

Lemma add_once_idem (c : Z) (l : list Z) : add_once c (add_once c l) = add_once c l.
Proof.
  unfold add_once. destruct (existsb (Z.eqb c) l) eqn:E; [now rewrite E|].
  rewrite existsb_app. simpl. now rewrite Z.eqb_refl, orb_true_r.
Qed.

(** A run of [add_chunk] with one chunk number: every key of the run gets
    the number once, the other keys are left alone. *)
Lemma sget_add_chunks (c : Z) (ks : list pystr) (m : sdict (list Z)) (k : pystr) :
  sget k (fold_left (Splitter.add_chunk c) ks m) =
  if str_in k ks then Some (add_once c (get_or [] (sget k m))) else sget k m.
Proof.
  revert m; induction ks as [|k1 ks IH]; intros m; simpl; [reflexivity|].
  rewrite IH, sget_add_chunk.
  destruct (str_eqb k k1) eqn:E; simpl.
  - apply str_eqb_eq in E. subst k1. rewrite add_once_idem.
    now destruct (str_in k ks).
  - reflexivity.
Qed.

Lemma facet_map_doc (f : Facet) (c : Z) (m : Splitter.MasterIndex) (doc : Document) :
  facet_map f (Splitter.map_doc c m doc) =
  fold_left (Splitter.add_chunk c) (facet_values f doc) (facet_map f m).
Proof.
  destruct f; simpl; try reflexivity.
  - unfold Splitter.map_dates.
    destruct (truthy (get_or [] (hebrew_date (doc_metadata doc)))),
             (truthy (get_or [] (gregorian_date (doc_metadata doc)))); reflexivity.
  - unfold Splitter.map_opening, nonblank.
    destruct (truthy (get_or [] (opening_phrase (doc_metadata doc))) &&
              truthy (strip (get_or [] (opening_phrase (doc_metadata doc))))); reflexivity.
  - unfold Splitter.map_glossary, parse_glossary.
    rewrite fold_left_flat_map. rewrite <- fold_left_omap.
    apply fold_left_ext. intros acc x. destruct (parse_entry x) as [e|]; [|reflexivity].
    destruct (truthy (hebrew_term e)), (truthy (transliteration e)); reflexivity.
Qed.

Lemma facet_map_docs (f : Facet) (c : Z) (docs : list Document) (m : Splitter.MasterIndex) :
  facet_map f (fold_left (Splitter.map_doc c) docs m) =
  fold_left (Splitter.add_chunk c) (flat_map (facet_values f) docs) (facet_map f m).
Proof.
  revert m; induction docs as [|doc docs IH]; intros m; simpl; [reflexivity|].
  now rewrite IH, facet_map_doc, fold_left_app.
Qed.

Lemma facet_map_round (f : Facet) (documents : list Document) (d : Z)
    (m : Splitter.MasterIndex) (chunk_num : Z) :
  facet_map f (Splitter.master_round documents d m chunk_num) =
  fold_left (Splitter.add_chunk (chunk_num + 1))
            (flat_map (facet_values f) (Splitter.chunk_docs documents d chunk_num))
            (facet_map f m).
Proof.
  unfold Splitter.master_round. rewrite facet_map_docs. now destruct f.
Qed.

(** After the rounds [0 .. n-1] a value maps to the numbers of the chunks,
    among those, in which it occurs. *)
Lemma facet_map_rounds (f : Facet) (cm : CollectionMetadata) (documents : list Document)
    (d : Z) (value : pystr) (n : nat) :
  sget value
    (facet_map f (fold_left (Splitter.master_round documents d)
                            (map Z.of_nat (seq 0 n)) (Splitter.empty_master cm)))
  = appended None
      (map (fun c => c + 1) (filter (chunk_has f documents d value) (map Z.of_nat (seq 0 n)))).
Proof.
  induction n as [|n IH]; [now destruct f|].
  rewrite seq_S, map_app, fold_left_app, filter_app, map_app. simpl fold_left.
  rewrite facet_map_round, sget_add_chunks, IH. clear IH. simpl filter.
  fold (chunk_has f documents d value (Z.of_nat n)).
  set (L := map (fun c => c + 1)
                (filter (chunk_has f documents d value) (map Z.of_nat (seq 0 n)))).
  destruct (chunk_has f documents d value (Z.of_nat n)); simpl; [|now rewrite app_nil_r].
  rewrite get_or_appended_nil. unfold add_once.
  assert (Hnew : existsb (Z.eqb (Z.of_nat n + 1)) L = false).
  { destruct (existsb (Z.eqb (Z.of_nat n + 1)) L) eqn:E; [|reflexivity].
    apply existsb_exists in E as (x & Hx & Ex). apply Z.eqb_eq in Ex. subst x.
    unfold L in Hx. apply in_map_iff in Hx as (y & Hy & Hin).
    apply filter_In in Hin as [Hin _]. apply in_map_iff in Hin as (j & <- & Hj).
    apply in_seq in Hj. lia. }
  rewrite Hnew. destruct L; reflexivity.
Qed.

Lemma facet_map_master_index (f : Facet) (cm : CollectionMetadata)
    (documents : list Document) (d : Z) (value : pystr) :
  sget value (facet_map f (Splitter.master_index cm documents d)) =
  appended None (chunks_with_spec f documents d value).
Proof. apply facet_map_rounds. Qed.

Lemma chunk_info_docs (c : Z) (docs : list Document) (m : Splitter.MasterIndex) :
  Splitter.chunk_info (fold_left (Splitter.map_doc c) docs m) = Splitter.chunk_info m.
Proof.
  revert m; induction docs as [|doc docs IH]; intros m; simpl; [reflexivity|]. now rewrite IH.
Qed.

Lemma Z_eqb_iff (a b : Z) : (a =? b) = true <-> a = b.
Proof. apply Z.eqb_eq. Qed.

(** Every round files its chunk under a number not used before, so the
    entries of [chunk_info] follow the rounds. *)
Lemma chunk_info_rounds (cm : CollectionMetadata) (documents : list Document) (d : Z) (n : nat) :
  Splitter.chunk_info
    (fold_left (Splitter.master_round documents d) (map Z.of_nat (seq 0 n))
               (Splitter.empty_master cm))
  = map (chunk_entry documents d) (map Z.of_nat (seq 0 n)).
Proof.
  induction n as [|n IH]; [reflexivity|].
  rewrite seq_S, !map_app, fold_left_app. simpl.
  unfold Splitter.master_round at 1. rewrite chunk_info_docs. simpl. rewrite IH.
  apply set_new.
  destruct (Dict.get Z.eqb (Z.of_nat n + 1) (map (chunk_entry documents d) (map Z.of_nat (seq 0 n))))
    eqn:E; [|reflexivity].
  assert (Hm : Dict.mem Z.eqb (Z.of_nat n + 1)
                 (map (chunk_entry documents d) (map Z.of_nat (seq 0 n))) = true)
    by (unfold Dict.mem; now rewrite E).
  apply (@get_In_keys Z Splitter.ChunkEntry Z.eqb Z_eqb_iff) in Hm. unfold Dict.keys in Hm.
  rewrite !map_map in Hm. apply in_map_iff in Hm as (j & Hj & Hin).
  apply in_seq in Hin. simpl in Hj. lia.
Qed.

Lemma range_length (n : Z) : 0 <= n -> len (range n) = n.
Proof. intros H. unfold len, range. rewrite length_map, length_seq. lia. Qed.

Lemma In_range (n i : Z) : In i (range n) <-> 0 <= i < n.
Proof.
  unfold range. rewrite in_map_iff. split.
  - intros (j & <- & Hj). apply in_seq in Hj. lia.
  - intros H. exists (Z.to_nat i). split; [lia | apply in_seq; lia].
Qed.

(** C1: for a positive [docs_per_chunk] the number of chunks is the ceiling
    of the number of documents over [docs_per_chunk]; the loop goes through
    that many slices; every slice but the last has [docs_per_chunk]
    documents and the last has the remainder, between 1 and
    [docs_per_chunk]; the slices put end to end are the input, documents as
    ids, so that no document is skipped or comes twice; and the id lists
    the master index records per chunk are the ids of these slices. *)
Theorem C1_chunks_partition (cm : CollectionMetadata) (documents : list Document)
    (docs_per_chunk : Z) :
  0 < docs_per_chunk ->
  let n := len documents in
  let k := Splitter.num_chunks documents docs_per_chunk in
  let cs := Splitter.chunks documents docs_per_chunk in
  (k - 1) * docs_per_chunk < n <= k * docs_per_chunk
  /\ len cs = k
  /\ (forall i, 0 <= i < k - 1 ->
        len (Splitter.chunk_docs documents docs_per_chunk i) = docs_per_chunk)
  /\ (0 < k ->
        len (Splitter.chunk_docs documents docs_per_chunk (k - 1)) = n - (k - 1) * docs_per_chunk
        /\ 0 < n - (k - 1) * docs_per_chunk <= docs_per_chunk)
  /\ concat cs = documents
  /\ concat (map (map id) cs) = map id documents
  /\ map (fun e => Splitter.ce_document_ids (snd e))
         (Splitter.chunk_info (Splitter.master_index cm documents docs_per_chunk))
     = map (map id) cs.
Proof.
  intros Hd. cbv zeta.
  pose proof (num_chunks_ceiling documents Hd) as Hc. cbv zeta in Hc.
  pose proof (num_chunks_nonneg documents Hd) as Hk.
  split; [exact Hc|].
  split.
  { unfold Splitter.chunks, len. rewrite length_map. now apply range_length. }
  split.
  { intros i Hi. rewrite chunk_docs_length by lia. nia. }
  split.
  { intros Hpos. rewrite chunk_docs_length by lia. nia. }
  split; [now apply chunks_concat|].
  split.
  { rewrite concat_map_map. f_equal. now apply chunks_concat. }
  unfold Splitter.master_index, Splitter.chunks, range.
  rewrite chunk_info_rounds, !map_map. reflexivity.
Qed.

(** The chunking scenario: 25 documents in chunks of 10. *)
Example chunks_25_by_10 :
  map (@length Document)
      (Splitter.chunks (map (fun i => doc_with_topics (str_of_int (Z.of_nat i)) [] []) (seq 0 25)) 10)
  = [10; 10; 5]%nat.
Proof. vm_compute. reflexivity. Qed.

Lemma C1_witness :
  0 < 10 /\
  concat (Splitter.chunks
            (map (fun i => doc_with_topics (str_of_int (Z.of_nat i)) [] []) (seq 0 25)) 10)
  = map (fun i => doc_with_topics (str_of_int (Z.of_nat i)) [] []) (seq 0 25).
Proof.
  split; [lia|].
  apply (C1_chunks_partition no_collection_metadata
           (map (fun i => doc_with_topics (str_of_int (Z.of_nat i)) [] []) (seq 0 25))
           (docs_per_chunk := 10) eq_refl).
Defined.

Lemma range_sorted (a n : nat) : StronglySorted Z.lt (map Z.of_nat (seq a n)).
Proof.
  revert a; induction n as [|n IH]; intros a; simpl; constructor; [apply IH|].
  apply Forall_forall. intros x Hx. apply in_map_iff in Hx as (j & <- & Hj).
  apply in_seq in Hj. lia.
Qed.

Lemma StronglySorted_filter {A} (R : A -> A -> Prop) (p : A -> bool) (l : list A) :
  StronglySorted R l -> StronglySorted R (filter p l).
Proof.
  induction 1 as [|x l Hs IH Hf]; simpl; [constructor|].
  destruct (p x); [|assumption]. constructor; [assumption|].
  apply Forall_forall. intros y Hy. apply filter_In in Hy as [Hy _].
  rewrite Forall_forall in Hf. now apply Hf.
Qed.

Lemma StronglySorted_succ (l : list Z) :
  StronglySorted Z.lt l -> StronglySorted Z.lt (map (fun c => c + 1) l).
Proof.
  induction 1 as [|x l Hs IH Hf]; simpl; constructor; [assumption|].
  apply Forall_forall. intros y Hy. apply in_map_iff in Hy as (z & <- & Hz).
  rewrite Forall_forall in Hf. specialize (Hf z Hz). lia.
Qed.

Lemma StronglySorted_lt_NoDup (l : list Z) : StronglySorted Z.lt l -> NoDup l.
Proof.
  induction 1 as [|x l Hs IH Hf]; constructor; [|assumption].
  intros Hin. rewrite Forall_forall in Hf. specialize (Hf x Hin). lia.
Qed.

Lemma chunks_with_sorted (f : Facet) (documents : list Document) (d : Z) (value : pystr) :
  StronglySorted Z.lt (chunks_with_spec f documents d value).
Proof. apply StronglySorted_succ, StronglySorted_filter, range_sorted. Qed.

Lemma appended_None_Some {X} (l l' : list X) : appended None l = Some l' -> l = l'.
Proof. destruct l; simpl; congruence. Qed.

(** A filter that lets through one element of a duplicate-free list. *)
Lemma filter_only {A} (p : A -> bool) (x : A) (l : list A) :
  NoDup l -> In x l -> p x = true ->
  (forall y, In y l -> p y = true -> y = x) ->
  filter p l = [x].
Proof.
  induction 1 as [|z l Hz Hl IH]; intros Hin Hx Huniq; [contradiction|].
  simpl. destruct Hin as [->|Hin].
  - rewrite Hx. f_equal. apply filter_none. intros y Hy.
    destruct (p y) eqn:E; [|reflexivity].
    assert (y = x) by (apply Huniq; [now right | assumption]). subst. contradiction.
  - destruct (p z) eqn:E.
    + assert (z = x) by (apply Huniq; [now left | assumption]). subst. contradiction.
    + apply IH; try assumption. intros y Hy. apply Huniq. now right.
Qed.

(** C3: in each of the five facet mappings of the master index a chunk
    number is appended to the list of a value only when the list does not
    have it; the list of a value is the numbers of the chunks in which the
    value occurs, in the order in which the chunks are gone through, so it
    has no duplicate and is strictly increasing; and a value whose
    occurrences all lie in one chunk maps to the one-element list of that
    chunk's number. *)
Theorem C3_master_index_dedup (cm : CollectionMetadata) (documents : list Document)
    (docs_per_chunk : Z) (f : Facet) (value : pystr) :
  let m := Splitter.master_index cm documents docs_per_chunk in
  (forall (c : Z) (idx : sdict (list Z)) (k : pystr),
     sget k (Splitter.add_chunk c idx k) = Some (add_once c (get_or [] (sget k idx))))
  /\ sget value (facet_map f m) =
     appended None (chunks_with_spec f documents docs_per_chunk value)
  /\ (forall l, sget value (facet_map f m) = Some l -> NoDup l /\ StronglySorted Z.lt l)
  /\ (forall c,
        In c (range (Splitter.num_chunks documents docs_per_chunk)) ->
        chunk_has f documents docs_per_chunk value c = true ->
        (forall c', In c' (range (Splitter.num_chunks documents docs_per_chunk)) ->
                    chunk_has f documents docs_per_chunk value c' = true -> c' = c) ->
        sget value (facet_map f m) = Some [c + 1]).
Proof.
  cbv zeta. split.
  { intros c idx k. now rewrite sget_add_chunk, str_eqb_refl. }
  split; [apply facet_map_master_index|].
  split.
  { intros l Hl. rewrite facet_map_master_index in Hl. apply appended_None_Some in Hl.
    subst l. split; [apply StronglySorted_lt_NoDup|]; apply chunks_with_sorted. }
  intros c Hc Hhas Huniq. rewrite facet_map_master_index. unfold chunks_with_spec.
  rewrite (@filter_only _ _ c); [reflexivity | | assumption | assumption | assumption].
  apply StronglySorted_lt_NoDup, range_sorted.
Qed.

(** A topic listed by three documents of the first chunk maps to [[1]]. *)
Lemma C3_witness :
  In 0 (range (Splitter.num_chunks three_in_one_chunk 10))
  /\ chunk_has TopicFacet three_in_one_chunk 10 (str "Teshuvah") 0 = true
  /\ sget (str "Teshuvah")
          (Splitter.topic_to_chunks
             (Splitter.master_index no_collection_metadata three_in_one_chunk 10))
     = Some [1].
Proof.
  split; [now left|]. split; [reflexivity|].
  refine (proj2 (proj2 (proj2
            (C3_master_index_dedup no_collection_metadata three_in_one_chunk 10
               TopicFacet (str "Teshuvah"))))
            0 _ _ _).
  - now left.
  - reflexivity.
  - intros c' [<-|[]] _. reflexivity.
Defined.

(** ** Which facet keys exist *)

Lemma In_chunks (documents : list Document) (d : Z) (doc : Document) :
  0 < d -> In doc documents ->
  exists c, In c (range (Splitter.num_chunks documents d))
            /\ In doc (Splitter.chunk_docs documents d c).
Proof.
  intros Hd Hin. rewrite <- (chunks_concat documents Hd) in Hin.
  apply in_concat in Hin as (chunk & Hchunk & Hdoc).
  unfold Splitter.chunks in Hchunk. apply in_map_iff in Hchunk as (c & <- & Hc).
  now exists c.
Qed.

Lemma smem_sget {V} (k : pystr) (d : sdict V) :
  smem k d = match sget k d with Some _ => true | None => false end.
Proof. reflexivity. Qed.

(** The Splitter keeps every value a document brings to a facet. *)
Lemma facet_value_kept (f : Facet) (cm : CollectionMetadata) (documents : list Document)
    (d : Z) (doc : Document) (value : pystr) :
  0 < d -> In doc documents -> In value (facet_values f doc) ->
  smem value (facet_map f (Splitter.master_index cm documents d)) = true.
Proof.
  intros Hd Hdoc Hv. rewrite smem_sget, facet_map_master_index.
  destruct (@In_chunks documents d doc Hd Hdoc) as (c & Hc & Hin).
  assert (Hhas : In (c + 1) (chunks_with_spec f documents d value)).
  { unfold chunks_with_spec. apply in_map_iff. exists c. split; [reflexivity|].
    apply filter_In. split; [assumption|].
    unfold chunk_has. apply str_in_In, in_flat_map. now exists doc. }
  destruct (chunks_with_spec f documents d value); [contradiction | reflexivity].
Qed.

(** The Indexer keeps only the values that are not blank. *)
Lemma registered_keys_nonblank {X} (regs : list (pystr * X)) (l : list pystr) (k : pystr) :
  map fst regs = filter nonblank l ->
  smem k (fold_left register regs []) = true -> nonblank k = true.
Proof.
  intros Hkeys Hk. rewrite smem_str_in, keys_register, Hkeys in Hk. simpl in Hk.
  apply str_in_In, first_occurrences_from_incl, filter_In in Hk. tauto.
Qed.

(** C10: the Splitter files every element of a document's topics and
    key_concepts in the master index, blank or not, while every key of the
    Indexer's topic and concept indexes is non-blank; on a document whose
    topics are a space and the empty string and whose concept is two spaces
    the master index has these three keys and the Indexer has none of them. *)
Theorem C10_blank_facet_values :
  (forall (cm : CollectionMetadata) (documents : list Document) (docs_per_chunk : Z)
          (doc : Document) (topic : pystr),
     0 < docs_per_chunk -> In doc documents -> In topic (topics_of doc) ->
     smem topic (Splitter.topic_to_chunks
                   (Splitter.master_index cm documents docs_per_chunk)) = true)
  /\ (forall (cm : CollectionMetadata) (documents : list Document) (docs_per_chunk : Z)
             (doc : Document) (concept : pystr),
        0 < docs_per_chunk -> In doc documents -> In concept (concepts_of doc) ->
        smem concept (Splitter.concept_to_chunks
                        (Splitter.master_index cm documents docs_per_chunk)) = true)
  /\ (forall (documents : list Document) (topic : pystr),
        smem topic (Indexer.topic_index (Indexer.build documents)) = true ->
        nonblank topic = true)
  /\ (forall (documents : list Document) (concept : pystr),
        smem concept (Indexer.concept_index (Indexer.build documents)) = true ->
        nonblank concept = true)
  /\ (let master := Splitter.master_index no_collection_metadata blank_facets 10 in
      let st := Indexer.build blank_facets in
      smem (str " ") (Splitter.topic_to_chunks master) = true
      /\ smem (str "") (Splitter.topic_to_chunks master) = true
      /\ smem (str "  ") (Splitter.concept_to_chunks master) = true
      /\ Indexer.topic_index st = []
      /\ Indexer.concept_index st = []).
Proof.
  split.
  { intros cm documents d doc topic Hd Hdoc Ht.
    exact (@facet_value_kept TopicFacet cm documents d doc topic Hd Hdoc Ht). }
  split.
  { intros cm documents d doc concept Hd Hdoc Hc.
    exact (@facet_value_kept ConceptFacet cm documents d doc concept Hd Hdoc Hc). }
  split.
  { intros documents topic. rewrite topic_index_build.
    apply registered_keys_nonblank with (l := flat_map topics_of documents).
    apply topic_registrations_keys. }
  split.
  { intros documents concept. rewrite concept_index_build.
    apply registered_keys_nonblank with (l := flat_map concepts_of documents).
    apply concept_registrations_keys. }
  cbv zeta. repeat split; reflexivity.
Qed.

Lemma C10_witness :
  0 < 10 /\ In (doc_with_topics (str "d1") [str " "; str ""] [str "  "]) blank_facets
  /\ In (str " ") (topics_of (doc_with_topics (str "d1") [str " "; str ""] [str "  "]))
  /\ smem (str " ")
          (Splitter.topic_to_chunks
             (Splitter.master_index no_collection_metadata blank_facets 10)) = true.
Proof.
  split; [lia|]. split; [now left|]. split; [now left|].
  refine (proj1 C10_blank_facet_values no_collection_metadata blank_facets 10
            (doc_with_topics (str "d1") [str " "; str ""] [str "  "]) (str " ") _ _ _).
  - lia.
  - now left.
  - now left.
Defined.

(** ** The topic-to-concept mapping of the report *)

Lemma sget_find {V} (t : pystr) (d : sdict V) :
  sget t d = option_map snd (find (fun p => str_eqb t (fst p)) d).
Proof.
  induction d as [|[k v] d IH]; simpl; [reflexivity|].
  destruct (str_eqb t k); [reflexivity | exact IH].
Qed.

Lemma sget_app {V} (t : pystr) (a b : sdict V) :
  sget t (a ++ b) = match sget t a with Some v => Some v | None => sget t b end.
Proof.
  induction a as [|[k v] a IH]; simpl; [reflexivity|].
  destruct (str_eqb t k); [reflexivity | exact IH].
Qed.

Lemma sget_guarded_insert (m : sdict pystr) (kvs : list (pystr * pystr)) (t : pystr) :
  sget t (fold_left guarded_insert kvs m) =
  match sget t m with Some c => Some c | None => sget t kvs end.
Proof.
  revert m; induction kvs as [|[k v] kvs IH]; intros m; simpl.
  - now destruct (sget t m).
  - rewrite IH. unfold guarded_insert. simpl. rewrite smem_sget.
    destruct (str_eqb t k) eqn:E.
    + apply str_eqb_eq in E. subst k.
      destruct (sget t m) eqn:G; [now rewrite G|].
      now rewrite sget_sset, str_eqb_refl.
    + destruct (sget k m); [reflexivity|]. rewrite sget_sset, E. reflexivity.
Qed.

Lemma combine_nil_r {A B} (l : list A) : combine l (@nil B) = [].
Proof. now destruct l. Qed.

(** The loop over [enumerate(doc_topics)] is a guarded insert of the topics
    paired with the concepts at their positions. *)
Lemma topic_to_concept_step_fold (concepts topics : list pystr) (off : nat) (m : sdict pystr) :
  fold_left (Indexer.topic_to_concept_step concepts)
            (combine (seq off (length topics)) topics) m =
  fold_left guarded_insert (combine topics (skipn off concepts)) m.
Proof.
  revert off m; induction topics as [|t topics IH]; intros off m; [reflexivity|].
  simpl length. simpl seq. simpl combine at 1. simpl fold_left at 1. rewrite IH.
  unfold Indexer.topic_to_concept_step, len.
  destruct (Z.of_nat off <? Z.of_nat (length concepts)) eqn:E.
  - apply Z.ltb_lt in E.
    assert (Hs : skipn off concepts = nth off concepts [] :: skipn (S off) concepts).
    { clear - E. revert off E. induction concepts as [|c concepts IHc]; intros off E.
      - simpl in E. lia.
      - destruct off as [|off]; [reflexivity|]. simpl. apply IHc. simpl in E. lia. }
    rewrite Hs. cbn [combine fold_left andb]. f_equal.
    unfold guarded_insert. cbn [fst snd]. now destruct (smem t m).
  - apply Z.ltb_ge in E. rewrite !skipn_all2 by lia. simpl.
    now rewrite !combine_nil_r.
Qed.

Lemma topic_to_concept_doc_fold (m : sdict pystr) (doc : Document) :
  Indexer.topic_to_concept_doc m doc = fold_left guarded_insert (paired doc) m.
Proof.
  unfold Indexer.topic_to_concept_doc, enumerate, paired.
  fold (topics_of doc). fold (concepts_of doc).
  now rewrite topic_to_concept_step_fold.
Qed.

Lemma topic_to_concept_fold (documents : list Document) (m : sdict pystr) :
  fold_left Indexer.topic_to_concept_doc documents m =
  fold_left guarded_insert (flat_map paired documents) m.
Proof.
  revert m; induction documents as [|doc documents IH]; intros m; simpl; [reflexivity|].
  now rewrite IH, topic_to_concept_doc_fold, fold_left_app.
Qed.

Lemma sget_topic_to_concept (documents : list Document) (t : pystr) :
  sget t (Indexer.topic_to_concept documents) = sget t (flat_map paired documents).
Proof.
  unfold Indexer.topic_to_concept. now rewrite topic_to_concept_fold, sget_guarded_insert.
Qed.

Lemma sget_combine_absent (t : pystr) (topics concepts : list pystr) :
  index_of t topics = None -> sget t (combine topics concepts) = None.
Proof.
  revert concepts; induction topics as [|x topics IH]; intros concepts H; [reflexivity|].
  simpl in H. destruct (str_eqb t x) eqn:E; [discriminate|].
  destruct concepts as [|c concepts]; [reflexivity|]. simpl. rewrite E. apply IH.
  now destruct (index_of t topics).
Qed.

Lemma sget_combine_at (t : pystr) (topics concepts : list pystr) (i : nat) (c : pystr) :
  index_of t topics = Some i -> nth_error concepts i = Some c ->
  sget t (combine topics concepts) = Some c.
Proof.
  revert concepts i; induction topics as [|x topics IH]; intros concepts i H Hc; [discriminate|].
  simpl in H. destruct (str_eqb t x) eqn:E.
  - injection H as <-. destruct concepts as [|c0 concepts]; [discriminate|].
    simpl in *. rewrite E. congruence.
  - destruct (index_of t topics) as [j|] eqn:Ej; [|discriminate].
    injection H as <-. destruct concepts as [|c0 concepts]; [discriminate|].
    simpl in *. rewrite E. now apply IH with (i := j).
Qed.

(** When the first listing of a topic has a concept at its position, that
    concept is the recorded one. *)
Lemma first_seen_recorded (documents : list Document) (t c : pystr) :
  first_seen_concept_spec documents t = Some c ->
  sget t (Indexer.topic_to_concept documents) = Some c.
Proof.
  rewrite sget_topic_to_concept. unfold first_seen_concept_spec.
  induction documents as [|doc documents IH]; simpl; [discriminate|].
  rewrite sget_app. unfold paired at 1.
  destruct (index_of t (topics_of doc)) as [i|] eqn:E.
  - intros H. now rewrite (@sget_combine_at t _ _ i c E H).
  - intros H. rewrite sget_combine_absent by assumption. now apply IH.
Qed.

(** C8, as the code has it: the mapping is built from the documents alone (it
    has the blank topics that the topic index leaves out); a topic maps to
    the concept at its position in the first listing of the topic that has a
    concept at its position, listings at positions past the end of
    key_concepts being passed over; a recorded concept is never replaced when
    more documents follow; and when the very first listing of the topic has a
    concept at its position, that concept is the recorded one. *)
Theorem C8_topic_to_concept (documents : list Document) (t : pystr) :
  sget t (Indexer.topic_to_concept documents) = first_paired_concept_spec documents t
  /\ Indexer.topic_to_concept documents =
     fold_left guarded_insert (flat_map paired documents) []
  /\ (forall (more : list Document) (c : pystr),
        sget t (Indexer.topic_to_concept documents) = Some c ->
        sget t (Indexer.topic_to_concept (documents ++ more)) = Some c)
  /\ (forall c : pystr,
        first_seen_concept_spec documents t = Some c ->
        sget t (Indexer.topic_to_concept documents) = Some c)
  /\ (Indexer.topic_to_concept blank_facets = [(str " ", str "  ")]
      /\ Indexer.topic_index (Indexer.build blank_facets) = []).
Proof.
  split.
  { rewrite sget_topic_to_concept. apply sget_find. }
  split; [apply topic_to_concept_fold|].
  split.
  { intros more c. rewrite !sget_topic_to_concept, flat_map_app, sget_app. now intros ->. }
  split; [apply first_seen_recorded|].
  split; reflexivity.
Qed.

(** The recorded concept of Ahavah in [late_concept] stays when a document
    with another concept for it follows. *)
Lemma C8_witness :
  sget (str "Ahavah") (Indexer.topic_to_concept (firstn 2 late_concept)) = Some (str "Love")
  /\ sget (str "Ahavah") (Indexer.topic_to_concept late_concept) = Some (str "Love").
Proof.
  split; [reflexivity|].
  exact (proj1 (proj2 (proj2 (C8_topic_to_concept (firstn 2 late_concept) (str "Ahavah"))))
           (skipn 2 late_concept) (str "Love") eq_refl).
Defined.

(** The specification fails as worded: Ahavah is first met in a document that has no
    concept at its position, and is mapped to Love all the same, from the
    second document. *)
Lemma C8_counterexample :
  first_encounter (str "Ahavah") late_concept
  = Some (doc_with_topics (str "d1") [str "Ahavah"] [], 0%nat)
  /\ first_seen_concept_spec late_concept (str "Ahavah") = None
  /\ sget (str "Ahavah") (Indexer.topic_to_concept late_concept) = Some (str "Love")
  /\ ~ (forall (documents : list Document) (t : pystr),
          sget t (Indexer.topic_to_concept documents) = first_seen_concept_spec documents t).
Proof.
  split; [reflexivity|]. split; [reflexivity|]. split; [reflexivity|].
  intros H. specialize (H late_concept (str "Ahavah")). discriminate H.
Qed.

(** ** Runs of the two scripts *)

Lemma sset_sset {V} (p : pystr) (v1 v2 : V) (d : sdict V) :
  sset p v2 (sset p v1 d) = sset p v2 d.
Proof.
  induction d as [|[k v] d IH]; simpl.
  - now rewrite str_eqb_refl.
  - destruct (str_eqb p k) eqn:E; simpl; rewrite E; [reflexivity | now f_equal].
Qed.

Section Runs.
Variable J : Type.
Implicit Types (w : world J) (p : pystr).

Lemma put_file_put_file p (f1 f2 : file J) w :
  put_file p f2 (put_file p f1 w) = put_file p f2 w.
Proof. unfold put_file. simpl. now rewrite sset_sset. Qed.

Lemma write_opened p (old s : pystr) w :
  write p s (put_file p (TextFile old) w) = (put_file p (TextFile (old ++ s)) w, Ok tt).
Proof.
  unfold write. simpl. rewrite sget_sset, str_eqb_refl. now rewrite put_file_put_file.
Qed.

(** A run of writes on an open file adds the strings in order. *)
Lemma write_all_opened p (old : pystr) (l : list pystr) w :
  write_all p l (put_file p (TextFile old) w) =
  (put_file p (TextFile (old ++ concat l)) w, Ok tt).
Proof.
  unfold write_all. revert old; induction l as [|s l IH]; intros old; cbn [for_each concat].
  - now rewrite app_nil_r.
  - unfold bind. rewrite write_opened, IH. now rewrite <- app_assoc.
Qed.

Lemma open_w_ok p w :
  str_in p (read_only w) = false -> open_w p w = (put_file p (TextFile []) w, Ok tt).
Proof. unfold open_w. now intros ->. Qed.

Lemma json_dump_ok p (v : J) w :
  str_in p (read_only w) = false -> json_dump p v w = (put_file p (JsonFile v) w, Ok tt).
Proof. unfold json_dump. now intros ->. Qed.

Lemma json_dump_refused p (v : J) w :
  str_in p (read_only w) = true -> json_dump p v w = (w, Raise (OSError p)).
Proof. unfold json_dump. now intros ->. Qed.
End Runs.

(** The runs of the Indexer, by what the input and the system allow. *)
Lemma indexer_load_error (w0 : world Indexer.Indexes) :
  Indexer.create_search_indexes None w0 = (w0, Raise LoadError).
Proof. reflexivity. Qed.

Lemma indexer_index_refused (data : Data) (w0 : world Indexer.Indexes) :
  str_in Indexer.index_file (read_only w0) = true ->
  Indexer.create_search_indexes (Some data) w0 = (w0, Raise (OSError Indexer.index_file)).
Proof.
  intros H. unfold Indexer.create_search_indexes, bind, load, ret.
  now rewrite json_dump_refused.
Qed.

Lemma indexer_report_refused (data : Data) (w0 : world Indexer.Indexes) :
  str_in Indexer.index_file (read_only w0) = false ->
  str_in Indexer.quick_ref_file (read_only w0) = true ->
  Indexer.create_search_indexes (Some data) w0 =
  (put_file Indexer.index_file
     (JsonFile (Indexer.indexes_of (Indexer.build (get_or [] (documents data))))) w0,
   Raise (OSError Indexer.quick_ref_file)).
Proof.
  intros H1 H2. unfold Indexer.create_search_indexes, bind, load, ret.
  rewrite json_dump_ok by assumption. unfold open_w. simpl read_only. now rewrite H2.
Qed.

Lemma indexer_completes (data : Data) (cm : CollectionMetadata) (w0 : world Indexer.Indexes) :
  collection_metadata data = Some cm ->
  str_in Indexer.index_file (read_only w0) = false ->
  str_in Indexer.quick_ref_file (read_only w0) = false ->
  let documents := get_or [] (documents data) in
  let st := Indexer.build documents in
  Indexer.create_search_indexes (Some data) w0 =
  (put_file Indexer.quick_ref_file
     (TextFile (concat (Indexer.report_head st ++ Indexer.report_body cm documents st)))
     (put_file Indexer.index_file (JsonFile (Indexer.indexes_of st)) w0),
   Ok tt).
Proof.
  intros Hcm H1 H2. cbv zeta.
  unfold Indexer.create_search_indexes, bind, load, ret.
  rewrite json_dump_ok by assumption.
  rewrite open_w_ok by (simpl; assumption).
  rewrite write_all_opened. unfold Indexer.subscript_collection_metadata. rewrite Hcm.
  unfold ret. rewrite write_all_opened. now rewrite concat_app.
Qed.

(** X7: without [collection_metadata] the run stops at line 219, the index file
    written and the quick reference begun. *)
Lemma indexer_without_collection_metadata (data : Data) (w0 : world Indexer.Indexes) :
  collection_metadata data = None ->
  str_in Indexer.index_file (read_only w0) = false ->
  str_in Indexer.quick_ref_file (read_only w0) = false ->
  let st := Indexer.build (get_or [] (documents data)) in
  Indexer.create_search_indexes (Some data) w0 =
  (put_file Indexer.quick_ref_file (TextFile (concat (Indexer.report_head st)))
     (put_file Indexer.index_file (JsonFile (Indexer.indexes_of st)) w0),
   Raise (KeyError (str "collection_metadata"))).
Proof.
  intros Hcm H1 H2. cbv zeta.
  unfold Indexer.create_search_indexes, bind, load, ret.
  rewrite json_dump_ok by assumption.
  rewrite open_w_ok by (simpl; assumption).
  rewrite write_all_opened. unfold Indexer.subscript_collection_metadata. rewrite Hcm.
  reflexivity.
Qed.

(** C4, as the code has it: an input that cannot be loaded stops the run
    before anything is written; so does a refusal to open the index file;
    once the input is loaded the JSON index is written in full before the
    quick reference is opened, and it stays when the quick reference cannot
    be opened; when the input has its collection_metadata and both files can
    be opened, the run ends normally with both files written in full. *)
Theorem C4_indexer_outputs (w0 : world Indexer.Indexes) :
  Indexer.create_search_indexes None w0 = (w0, Raise LoadError)
  /\ (forall data : Data,
        str_in Indexer.index_file (read_only w0) = true ->
        Indexer.create_search_indexes (Some data) w0 =
        (w0, Raise (OSError Indexer.index_file)))
  /\ (forall data : Data,
        str_in Indexer.index_file (read_only w0) = false ->
        str_in Indexer.quick_ref_file (read_only w0) = true ->
        Indexer.create_search_indexes (Some data) w0 =
        (put_file Indexer.index_file
           (JsonFile (Indexer.indexes_of (Indexer.build (get_or [] (documents data))))) w0,
         Raise (OSError Indexer.quick_ref_file)))
  /\ (forall (data : Data) (cm : CollectionMetadata),
        collection_metadata data = Some cm ->
        str_in Indexer.index_file (read_only w0) = false ->
        str_in Indexer.quick_ref_file (read_only w0) = false ->
        snd (Indexer.create_search_indexes (Some data) w0) = Ok tt
        /\ both_outputs_written (Some data)
             (fst (Indexer.create_search_indexes (Some data) w0))).
Proof.
  split; [apply indexer_load_error|].
  split; [intros data; apply indexer_index_refused|].
  split; [intros data; apply indexer_report_refused|].
  intros data cm Hcm H1 H2.
  rewrite (indexer_completes data w0 Hcm H1 H2). simpl fst. simpl snd.
  split; [reflexivity|].
  exists data, cm. split; [reflexivity|]. split; [assumption|]. cbv zeta.
  unfold put_file. simpl files. split.
  - rewrite !sget_sset. reflexivity.
  - now rewrite sget_sset, str_eqb_refl.
Qed.

Lemma C4_witness :
  collection_metadata small_corpus = Some {| date_range := Some (str "5711-5712") |}
  /\ str_in Indexer.index_file (read_only (@empty_world Indexer.Indexes)) = false
  /\ str_in Indexer.quick_ref_file (read_only (@empty_world Indexer.Indexes)) = false
  /\ snd (Indexer.create_search_indexes (Some small_corpus) empty_world) = Ok tt
  /\ both_outputs_written (Some small_corpus)
       (fst (Indexer.create_search_indexes (Some small_corpus) empty_world)).
Proof.
  split; [reflexivity|]. split; [reflexivity|]. split; [reflexivity|].
  exact (proj2 (proj2 (proj2 (C4_indexer_outputs empty_world)))
           small_corpus {| date_range := Some (str "5711-5712") |}
           eq_refl eq_refl eq_refl).
Defined.

(** The specification fails as worded: on a loadable, well-formed corpus, when the
    quick-reference file cannot be opened the run ends with the index file
    written and no quick reference. *)
Lemma C4_counterexample :
  snd (Indexer.create_search_indexes (Some small_corpus) quick_ref_refused)
  = Raise (OSError Indexer.quick_ref_file)
  /\ smem Indexer.index_file
       (files (fst (Indexer.create_search_indexes (Some small_corpus) quick_ref_refused)))
     = true
  /\ smem Indexer.quick_ref_file
       (files (fst (Indexer.create_search_indexes (Some small_corpus) quick_ref_refused)))
     = false
  /\ ~ all_or_nothing (Some small_corpus) quick_ref_refused.
Proof.
  unfold all_or_nothing.
  rewrite (@indexer_report_refused small_corpus quick_ref_refused eq_refl eq_refl).
  simpl fst. simpl snd. unfold put_file. simpl files.
  split; [reflexivity|]. split; [reflexivity|]. split; [reflexivity|].
  intros [(data & cm & _ & _ & H)|H].
  - cbv zeta in H. destruct H as [_ H]. discriminate H.
  - discriminate H.
Qed.

(** The runs of the Splitter on a system that refuses no file. *)

Lemma firstn_incl {A} (n : nat) (l : list A) : incl (firstn n l) l.
Proof.
  revert l; induction n as [|n IH]; intros [|x l]; simpl; intros y Hy; try contradiction.
  destruct Hy as [<-|Hy]; [now left | right; now apply IH].
Qed.

Lemma skipn_incl {A} (n : nat) (l : list A) : incl (skipn n l) l.
Proof.
  revert l; induction n as [|n IH]; intros [|x l]; simpl; try apply incl_refl.
  apply incl_tl, IH.
Qed.

Lemma slice_incl {A} (l : list A) (a b : Z) : incl (slice l a b) l.
Proof.
  unfold slice. intros x Hx. apply firstn_incl in Hx. now apply skipn_incl in Hx.
Qed.

Lemma write_docs_ok (cm : CollectionMetadata) (docs : list Document) (w : world Splitter.Json) :
  read_only w = [] -> forallb has_id docs = true ->
  exists w', for_each docs (Splitter.write_doc cm) w = (w', Ok tt) /\ read_only w' = [].
Proof.
  revert w; induction docs as [|doc docs IH]; intros w Hw Hids; simpl.
  - now exists w.
  - simpl in Hids. apply andb_true_iff in Hids as [Hid Hids].
    unfold has_id in Hid. unfold bind, Splitter.write_doc.
    destruct (id doc) as [doc_id|]; [|discriminate].
    rewrite json_dump_ok by now rewrite Hw.
    apply IH; [exact Hw | exact Hids].
Qed.

Lemma write_docs_fail (cm : CollectionMetadata) (docs : list Document) (w : world Splitter.Json) :
  read_only w = [] -> forallb has_id docs = false ->
  exists w', for_each docs (Splitter.write_doc cm) w
             = (w', Raise (AttributeError (str "replace"))).
Proof.
  revert w; induction docs as [|doc docs IH]; intros w Hw Hids; simpl; [discriminate|].
  simpl in Hids. unfold has_id in Hids. unfold bind, Splitter.write_doc.
  destruct (id doc) as [doc_id|].
  - rewrite json_dump_ok by now rewrite Hw.
    apply IH; [exact Hw | exact Hids].
  - now exists w.
Qed.

Lemma chunk_rounds_ok (cm : CollectionMetadata) (documents : list Document) (d total : Z)
    (ks : list Z) (m : Splitter.MasterIndex) (w : world Splitter.Json) :
  read_only w = [] ->
  forallb (fun k => forallb has_id (Splitter.chunk_docs documents d k)) ks = true ->
  exists w',
    for_fold ks (Splitter.chunk_round cm documents d total) m w
    = (w', Ok (fold_left (Splitter.master_round documents d) ks m))
    /\ read_only w' = [].
Proof.
  revert m w; induction ks as [|k ks IH]; intros m w Hw Hids; simpl.
  - now exists w.
  - simpl in Hids. apply andb_true_iff in Hids as [Hk Hids].
    unfold bind at 1. unfold Splitter.chunk_round at 1. unfold bind, Splitter.write_chunk.
    rewrite json_dump_ok by now rewrite Hw.
    edestruct (@write_docs_ok cm (Splitter.chunk_docs documents d k)) as (w1 & E1 & Hw1);
      [| exact Hk | rewrite E1]; [exact Hw|].
    unfold ret. now apply IH.
Qed.

Lemma chunk_rounds_fail (cm : CollectionMetadata) (documents : list Document) (d total : Z)
    (ks : list Z) (m : Splitter.MasterIndex) (w : world Splitter.Json) :
  read_only w = [] ->
  forallb (fun k => forallb has_id (Splitter.chunk_docs documents d k)) ks = false ->
  exists w',
    for_fold ks (Splitter.chunk_round cm documents d total) m w
    = (w', Raise (AttributeError (str "replace"))).
Proof.
  revert m w; induction ks as [|k ks IH]; intros m w Hw Hids; simpl; [discriminate|].
  simpl in Hids.
  unfold bind at 1. unfold Splitter.chunk_round at 1. unfold bind, Splitter.write_chunk.
  rewrite json_dump_ok by now rewrite Hw.
  destruct (forallb has_id (Splitter.chunk_docs documents d k)) eqn:Hk.
  - edestruct (@write_docs_ok cm (Splitter.chunk_docs documents d k)) as (w1 & E1 & Hw1);
      [| exact Hk | rewrite E1]; [exact Hw|].
    unfold ret. now apply IH.
  - edestruct (@write_docs_fail cm (Splitter.chunk_docs documents d k)) as (w1 & E1);
      [| exact Hk | rewrite E1]; [exact Hw|].
    now exists w1.
Qed.

(** X11: with an id on every document the Splitter ends normally and the master
    index it writes is [master_index]. *)
Lemma splitter_completes (data : Data) (d : Z) (w0 : world Splitter.Json) :
  d <> 0 -> read_only w0 = [] ->
  forallb has_id (get_or [] (documents data)) = true ->
  exists w',
    Splitter.split_maamarim_file (Some data) d w0 = (w', Ok tt)
    /\ sget master_index_file (files w') =
       Some (JsonFile (Splitter.JMaster
               (Splitter.master_index
                  (get_or no_collection_metadata (collection_metadata data))
                  (get_or [] (documents data)) d))).
Proof.
  intros Hd Hw Hids.
  unfold Splitter.split_maamarim_file, bind, load, ret, makedirs.
  rewrite Hw. cbn [str_in existsb read_only].
  apply Z.eqb_neq in Hd. rewrite Hd. unfold ret.
  match goal with |- context [for_fold _ _ _ ?w] => set (w1 := w) end.
  edestruct (@chunk_rounds_ok
               (get_or no_collection_metadata (collection_metadata data))
               (get_or [] (documents data)) d
               (Splitter.num_chunks (get_or [] (documents data)) d)
               (range (Splitter.num_chunks (get_or [] (documents data)) d))
               (Splitter.empty_master (get_or no_collection_metadata (collection_metadata data)))
               w1) as (w2 & E2 & Hw2).
  - reflexivity.
  - apply forallb_forall. intros k _. apply forallb_forall. intros doc Hdoc.
    rewrite forallb_forall in Hids. apply Hids.
    unfold Splitter.chunk_docs in Hdoc. now apply slice_incl in Hdoc.
  - rewrite E2. rewrite json_dump_ok by now rewrite Hw2.
    eexists. split; [reflexivity|].
    unfold put_file. simpl files. fold master_index_file.
    now rewrite sget_sset, str_eqb_refl.
Qed.

(** X12: with a positive chunk size and a document that has no id the Splitter
    stops on the [replace] of line 152. *)
Lemma splitter_missing_id (data : Data) (d : Z) (w0 : world Splitter.Json) :
  0 < d -> read_only w0 = [] ->
  forallb has_id (get_or [] (documents data)) = false ->
  exists w',
    Splitter.split_maamarim_file (Some data) d w0
    = (w', Raise (AttributeError (str "replace"))).
Proof.
  intros Hd Hw Hids.
  unfold Splitter.split_maamarim_file, bind, load, ret, makedirs.
  rewrite Hw. cbn [str_in existsb read_only].
  assert (Hd0 : (d =? 0) = false) by (apply Z.eqb_neq; lia). rewrite Hd0. unfold ret.
  match goal with |- context [for_fold _ _ _ ?w] => set (w1 := w) end.
  edestruct (@chunk_rounds_fail
               (get_or no_collection_metadata (collection_metadata data))
               (get_or [] (documents data)) d
               (Splitter.num_chunks (get_or [] (documents data)) d)
               (range (Splitter.num_chunks (get_or [] (documents data)) d))
               (Splitter.empty_master (get_or no_collection_metadata (collection_metadata data)))
               w1) as (w2 & E2).
  - reflexivity.
  - destruct (forallb _ (range _)) eqn:E; [|reflexivity].
    rewrite <- Hids. symmetry. apply forallb_forall. intros doc Hdoc.
    destruct (@In_chunks (get_or [] (documents data)) d doc Hd Hdoc) as (c & Hc & Hin).
    rewrite forallb_forall in E. specialize (E c Hc).
    rewrite forallb_forall in E. now apply E.
  - rewrite E2. now exists w2.
Qed.

(** C5: a document without an id is fatal to the Splitter.  On a corpus of
    one such document and chunks of 10 it writes the chunk file and stops
    with an AttributeError, no document file and no master index written;
    the Indexer, on the same corpus, ends normally with the id defaulted. *)
Theorem C5_splitter_missing_id :
  snd (Splitter.split_maamarim_file (Some corpus_without_id) 10 empty_world)
  = Raise (AttributeError (str "replace"))
  /\ Dict.keys (files (fst (Splitter.split_maamarim_file (Some corpus_without_id) 10 empty_world)))
     = [Splitter.chunk_file_name 0]
  /\ snd (Indexer.create_search_indexes (Some corpus_without_id) empty_world) = Ok tt
  /\ map Indexer.s_id
         (Indexer.document_summary (Indexer.build (get_or [] (documents corpus_without_id))))
     = [str "unknown"].
Proof. vm_compute. repeat split; reflexivity. Qed.

(** * Further properties of the two scripts *)

(** ** Keys of the indexes *)

Lemma first_occurrences_from_In (seen l : list pystr) (x : pystr) :
  In x (first_occurrences_from seen l) <-> In x l /\ ~ In x seen.
Proof.
  revert seen; induction l as [|y l IH]; intros seen; simpl; [tauto|].
  destruct (str_in y seen) eqn:E.
  - apply str_in_In in E. rewrite IH. split.
    + intros [H1 H2]. tauto.
    + intros [[<-|H1] H2]; [contradiction | tauto].
  - assert (Hy : ~ In y seen) by (intros H; apply str_in_In in H; congruence).
    simpl. rewrite IH. rewrite in_app_iff. simpl. split.
    + intros [<-|[H1 H2]]; [tauto|]. split; [tauto|]. intros H. apply H2. now left.
    + intros [[<-|H1] H2]; [now left|].
      destruct (list_eq_dec ascii_dec y x) as [->|Hn]; [now left|].
      right. split; [assumption|]. intros [H|[H|[]]]; [contradiction | congruence].
Qed.

(** A value is a key of a [defaultdict(list)] built from nothing exactly when
    something was appended under it. *)
Lemma smem_register {X} (regs : list (pystr * X)) (k : pystr) :
  smem k (fold_left register regs []) = str_in k (map fst regs).
Proof.
  rewrite smem_str_in, keys_register. simpl.
  destruct (str_in k (map fst regs)) eqn:E.
  - apply str_in_In. apply first_occurrences_from_In. apply str_in_In in E. tauto.
  - destruct (str_in k (first_occurrences_from [] (map fst regs))) eqn:E'; [|reflexivity].
    apply str_in_In, first_occurrences_from_In in E' as [E' _].
    apply str_in_In in E'. congruence.
Qed.

Lemma str_in_filter (p : pystr -> bool) (k : pystr) (l : list pystr) :
  str_in k (filter p l) = p k && str_in k l.
Proof.
  destruct (str_in k (filter p l)) eqn:E.
  - apply str_in_In, filter_In in E as [E1 E2]. apply str_in_In in E1. now rewrite E1, E2.
  - destruct (p k) eqn:Ep, (str_in k l) eqn:El; try reflexivity.
    apply str_in_In in El. assert (H : In k (filter p l)) by (apply filter_In; tauto).
    apply str_in_In in H. congruence.
Qed.

(** A value is a key of a facet of the master index exactly when a document
    of the corpus brings it, for a positive chunk size. *)
Lemma smem_facet_map (f : Facet) (cm : CollectionMetadata) (documents : list Document)
    (d : Z) (value : pystr) :
  0 < d ->
  smem value (facet_map f (Splitter.master_index cm documents d)) =
  str_in value (flat_map (facet_values f) documents).
Proof.
  intros Hd. destruct (str_in value (flat_map (facet_values f) documents)) eqn:E.
  - apply str_in_In, in_flat_map in E as (doc & Hdoc & Hv).
    now apply facet_value_kept with (doc := doc).
  - rewrite smem_sget, facet_map_master_index.
    destruct (chunks_with_spec f documents d value) as [|c l] eqn:Ec; [reflexivity|].
    assert (Hc : In c (chunks_with_spec f documents d value)) by (rewrite Ec; now left).
    unfold chunks_with_spec in Hc. apply in_map_iff in Hc as (k & _ & Hk).
    apply filter_In in Hk as [_ Hk]. unfold chunk_has in Hk.
    apply str_in_In, in_flat_map in Hk as (doc & Hdoc & Hv).
    apply slice_incl in Hdoc.
    assert (H : In value (flat_map (facet_values f) documents))
      by (apply in_flat_map; now exists doc).
    apply str_in_In in H. congruence.
Qed.

Lemma index_references_register (doc : Document) (idx : sdict (list pystr)) :
  Indexer.index_references doc idx = fold_left register (reference_registrations doc) idx.
Proof.
  unfold Indexer.index_references, reference_registrations, all_refs_of.
  generalize (get_or [] (biblical_references (doc_metadata doc))
              ++ get_or [] (talmudic_references (doc_metadata doc))
              ++ get_or [] (chassidic_references (doc_metadata doc))). intros l.
  revert idx; induction l as [|r l IH]; intros idx; [reflexivity|].
  cbn [fold_left filter]. rewrite IH. unfold nonblank.
  destruct (truthy (strip r)); reflexivity.
Qed.

Lemma index_dates_register (doc : Document) (idx : sdict (list pystr)) :
  Indexer.index_dates doc idx = fold_left register (date_registrations doc) idx.
Proof.
  unfold Indexer.index_dates, date_registrations. simpl.
  destruct (truthy (get_or [] (hebrew_date (doc_metadata doc)))),
           (truthy (get_or [] (gregorian_date (doc_metadata doc)))); reflexivity.
Qed.

Lemma nonblank_truthy (s : pystr) : truthy s && nonblank s = nonblank s.
Proof. destruct s; reflexivity. Qed.

Lemma index_opening_register (doc : Document) (idx : sdict (list Indexer.OpeningRef)) :
  Indexer.index_opening doc idx = fold_left register (opening_registrations doc) idx.
Proof.
  unfold Indexer.index_opening, opening_registrations. simpl.
  rewrite nonblank_truthy. unfold nonblank.
  destruct (truthy (strip (get_or [] (opening_phrase (doc_metadata doc))))); reflexivity.
Qed.

Lemma index_glossary_register (doc : Document) (idx : sdict (list Indexer.GlossaryRef)) :
  Indexer.index_glossary doc idx = fold_left register (glossary_registrations doc) idx.
Proof.
  unfold Indexer.index_glossary, glossary_registrations, parse_glossary.
  rewrite fold_left_omap, fold_left_flat_map.
  apply fold_left_ext. intros acc x. apply index_entry_register.
Qed.

Lemma reference_index_fold (documents : list Document) (st : Indexer.State) :
  Indexer.reference_index (fold_left Indexer.index_document documents st) =
  fold_left register (flat_map reference_registrations documents) (Indexer.reference_index st).
Proof.
  revert st; induction documents as [|doc documents IH]; intros st; simpl; [reflexivity|].
  now rewrite IH, fold_left_app, <- index_references_register.
Qed.

Lemma date_index_fold (documents : list Document) (st : Indexer.State) :
  Indexer.date_index (fold_left Indexer.index_document documents st) =
  fold_left register (flat_map date_registrations documents) (Indexer.date_index st).
Proof.
  revert st; induction documents as [|doc documents IH]; intros st; simpl; [reflexivity|].
  now rewrite IH, fold_left_app, <- index_dates_register.
Qed.

Lemma opening_index_fold (documents : list Document) (st : Indexer.State) :
  Indexer.opening_phrase_index (fold_left Indexer.index_document documents st) =
  fold_left register (flat_map opening_registrations documents)
            (Indexer.opening_phrase_index st).
Proof.
  revert st; induction documents as [|doc documents IH]; intros st; simpl; [reflexivity|].
  now rewrite IH, fold_left_app, <- index_opening_register.
Qed.

Lemma glossary_index_fold (documents : list Document) (st : Indexer.State) :
  Indexer.glossary_index (fold_left Indexer.index_document documents st) =
  fold_left register (flat_map glossary_registrations documents) (Indexer.glossary_index st).
Proof.
  revert st; induction documents as [|doc documents IH]; intros st; simpl; [reflexivity|].
  now rewrite IH, fold_left_app, <- index_glossary_register.
Qed.

Lemma registrations_keys {X} (f : Document -> list pystr) (g : Document -> pystr -> X)
    (documents : list Document) :
  map fst (flat_map (fun doc => map (fun v => (v, g doc v)) (f doc)) documents)
  = flat_map f documents.
Proof.
  rewrite map_flat_map. apply flat_map_ext. intros doc.
  rewrite map_map. simpl. apply map_id.
Qed.

Lemma filed_under_map {X} (k : pystr) (x : X) (l : list pystr) :
  filed_under k (map (fun v => (v, x)) l) = map (fun _ => x) (filter (str_eqb k) l).
Proof.
  unfold filed_under. induction l as [|v l IH]; simpl; [reflexivity|].
  destruct (str_eqb k v); simpl; now rewrite IH.
Qed.

Lemma filed_under_flat_map {A X} (k : pystr) (f : A -> list (pystr * X)) (l : list A) :
  filed_under k (flat_map f l) = flat_map (fun a => filed_under k (f a)) l.
Proof.
  unfold filed_under. now rewrite filter_flat_map, map_flat_map.
Qed.

(** X1: the reference index: under a reference, the id of a document once for
    every time the document lists the reference in its biblical, talmudic
    and chassidic lists taken together, documents in the order of the input;
    a blank reference is never a key. *)
Theorem reference_index_lists (documents : list Document) (ref : pystr) :
  sget ref (Indexer.reference_index (Indexer.build documents)) =
  appended None
    (flat_map (fun doc => map (fun _ => Indexer.doc_id_of doc)
                              (filter (str_eqb ref) (filter nonblank (all_refs_of doc))))
              documents)
  /\ len (get_or [] (sget ref (Indexer.reference_index (Indexer.build documents))))
     = occurrences ref (filter nonblank (flat_map all_refs_of documents))
  /\ smem ref (Indexer.reference_index (Indexer.build documents))
     = nonblank ref && str_in ref (flat_map all_refs_of documents).
Proof.
  unfold Indexer.build. rewrite reference_index_fold. simpl Indexer.reference_index.
  split; [|split].
  - rewrite sget_register, filed_under_flat_map. simpl sget. f_equal.
    apply flat_map_ext. intros doc. apply filed_under_map.
  - rewrite sget_register. simpl sget.
    rewrite get_or_appended_nil, filed_under_length. unfold reference_registrations.
    now rewrite (registrations_keys (fun doc => filter nonblank (all_refs_of doc))
                   (fun doc _ => Indexer.doc_id_of doc)), <- filter_flat_map.
  - rewrite smem_register. unfold reference_registrations.
    rewrite (registrations_keys (fun doc => filter nonblank (all_refs_of doc))
               (fun doc _ => Indexer.doc_id_of doc)), <- filter_flat_map.
    apply str_in_filter.
Qed.

(** Rewrites the membership test of a key in a facet of the master index. *)
Ltac splitter_keys f cm documents d value Hd :=
  let H := fresh "Hkeys" in
  pose proof (@smem_facet_map f cm documents d value Hd) as H;
  cbn [facet_map] in H; rewrite H; clear H.

(** X2: the keys of the date index and of the opening-phrase index are the keys
    the Splitter has for the same facet, whatever the positive chunk size:
    a date is kept when it is not empty, blank or not, and an opening phrase
    when it is not blank, by both scripts. *)
Theorem date_and_opening_keys_agree (cm : CollectionMetadata) (documents : list Document)
    (docs_per_chunk : Z) (value : pystr) :
  0 < docs_per_chunk ->
  smem value (Indexer.date_index (Indexer.build documents)) =
  smem value (Splitter.date_to_chunks (Splitter.master_index cm documents docs_per_chunk))
  /\ smem value (Indexer.opening_phrase_index (Indexer.build documents)) =
     smem value (Splitter.opening_phrase_to_chunks
                   (Splitter.master_index cm documents docs_per_chunk)).
Proof.
  intros Hd. unfold Indexer.build. rewrite date_index_fold, opening_index_fold.
  simpl Indexer.date_index. simpl Indexer.opening_phrase_index.
  rewrite !smem_register. split.
  - splitter_keys DateFacet cm documents docs_per_chunk value Hd.
    unfold date_registrations.
    now rewrite (registrations_keys (facet_values DateFacet)
                   (fun doc _ => Indexer.doc_id_of doc)).
  - splitter_keys OpeningPhraseFacet cm documents docs_per_chunk value Hd.
    unfold opening_registrations.
    now rewrite (registrations_keys (facet_values OpeningPhraseFacet)
                   (fun doc _ => {| Indexer.o_doc_id := Indexer.doc_id_of doc;
                                    Indexer.o_hebrew_date :=
                                      get_or [] (hebrew_date (doc_metadata doc));
                                    Indexer.o_topics := get_or [] (topics (doc_metadata doc)) |})).
Qed.

Lemma date_and_opening_keys_agree_witness :
  0 < 10 /\
  smem (str " ") (Indexer.date_index (Indexer.build blank_facets)) =
  smem (str " ") (Splitter.date_to_chunks
                    (Splitter.master_index no_collection_metadata blank_facets 10)).
Proof.
  split; [lia|].
  exact (proj1 (@date_and_opening_keys_agree no_collection_metadata blank_facets 10
                  (str " ") eq_refl)).
Defined.

(** X3: the topics and the concepts the Indexer has as keys are the non-blank
    ones among those the Splitter has as keys. *)
Theorem indexer_keys_are_nonblank_splitter_keys (cm : CollectionMetadata)
    (documents : list Document) (docs_per_chunk : Z) (value : pystr) :
  0 < docs_per_chunk ->
  smem value (Indexer.topic_index (Indexer.build documents)) =
  nonblank value
  && smem value (Splitter.topic_to_chunks (Splitter.master_index cm documents docs_per_chunk))
  /\ smem value (Indexer.concept_index (Indexer.build documents)) =
     nonblank value
     && smem value (Splitter.concept_to_chunks
                      (Splitter.master_index cm documents docs_per_chunk)).
Proof.
  intros Hd. rewrite topic_index_build, concept_index_build, !smem_register.
  rewrite topic_registrations_keys, concept_registrations_keys, !str_in_filter.
  splitter_keys TopicFacet cm documents docs_per_chunk value Hd.
  splitter_keys ConceptFacet cm documents docs_per_chunk value Hd.
  split; reflexivity.
Qed.

Lemma indexer_keys_are_nonblank_splitter_keys_witness :
  0 < 10 /\
  smem (str "Teshuvah") (Indexer.topic_index (Indexer.build three_in_one_chunk)) =
  nonblank (str "Teshuvah")
  && smem (str "Teshuvah")
          (Splitter.topic_to_chunks
             (Splitter.master_index no_collection_metadata three_in_one_chunk 10)).
Proof.
  split; [lia|].
  exact (proj1 (@indexer_keys_are_nonblank_splitter_keys no_collection_metadata
                  three_in_one_chunk 10 (str "Teshuvah") eq_refl)).
Defined.

(** X4: every glossary key of the master index, a Hebrew term or a
    transliteration, is a key of the Indexer's glossary index, which has the
    English keywords besides. *)
Theorem splitter_glossary_keys_in_indexer (cm : CollectionMetadata)
    (documents : list Document) (docs_per_chunk : Z) (term : pystr) :
  0 < docs_per_chunk ->
  smem term (Splitter.glossary_term_to_chunks
               (Splitter.master_index cm documents docs_per_chunk)) = true ->
  smem term (Indexer.glossary_index (Indexer.build documents)) = true.
Proof.
  intros Hd H.
  pose proof (@smem_facet_map GlossaryTermFacet cm documents docs_per_chunk term Hd) as Hk.
  cbn [facet_map] in Hk. rewrite Hk in H. clear Hk.
  apply str_in_In, in_flat_map in H as (doc & Hdoc & Hv).
  unfold Indexer.build. rewrite glossary_index_fold. simpl Indexer.glossary_index.
  rewrite smem_register. apply str_in_In. rewrite map_flat_map.
  apply in_flat_map. exists doc. split; [assumption|].
  unfold glossary_registrations. rewrite map_flat_map. simpl in Hv.
  apply in_flat_map in Hv as (e & He & Hterm). apply in_flat_map. exists e.
  split; [assumption|]. unfold glossary_registrations_spec. rewrite !map_app, !in_app_iff.
  simpl in Hterm.
  destruct (truthy (hebrew_term e)) eqn:E1, (truthy (transliteration e)) eqn:E2;
    simpl in *; intuition.
Qed.

Lemma splitter_glossary_keys_in_indexer_witness :
  0 < 10 /\
  smem (str "Alef") (Splitter.glossary_term_to_chunks
                       (Splitter.master_index no_collection_metadata [glossary_doc] 10)) = true
  /\ smem (str "Alef") (Indexer.glossary_index (Indexer.build [glossary_doc])) = true.
Proof.
  split; [lia|]. split; [reflexivity|].
  exact (@splitter_glossary_keys_in_indexer no_collection_metadata [glossary_doc] 10
           (str "Alef") eq_refl eq_refl).
Defined.

(** ** The report *)

(** X5: the ranking of the concepts: the entries of the concept index by the
    number of records under each concept, larger first, equal counts in the
    order the concepts were first met; 15 lines at most. *)
Theorem top_concepts_ranking (documents : list Document) :
  let st := Indexer.build documents in
  let ranked := Indexer.sorted_concepts st in
  Permutation ranked (Dict.items (Indexer.concept_index st))
  /\ StronglySorted (fun a b => ref_count b <= ref_count a) ranked
  /\ (forall n : Z,
        filter (fun x => ref_count x =? n) ranked =
        filter (fun x => ref_count x =? n) (Dict.items (Indexer.concept_index st)))
  /\ Dict.keys (Indexer.concept_index st) =
     first_occurrences (filter nonblank (flat_map concepts_of documents))
  /\ (forall c : pystr,
        len (get_or [] (sget c (Indexer.concept_index st))) =
        occurrences c (filter nonblank (flat_map concepts_of documents)))
  /\ (length (Indexer.top_concepts st) <= 15)%nat.
Proof.
  cbv zeta. unfold Indexer.sorted_concepts.
  split; [apply sorted_reverse_perm|].
  split; [apply (sorted_reverse_sorted (fun x : pystr * list Indexer.ConceptRef => len (snd x)))|].
  split; [intros n; apply (sorted_reverse_stable (fun x : pystr * list Indexer.ConceptRef => len (snd x)))|].
  split.
  { rewrite concept_index_build, keys_register, concept_registrations_keys. reflexivity. }
  split.
  { intros c. rewrite concept_index_build, sget_register. simpl sget.
    now rewrite get_or_appended_nil, filed_under_length, concept_registrations_keys. }
  unfold Indexer.top_concepts. rewrite length_map, (slice_firstn _ 15). apply firstn_le_length.
Qed.

(** X6: the opening line of a document's block: the phrase as it is when it has
    at most 50 characters, its first 50 characters and three dots when it is
    longer, N/A when it is empty; what is shown never exceeds 53 characters. *)
Theorem opening_line_truncated (doc : Indexer.Summary) :
  exists display : pystr,
    nth 2 (Indexer.doc_block doc) [] = str "Opening: " ++ display ++ nl
    /\ len display <= 53
    /\ (Indexer.s_opening_phrase doc = [] -> display = str "N/A")
    /\ (0 < len (Indexer.s_opening_phrase doc) <= 50 -> display = Indexer.s_opening_phrase doc)
    /\ (50 < len (Indexer.s_opening_phrase doc) ->
        display = firstn 50 (Indexer.s_opening_phrase doc) ++ str "..."
        /\ len display = 53).
Proof.
  unfold Indexer.doc_block. cbn [nth].
  set (opening := Indexer.s_opening_phrase doc).
  destruct opening as [|c opening'] eqn:E.
  - exists (str "N/A"). simpl truthy. cbv iota.
    split; [reflexivity|]. split; [vm_compute; discriminate|].
    split; [reflexivity|]. unfold len. simpl. split; intros; lia.
  - rewrite <- E. assert (Ht : truthy opening = true) by now rewrite E.
    rewrite Ht. destruct (50 <? len opening) eqn:L.
    + apply Z.ltb_lt in L. exists (firstn 50 opening ++ str "...").
      replace (slice opening 0 50) with (firstn 50 opening)
        by (symmetry; apply (slice_firstn opening 50)).
      assert (Hl : len (firstn 50 opening ++ str "...") = 53).
      { unfold len in *. rewrite length_app, length_firstn. simpl length. lia. }
      split; [reflexivity|]. split; [lia|].
      split; [intros H; rewrite H in E; discriminate|].
      split; [intros; lia | now intros _].
    + apply Z.ltb_ge in L. exists opening.
      split; [reflexivity|]. split; [lia|].
      split; [intros H; rewrite H in E; discriminate|].
      split; [reflexivity | intros; lia].
Qed.

Lemma opening_line_truncated_witness :
  50 < len (Indexer.s_opening_phrase long_opening)
  /\ nth 2 (Indexer.doc_block long_opening) []
     = str "Opening: " ++ repeat "x"%char 50 ++ str "..." ++ nl.
Proof.
  split; [reflexivity|].
  destruct (opening_line_truncated long_opening) as (display & Hline & _ & _ & _ & Hlong).
  destruct (Hlong eq_refl) as [Hd _]. rewrite Hline, Hd. reflexivity.
Defined.

Lemma indexer_without_collection_metadata_witness :
  collection_metadata corpus_without_metadata = None
  /\ snd (Indexer.create_search_indexes (Some corpus_without_metadata) empty_world)
     = Raise (KeyError (str "collection_metadata")).
Proof.
  split; [reflexivity|].
  rewrite (@indexer_without_collection_metadata corpus_without_metadata empty_world
             eq_refl eq_refl eq_refl).
  reflexivity.
Defined.

Lemma sset_same {V} (k : pystr) (v : V) (d : sdict V) :
  sget k d = Some v -> sset k v d = d.
Proof.
  induction d as [|[k' v'] d IH]; simpl; [discriminate|].
  destruct (str_eqb k k') eqn:E.
  - intros H. now injection H as ->.
  - intros H. now rewrite IH.
Qed.

(** X8: running the Indexer again on its own output changes nothing: the two
    files are overwritten with the same contents. *)
Theorem indexer_rerun (data : Data) (cm : CollectionMetadata) (w0 : world Indexer.Indexes) :
  collection_metadata data = Some cm ->
  str_in Indexer.index_file (read_only w0) = false ->
  str_in Indexer.quick_ref_file (read_only w0) = false ->
  let w1 := fst (Indexer.create_search_indexes (Some data) w0) in
  Indexer.create_search_indexes (Some data) w1 = (w1, Ok tt).
Proof.
  intros Hcm H1 H2. cbv zeta.
  rewrite (indexer_completes data w0 Hcm H1 H2). simpl fst.
  rewrite (indexer_completes data _ Hcm) by (simpl; assumption).
  f_equal. unfold put_file. simpl. f_equal.
  rewrite (@sset_same _ Indexer.index_file).
  - now rewrite sset_sset.
  - rewrite !sget_sset. reflexivity.
Qed.

Lemma indexer_rerun_witness :
  collection_metadata small_corpus = Some {| date_range := Some (str "5711-5712") |}
  /\ Indexer.create_search_indexes (Some small_corpus)
       (fst (Indexer.create_search_indexes (Some small_corpus) empty_world))
     = (fst (Indexer.create_search_indexes (Some small_corpus) empty_world), Ok tt).
Proof.
  split; [reflexivity|].
  exact (@indexer_rerun small_corpus {| date_range := Some (str "5711-5712") |} empty_world
           eq_refl eq_refl eq_refl).
Defined.

(** ** The Splitter at its edges *)

(** X9: a chunk size of zero, on a system that lets the two directories be
    made: the directories are made, line 44 divides by zero, and no file has
    been written; when a directory cannot be made the run stops there, with
    no file written either. *)
Theorem splitter_zero_chunk_size (data : Data) (w0 : world Splitter.Json) :
  (str_in (str "maamarim_chunks") (read_only w0) = false ->
   str_in (str "maamarim_docs") (read_only w0) = false ->
   let r := Splitter.split_maamarim_file (Some data) 0 w0 in
   snd r = Raise ZeroDivisionError
   /\ files (fst r) = files w0
   /\ In (str "maamarim_chunks") (dirs (fst r))
   /\ In (str "maamarim_docs") (dirs (fst r)))
  /\ (forall docs_per_chunk : Z,
        str_in (str "maamarim_chunks") (read_only w0) = true ->
        Splitter.split_maamarim_file (Some data) docs_per_chunk w0
        = (w0, Raise (OSError (str "maamarim_chunks"))))
  /\ (forall docs_per_chunk : Z,
        str_in (str "maamarim_chunks") (read_only w0) = false ->
        str_in (str "maamarim_docs") (read_only w0) = true ->
        snd (Splitter.split_maamarim_file (Some data) docs_per_chunk w0)
        = Raise (OSError (str "maamarim_docs"))
        /\ files (fst (Splitter.split_maamarim_file (Some data) docs_per_chunk w0))
           = files w0).
Proof.
  split; [|split].
  - intros H1 H2. cbv zeta.
    unfold Splitter.split_maamarim_file, bind, load, ret, makedirs, raise.
    rewrite H1. cbn [read_only]. rewrite H2. cbn [Z.eqb fst snd files dirs].
    split; [reflexivity|]. split; [reflexivity|].
    assert (Hin : forall (p : pystr) l, In p (if str_in p l then l else l ++ [p])).
    { intros p l. destruct (str_in p l) eqn:E; [now apply str_in_In|].
      apply in_or_app. right. now left. }
    assert (Hkeep : forall (p q : pystr) l,
               In p l -> In p (if str_in q l then l else l ++ [q])).
    { intros p q l H. destruct (str_in q l); [assumption | apply in_or_app; now left]. }
    split; [apply Hkeep, Hin | apply Hin].
  - intros d H1. unfold Splitter.split_maamarim_file, bind, load, ret, makedirs.
    now rewrite H1.
  - intros d H1 H2. unfold Splitter.split_maamarim_file, bind, load, ret, makedirs.
    rewrite H1. cbn [read_only]. rewrite H2. split; reflexivity.
Qed.

Lemma splitter_zero_chunk_size_witness :
  str_in (str "maamarim_chunks") (read_only (@empty_world Splitter.Json)) = false
  /\ str_in (str "maamarim_docs") (read_only (@empty_world Splitter.Json)) = false
  /\ snd (Splitter.split_maamarim_file (Some small_corpus) 0 empty_world)
     = Raise ZeroDivisionError
  /\ files (fst (Splitter.split_maamarim_file (Some small_corpus) 0 empty_world)) = [].
Proof.
  split; [reflexivity|]. split; [reflexivity|].
  destruct (proj1 (splitter_zero_chunk_size small_corpus empty_world) eq_refl eq_refl)
    as (Hr & Hf & _).
  split; [exact Hr | exact Hf].
Defined.

Lemma num_chunks_negative (documents : list Document) (d : Z) :
  d < 0 -> 2 <= len documents -> Splitter.num_chunks documents d <= 0.
Proof.
  intros Hd Hn. unfold Splitter.num_chunks.
  pose proof (Z.div_mod (len documents + d - 1) d ltac:(lia)) as E.
  pose proof (Z.mod_neg_bound (len documents + d - 1) d Hd) as B.
  nia.
Qed.

Lemma doc_ids_docs (c : Z) (docs : list Document) (m : Splitter.MasterIndex) :
  Splitter.doc_id_to_chunk (fold_left (Splitter.map_doc c) docs m) =
  fold_left (fun t doc => Dict.set Splitter.id_eqb (id doc) c t) docs
            (Splitter.doc_id_to_chunk m).
Proof.
  revert m; induction docs as [|doc docs IH]; intros m; simpl; [reflexivity|]. now rewrite IH.
Qed.

Lemma doc_ids_round (documents : list Document) (d : Z) (m : Splitter.MasterIndex) (k : Z) :
  Splitter.doc_id_to_chunk (Splitter.master_round documents d m k) =
  fold_left (fun t doc => Dict.set Splitter.id_eqb (id doc) (k + 1) t)
            (Splitter.chunk_docs documents d k) (Splitter.doc_id_to_chunk m).
Proof. unfold Splitter.master_round. now rewrite doc_ids_docs. Qed.

Lemma doc_ids_empty_rounds (documents : list Document) (d : Z) (ks : list Z)
    (m : Splitter.MasterIndex) :
  (forall k, In k ks -> Splitter.chunk_docs documents d k = []) ->
  Splitter.doc_id_to_chunk (fold_left (Splitter.master_round documents d) ks m)
  = Splitter.doc_id_to_chunk m.
Proof.
  revert m; induction ks as [|k ks IH]; intros m H; simpl; [reflexivity|].
  rewrite IH by (intros k' Hk'; apply H; now right).
  rewrite doc_ids_round, H by now left. reflexivity.
Qed.

(** X10: a negative chunk size: the loop makes no chunk when there are two
    documents or more, and only empty chunks otherwise; no document reaches a
    chunk, and the master index names no document. *)
Theorem splitter_negative_chunk_size (cm : CollectionMetadata) (documents : list Document)
    (docs_per_chunk : Z) :
  docs_per_chunk < 0 ->
  Forall (fun chunk => chunk = []) (Splitter.chunks documents docs_per_chunk)
  /\ (2 <= len documents -> Splitter.chunks documents docs_per_chunk = [])
  /\ Splitter.doc_id_to_chunk (Splitter.master_index cm documents docs_per_chunk) = [].
Proof.
  intros Hd.
  assert (Hempty : forall k, In k (range (Splitter.num_chunks documents docs_per_chunk)) ->
                             Splitter.chunk_docs documents docs_per_chunk k = []).
  { intros k Hk. apply In_range in Hk.
    assert (Hn : len documents <= 1).
    { destruct (Z.le_gt_cases 2 (len documents)) as [H|H]; [|lia].
      pose proof (num_chunks_negative documents Hd H). lia. }
    assert (H0 : 0 <= len documents) by (unfold len; lia).
    unfold Splitter.chunk_docs, slice.
    set (b := Z.min (k * docs_per_chunk + docs_per_chunk) (len documents)).
    assert (Hb : clamp (len documents) b = 0).
    { unfold clamp. assert (b < 0) by (unfold b; nia).
      destruct (b <? 0) eqn:E; [|apply Z.ltb_ge in E; lia].
      assert (b + len documents <= 0) by (unfold b; nia). lia. }
    assert (Ha : 0 <= clamp (len documents) (k * docs_per_chunk)) by (unfold clamp; lia).
    rewrite Hb. replace (Z.to_nat _) with 0%nat by lia. reflexivity. }
  split; [|split].
  - apply Forall_forall. intros chunk Hc. unfold Splitter.chunks in Hc.
    apply in_map_iff in Hc as (k & <- & Hk). now apply Hempty.
  - intros Hn. unfold Splitter.chunks, range.
    pose proof (num_chunks_negative documents Hd Hn).
    replace (Z.to_nat _) with 0%nat by lia. reflexivity.
  - unfold Splitter.master_index. now rewrite doc_ids_empty_rounds.
Qed.

Lemma splitter_negative_chunk_size_witness :
  -1 < 0 /\
  Splitter.doc_id_to_chunk
    (Splitter.master_index no_collection_metadata [glossary_doc] (-1)) = [].
Proof.
  split; [lia|].
  exact (proj2 (proj2 (@splitter_negative_chunk_size no_collection_metadata
                         [glossary_doc] (-1) eq_refl))).
Defined.

Lemma splitter_completes_witness :
  10 <> 0 /\ read_only (@empty_world Splitter.Json) = []
  /\ forallb has_id (get_or [] (documents small_corpus)) = true
  /\ exists w',
       Splitter.split_maamarim_file (Some small_corpus) 10 empty_world = (w', Ok tt)
       /\ sget master_index_file (files w') =
          Some (JsonFile (Splitter.JMaster
                  (Splitter.master_index
                     (get_or no_collection_metadata (collection_metadata small_corpus))
                     (get_or [] (documents small_corpus)) 10))).
Proof.
  split; [discriminate|]. split; [reflexivity|]. split; [reflexivity|].
  apply (@splitter_completes small_corpus 10 empty_world); [discriminate | reflexivity..].
Defined.

Lemma splitter_missing_id_witness :
  0 < 10 /\ read_only (@empty_world Splitter.Json) = []
  /\ forallb has_id (get_or [] (documents corpus_without_id)) = false
  /\ exists w',
       Splitter.split_maamarim_file (Some corpus_without_id) 10 empty_world
       = (w', Raise (AttributeError (str "replace"))).
Proof.
  split; [lia|]. split; [reflexivity|]. split; [reflexivity|].
  apply (@splitter_missing_id corpus_without_id 10 empty_world); [lia | reflexivity..].
Defined.

(** ** Document ids and chunk numbers in the master index *)







(** X14: no list of chunk numbers in the master index is empty or has a number
    outside 1 .. num_chunks, and every number in the list of a value names a
    chunk with a document of the corpus that brings the value. *)
Theorem master_index_lists_sound (cm : CollectionMetadata) (documents : list Document)
    (docs_per_chunk : Z) (f : Facet) (value : pystr) (l : list Z) :
  sget value (facet_map f (Splitter.master_index cm documents docs_per_chunk)) = Some l ->
  l <> []
  /\ Forall (fun c => 1 <= c <= Splitter.num_chunks documents docs_per_chunk) l
  /\ Forall (fun c => exists doc,
                 In doc (Splitter.chunk_docs documents docs_per_chunk (c - 1))
                 /\ In doc documents
                 /\ In value (facet_values f doc)) l.
Proof.
  rewrite facet_map_master_index. intros H.
  assert (Hl : l = chunks_with_spec f documents docs_per_chunk value).
  { destruct (chunks_with_spec f documents docs_per_chunk value); simpl in H; congruence. }
  split.
  { intros ->. rewrite <- Hl in H. discriminate H. }
  subst l. unfold chunks_with_spec. split; apply Forall_forall; intros c Hc;
    apply in_map_iff in Hc as (k & <- & Hk); apply filter_In in Hk as [Hk Hhas].
  - apply In_range in Hk. lia.
  - unfold chunk_has in Hhas. apply str_in_In, in_flat_map in Hhas as (doc & Hdoc & Hv).
    exists doc. replace (k + 1 - 1) with k by lia.
    split; [assumption|]. split; [|assumption]. now apply slice_incl in Hdoc.
Qed.

Lemma master_index_lists_sound_witness :
  sget (str "Teshuvah")
       (facet_map TopicFacet
          (Splitter.master_index no_collection_metadata three_in_one_chunk 10)) = Some [1]
  /\ Forall (fun c => 1 <= c <= Splitter.num_chunks three_in_one_chunk 10) [1].
Proof.
  split; [reflexivity|].
  exact (proj1 (proj2 (@master_index_lists_sound no_collection_metadata three_in_one_chunk 10
                         TopicFacet (str "Teshuvah") [1] eq_refl))).
Defined.

Lemma sum_lengths {A} (ls : list (list A)) :
  fold_right Z.add 0 (map len ls) = len (concat ls).
Proof.
  induction ls as [|l ls IH]; simpl; [reflexivity|].
  rewrite IH. unfold len. rewrite length_app. lia.
Qed.

(** X15: the [chunk_info] of the master index has one entry per chunk, under the
    numbers 1, 2, ... in order; the document count of an entry is the length
    of its list of ids; and for a positive chunk size the counts add up to
    the number of documents. *)
Theorem chunk_info_counts (cm : CollectionMetadata) (documents : list Document)
    (docs_per_chunk : Z) :
  let info := Splitter.chunk_info (Splitter.master_index cm documents docs_per_chunk) in
  Dict.keys info =
  map (fun chunk_num => chunk_num + 1) (range (Splitter.num_chunks documents docs_per_chunk))
  /\ Forall (fun e => Splitter.document_count (snd e) = len (Splitter.ce_document_ids (snd e)))
            info
  /\ (0 < docs_per_chunk ->
      fold_right Z.add 0 (map (fun e => Splitter.document_count (snd e)) info)
      = len documents).
Proof.
  cbv zeta. unfold Splitter.master_index, range. rewrite chunk_info_rounds.
  unfold Dict.keys. rewrite !map_map. simpl. split; [reflexivity|]. split.
  - apply Forall_forall. intros e He. apply in_map_iff in He as (k & <- & _).
    simpl. unfold len. now rewrite length_map.
  - intros Hd.
    rewrite <- (chunks_concat documents Hd) at 2. rewrite <- sum_lengths.
    unfold Splitter.chunks, range. now rewrite !map_map.
Qed.

Lemma chunk_info_counts_witness :
  0 < 10 /\
  fold_right Z.add 0
    (map (fun e => Splitter.document_count (snd e))
         (Splitter.chunk_info
            (Splitter.master_index no_collection_metadata three_in_one_chunk 10)))
  = len three_in_one_chunk.
Proof.
  split; [lia|].
  exact (proj2 (proj2 (chunk_info_counts no_collection_metadata three_in_one_chunk 10))
           eq_refl).
Defined.

(** ** The files of the documents *)

Lemma replace_removes (a b : ascii) (s : pystr) :
  a <> b -> contains a (replace a b s) = false.
Proof.
  intros Hab. unfold contains, replace. induction s as [|c s IH]; simpl; [reflexivity|].
  rewrite IH, orb_false_r. destruct (Ascii.eqb c a) eqn:E.
  - apply Ascii.eqb_neq. assumption.
  - rewrite Ascii.eqb_sym. exact E.
Qed.

Lemma replace_keeps_out (a b c : ascii) (s : pystr) :
  c <> b -> contains c s = false -> contains c (replace a b s) = false.
Proof.
  intros Hcb. unfold contains, replace. induction s as [|x s IH]; simpl; [reflexivity|].
  intros H. apply orb_false_iff in H as [Hx Hs]. rewrite (IH Hs), orb_false_r.
  destruct (Ascii.eqb x a); [now apply Ascii.eqb_neq | exact Hx].
Qed.

Lemma split_none (sep : ascii) (s : pystr) : contains sep s = false -> split sep s = [s].
Proof.
  unfold contains. induction s as [|c s IH]; simpl; [reflexivity|].
  intros H. apply orb_false_iff in H as [Hc Hs].
  rewrite Ascii.eqb_sym, Hc, (IH Hs). reflexivity.
Qed.

Lemma contains_app (c : ascii) (a b : pystr) :
  contains c (a ++ b) = contains c a || contains c b.
Proof. unfold contains. apply existsb_app. Qed.

(** X16: the file of a document: its id with every slash and backslash turned
    into an underscore, the other characters and the length kept, so that
    the name has the one slash of its directory; two documents whose ids
    give the same name share the file, and the later one is what it holds. *)
Theorem doc_files_sanitized (cm : CollectionMetadata) (doc_id : pystr) :
  contains "/" (safe_doc_id doc_id) = false
  /\ contains "\" (safe_doc_id doc_id) = false
  /\ length (safe_doc_id doc_id) = length doc_id
  /\ split "/" (doc_file_name doc_id)
     = [str "maamarim_docs"; str "maamarim_doc_" ++ safe_doc_id doc_id ++ str ".json"]
  /\ (forall (doc : Document) (w : world Splitter.Json),
        id doc = Some doc_id -> read_only w = [] ->
        Splitter.write_doc cm doc w =
        (put_file (doc_file_name doc_id)
           (JsonFile (Splitter.JDoc {| Splitter.dd_collection_metadata := cm;
                                       Splitter.dd_document := doc |})) w, Ok tt))
  /\ (forall (doc1 doc2 : Document) (id1 : pystr) (w : world Splitter.Json),
        id doc1 = Some id1 -> id doc2 = Some doc_id ->
        safe_doc_id id1 = safe_doc_id doc_id -> read_only w = [] ->
        bind (Splitter.write_doc cm doc1) (fun _ => Splitter.write_doc cm doc2) w
        = Splitter.write_doc cm doc2 w).
Proof.
  assert (Hslash : contains "/" (safe_doc_id doc_id) = false).
  { unfold safe_doc_id. apply replace_keeps_out; [discriminate|].
    apply replace_removes. discriminate. }
  assert (Hwrite : forall (i : pystr) (doc : Document) (w : world Splitter.Json),
            id doc = Some i -> read_only w = [] ->
            Splitter.write_doc cm doc w =
            (put_file (doc_file_name i)
               (JsonFile (Splitter.JDoc {| Splitter.dd_collection_metadata := cm;
                                           Splitter.dd_document := doc |})) w, Ok tt)).
  { intros i doc w Hid Hw. unfold Splitter.write_doc. rewrite Hid.
    rewrite json_dump_ok by now rewrite Hw. reflexivity. }
  split; [exact Hslash|]. split.
  { unfold safe_doc_id. apply replace_removes. discriminate. }
  split.
  { unfold safe_doc_id, replace. now rewrite !length_map. }
  split.
  { unfold doc_file_name.
    change (str "maamarim_docs/maamarim_doc_" ++ safe_doc_id doc_id ++ str ".json")
      with (str "maamarim_docs"
            ++ "/"%char :: (str "maamarim_doc_" ++ safe_doc_id doc_id ++ str ".json")).
    rewrite split_app.
    rewrite (split_none "/" (str "maamarim_docs")) by reflexivity.
    rewrite split_none; [reflexivity|].
    rewrite !contains_app, Hslash. reflexivity. }
  split; [intros doc w; apply Hwrite|].
  intros doc1 doc2 id1 w H1 H2 Hsame Hw. unfold bind.
  rewrite (Hwrite id1 doc1 w H1 Hw).
  rewrite (Hwrite doc_id doc2 _ H2) by (simpl; exact Hw).
  rewrite (Hwrite doc_id doc2 w H2 Hw).
  unfold doc_file_name. rewrite Hsame. now rewrite put_file_put_file.
Qed.

Lemma doc_files_sanitized_witness :
  id (fst colliding_docs) = Some (str "5711/1") /\ id (snd colliding_docs) = Some (str "5711_1")
  /\ safe_doc_id (str "5711/1") = safe_doc_id (str "5711_1")
  /\ bind (Splitter.write_doc no_collection_metadata (fst colliding_docs))
          (fun _ => Splitter.write_doc no_collection_metadata (snd colliding_docs))
          empty_world
     = Splitter.write_doc no_collection_metadata (snd colliding_docs) empty_world.
Proof.
  split; [reflexivity|]. split; [reflexivity|]. split; [reflexivity|].
  exact (proj2 (proj2 (proj2 (proj2 (proj2
           (doc_files_sanitized no_collection_metadata (str "5711_1"))))))
           (fst colliding_docs) (snd colliding_docs) (str "5711/1") empty_world
           eq_refl eq_refl eq_refl eq_refl).
Defined.

(** ** Parsing one glossary entry *)

Lemma split1_first (sep : ascii) (a b : pystr) :
  contains sep a = false -> split1 sep (a ++ sep :: b) = [a; b].
Proof.
  unfold contains. induction a as [|c a IH]; simpl.
  - now rewrite Ascii.eqb_refl.
  - intros H. apply orb_false_iff in H as [Hc Ha].
    rewrite Ascii.eqb_sym, Hc, (IH Ha). reflexivity.
Qed.

Lemma dropwhile_idem {A} (p : A -> bool) (l : list A) :
  dropwhile p (dropwhile p l) = dropwhile p l.
Proof.
  induction l as [|x l IH]; simpl; [reflexivity|].
  destruct (p x) eqn:E; [exact IH | simpl; now rewrite E].
Qed.

Lemma rstrip_of_snoc_stop (p : ascii -> bool) (s : pystr) (c : ascii) :
  p c = false -> rstrip_of p (s ++ [c]) = s ++ [c].
Proof.
  intros H. unfold rstrip_of. rewrite rev_app_distr. simpl. rewrite H.
  simpl. now rewrite rev_involutive.
Qed.

Lemma rstrip_of_snoc_drop (p : ascii -> bool) (s : pystr) (c : ascii) :
  p c = true -> rstrip_of p (s ++ [c]) = rstrip_of p s.
Proof.
  intros H. unfold rstrip_of. rewrite rev_app_distr. simpl. now rewrite H.
Qed.

Lemma strip_cons_space (c : ascii) (s : pystr) : isspace c = true -> strip (c :: s) = strip s.
Proof. intros H. unfold strip, lstrip_of. simpl. now rewrite H. Qed.

Lemma strip_lstrip (s : pystr) : strip (dropwhile isspace s) = strip s.
Proof. unfold strip, lstrip_of. now rewrite dropwhile_idem. Qed.

Lemma dropwhile_app_keep {A} (p : A -> bool) (a b : list A) :
  forallb p a = false -> dropwhile p (a ++ b) = dropwhile p a ++ b.
Proof.
  induction a as [|x a IH]; simpl; [discriminate|].
  destruct (p x); simpl; [exact IH | reflexivity].
Qed.

Lemma strip_snoc_space (c : ascii) (s : pystr) :
  isspace c = true -> strip (s ++ [c]) = strip s.
Proof.
  intros H. destruct (forallb isspace s) eqn:E.
  - assert (E' : forallb isspace (s ++ [c]) = true)
      by (rewrite forallb_app, E; simpl; now rewrite H).
    apply strip_nil in E, E'. congruence.
  - unfold strip, lstrip_of. rewrite dropwhile_app_keep by assumption.
    now apply rstrip_of_snoc_drop.
Qed.

(** A dropped prefix leaves a string that starts with a character that stays,
    and cutting the end of such a string keeps that start. *)
Lemma rstrip_keeps_lstripped (p : ascii -> bool) (s : pystr) :
  dropwhile p (rstrip_of p (dropwhile p s)) = rstrip_of p (dropwhile p s).
Proof.
  induction s as [|x s IH]; [reflexivity|].
  simpl. destruct (p x) eqn:E; [exact IH|].
  unfold rstrip_of. simpl. rewrite dropwhile_app_stop by assumption.
  rewrite rev_app_distr. simpl. now rewrite E.
Qed.

Lemma strip_idem (s : pystr) : strip (strip s) = strip s.
Proof.
  unfold strip at 1. unfold lstrip_of.
  unfold strip. unfold lstrip_of. rewrite rstrip_keeps_lstripped.
  unfold rstrip_of. now rewrite rev_involutive, dropwhile_idem.
Qed.

(** X17: an entry written as in the comment of line 110, Hebrew term, the
    transliteration in parentheses, a colon and the definition, parses back
    to its three parts, trimmed; the definition may hold colons and
    parentheses of its own; without the parentheses the transliteration is
    empty. *)
Theorem parse_entry_formatted (h t e : pystr) :
  contains ":" h = false -> contains "(" h = false ->
  (contains ":" t = false -> contains "(" t = false ->
   parse_entry (h ++ str " (" ++ t ++ str "): " ++ e)
   = Some {| hebrew_term := strip h;
             transliteration := strip (rstrip (str ")") t);
             english_part := strip e |})
  /\ parse_entry (h ++ str ": " ++ e)
     = Some {| hebrew_term := strip h; transliteration := []; english_part := strip e |}.
Proof.
  intros Hh1 Hh2. split.
  - intros Ht1 Ht2.
    change (h ++ str " (" ++ t ++ str "): " ++ e)
      with (h ++ " "%char :: "("%char :: (t ++ ")"%char :: ":"%char :: " "%char :: e)).
    set (A := (h ++ [" "%char]) ++ "("%char :: (t ++ [")"%char])).
    replace (h ++ " "%char :: "("%char :: (t ++ ")"%char :: ":"%char :: " "%char :: e))
      with (A ++ ":"%char :: (" "%char :: e)).
    2:{ unfold A. rewrite <- !app_assoc. simpl. rewrite <- app_assoc. reflexivity. }
    assert (HA : contains ":" A = false).
    { unfold A. rewrite !contains_app. simpl. rewrite Hh1. rewrite contains_app, Ht1.
      reflexivity. }
    unfold parse_entry. rewrite contains_app, HA. simpl orb.
    rewrite (split1_first ":" A _ HA). cbn [item nth].
    rewrite (strip_cons_space " " e eq_refl).
    set (L := dropwhile isspace (h ++ [" "%char])).
    assert (HsA : strip A = L ++ "("%char :: (t ++ [")"%char])).
    { unfold strip, lstrip_of, A. rewrite dropwhile_app_stop by reflexivity. fold L.
      change (L ++ "("%char :: t ++ [")"%char]) with (L ++ ("("%char :: t) ++ [")"%char]).
      rewrite app_assoc. now apply rstrip_of_snoc_stop. }
    rewrite HsA.
    assert (HL : contains "(" L = false).
    { apply contains_incl with (s' := h ++ [" "%char]); [apply dropwhile_incl|].
      rewrite contains_app, Hh2. reflexivity. }
    assert (Ht : contains "(" (t ++ [")"%char]) = false)
      by (rewrite contains_app, Ht2; reflexivity).
    rewrite contains_app. simpl contains at 2. rewrite orb_true_r.
    rewrite split_app, (split_none "(" L HL), (split_none "(" _ Ht). cbn [app item nth].
    unfold L. rewrite strip_lstrip, (strip_snoc_space " " h eq_refl).
    unfold rstrip. rewrite rstrip_of_snoc_drop by reflexivity. reflexivity.
  - change (h ++ str ": " ++ e) with (h ++ ":"%char :: (" "%char :: e)).
    unfold parse_entry. rewrite contains_app. simpl contains at 2. rewrite orb_true_r.
    rewrite (split1_first ":" h _ Hh1). cbn [item nth].
    rewrite (strip_cons_space " " e eq_refl).
    rewrite (contains_incl "(" (strip_incl h) Hh2). reflexivity.
Qed.

Lemma parse_entry_formatted_witness :
  contains ":" (str "Aleph") = false /\ contains "(" (str "Aleph") = false
  /\ parse_entry (str "Aleph: first letter (of the alphabet): silent")
     = Some {| hebrew_term := str "Aleph"; transliteration := [];
               english_part := str "first letter (of the alphabet): silent" |}.
Proof.
  split; [reflexivity|]. split; [reflexivity|].
  exact (proj2 (@parse_entry_formatted (str "Aleph") []
                  (str "first letter (of the alphabet): silent") eq_refl eq_refl)).
Defined.

(** X18: the candidate entries of a glossary text are never empty, carry no
    semicolon and no whitespace at either end. *)
Theorem glossary_entries_trimmed (glossary_text entry : pystr) :
  In entry (glossary_entries glossary_text) ->
  entry <> [] /\ strip entry = entry /\ contains ";" entry = false.
Proof.
  rewrite glossary_entries_unguarded. intros H.
  apply in_map_iff in H as (piece & <- & Hp). apply filter_In in Hp as [Hp Ht].
  split; [|split].
  - intros E. rewrite E in Ht. discriminate.
  - apply strip_idem.
  - apply contains_incl with (s' := piece); [apply strip_incl|].
    clear Ht. revert piece Hp. generalize (lstrip (str "|") glossary_text). intros s.
    induction s as [|c s IH]; simpl; intros piece Hp.
    + destruct Hp as [<-|[]]. reflexivity.
    + destruct (Ascii.eqb c ";") eqn:E.
      * destruct Hp as [<-|Hp]; [reflexivity | now apply IH].
      * pose proof (split_not_nil ";" s) as Hn.
        destruct (split ";" s) as [|w ws]; [contradiction|].
        destruct Hp as [<-|Hp].
        -- assert (Hw : contains ";" w = false) by (apply IH; now left).
           unfold contains in *. cbn [existsb]. now rewrite Hw, Ascii.eqb_sym, E.
        -- apply IH. now right.
Qed.

Lemma glossary_entries_trimmed_witness :
  In (str "Bet (Vet): second letter")
     (glossary_entries (str "|Aleph (Alef): first letter;  Bet (Vet): second letter ; "))
  /\ strip (str "Bet (Vet): second letter") = str "Bet (Vet): second letter".
Proof.
  split; [right; now left|].
  exact (proj1 (proj2 (@glossary_entries_trimmed
                         (str "|Aleph (Alef): first letter;  Bet (Vet): second letter ; ")
                         (str "Bet (Vet): second letter") (or_intror (or_introl eq_refl))))).
Defined.

(** ** The date index *)

(** X19: under a date the index lists the ids of the documents that carry it
    as Hebrew or as Gregorian date, in the order of the input; a document
    whose two dates are the same string is listed twice, and an empty date
    is never a key. *)
Theorem date_index_lists (documents : list Document) (date : pystr) :
  sget date (Indexer.date_index (Indexer.build documents)) =
  appended None
    (flat_map (fun doc => map (fun _ => Indexer.doc_id_of doc)
                              (filter (str_eqb date) (facet_values DateFacet doc)))
              documents)
  /\ smem date (Indexer.date_index (Indexer.build documents))
     = truthy date
       && str_in date
            (flat_map (fun doc => [get_or [] (hebrew_date (doc_metadata doc));
                                   get_or [] (gregorian_date (doc_metadata doc))])
                      documents).
Proof.
  unfold Indexer.build. rewrite date_index_fold. simpl Indexer.date_index. split.
  - rewrite sget_register, filed_under_flat_map. simpl sget. f_equal.
    apply flat_map_ext. intros doc. apply filed_under_map.
  - rewrite smem_register. unfold date_registrations.
    rewrite (registrations_keys (facet_values DateFacet)
               (fun doc _ => Indexer.doc_id_of doc)).
    cbn [facet_values].
    rewrite <- (filter_flat_map truthy
                  (fun doc => [get_or [] (hebrew_date (doc_metadata doc));
                               get_or [] (gregorian_date (doc_metadata doc))])).
    apply str_in_filter.
Qed.
